(** * XIII.Galery: the telemetry-driven gallery scene of [src/main.js]

    A shallow embedding of the module-level state of [main.js] and of the
    functions that mutate it ([updateSpaceWeather], [updateLightsFromNOAA],
    [toggleAutopilot], [toggleFX], [moveCamera], [stopCamera],
    [nextContent], [prevContent], [randomContent], [animate]), of
    [hslToHex], of the joystick listeners and of the file name
    [loadContent] asks for, followed by the properties of the
    specification that concern them and by further properties of the
    code.

    Conventions.
    - A JavaScript Number is a [number]: a real, or one of the three
      non-finite values.  Arithmetic on finite values is exact (rounding,
      overflow and the sign of zero are not modelled); the non-finite cases
      follow IEEE 754 as ECMAScript does.
    - Module-level [let] variables become the fields of [AppState]; a
      function that mutates them becomes a function [AppState -> AppState].
    - What a function reads from outside the program (the six NOAA
      replies, [Date.now()], [Math.random()], the pose OrbitControls
      leaves behind) is an explicit argument.
    - The NOAA replies come in two models.  [Payload] and [Telemetry]
      take replies that follow the schema of the endpoints: series of
      records whose sunspot number is a Number and whose flare classes
      are strings.  [Dynamic] takes JSON arrays of any content, keeps
      [ssn] and [recentFlare] as the values they are, and has the
      statements of the [try] block throw where they do in JavaScript.
      The two agree on replies that follow the schema
      ([refresh_of_replies]).
    - DOM writes (button captions, the telemetry read-outs, the colour
      of the lights, the joystick thumb) and texture loading only display
      state; they are left out. *)

From Stdlib Require Import Reals Lra ZArith Lia String Ascii List Bool.
From Stdlib Require HexString.
From stdpp Require Import gmap strings pretty.

Open Scope R_scope.

(** ** JavaScript numbers *)

Module JS.

Inductive number : Type :=
  | NaN
  | Fin (x : R)
  | PInf
  | NInf.

(** Sign of a real, for the products and quotients with an infinity. *)
Definition Rsign (x : R) : comparison :=
  if Rlt_dec x 0 then Lt else if Rlt_dec 0 x then Gt else Eq.

Definition nneg (a : number) : number :=
  match a with
  | NaN => NaN
  | Fin x => Fin (- x)
  | PInf => NInf
  | NInf => PInf
  end.

Definition nadd (a b : number) : number :=
  match a, b with
  | NaN, _ | _, NaN => NaN
  | Fin x, Fin y => Fin (x + y)
  | PInf, NInf | NInf, PInf => NaN
  | PInf, _ | _, PInf => PInf
  | NInf, _ | _, NInf => NInf
  end.

Definition nsub (a b : number) : number := nadd a (nneg b).

(** [s] times an infinity of sign [t]. *)
Definition inf_signed (s t : comparison) : number :=
  match s, t with
  | Eq, _ | _, Eq => NaN
  | Lt, Lt | Gt, Gt => PInf
  | _, _ => NInf
  end.

Definition nmul (a b : number) : number :=
  match a, b with
  | NaN, _ | _, NaN => NaN
  | Fin x, Fin y => Fin (x * y)
  | Fin x, PInf | PInf, Fin x => inf_signed (Rsign x) Gt
  | Fin x, NInf | NInf, Fin x => inf_signed (Rsign x) Lt
  | PInf, PInf | NInf, NInf => PInf
  | PInf, NInf | NInf, PInf => NInf
  end.

(** Division.  A zero divisor is taken as [+0]; every divisor in
    [main.js] is a non-zero literal. *)
Definition ndiv (a b : number) : number :=
  match a, b with
  | NaN, _ | _, NaN => NaN
  | Fin x, Fin y =>
      if Req_dec_T y 0 then inf_signed (Rsign x) Gt else Fin (x / y)
  | Fin _, _ => Fin 0
  | PInf, Fin y => if Rlt_dec y 0 then NInf else PInf
  | NInf, Fin y => if Rlt_dec y 0 then PInf else NInf
  | _, _ => NaN
  end.

(** [a < b]; false as soon as an operand is [NaN]. *)
Definition nlt (a b : number) : bool :=
  match a, b with
  | NaN, _ | _, NaN => false
  | Fin x, Fin y => if Rlt_dec x y then true else false
  | NInf, NInf | PInf, _ | _, NInf => false
  | NInf, _ | _, PInf => true
  end.

Definition ngt (a b : number) : bool := nlt b a.

(** [Math.min] and [Math.max] of two arguments. *)
Definition nmin (a b : number) : number :=
  match a, b with
  | NaN, _ | _, NaN => NaN
  | _, _ => if nlt b a then b else a
  end.

Definition nmax (a b : number) : number :=
  match a, b with
  | NaN, _ | _, NaN => NaN
  | _, _ => if nlt a b then b else a
  end.

Definition nabs (a : number) : number :=
  match a with
  | NaN => NaN
  | Fin x => Fin (Rabs x)
  | PInf | NInf => PInf
  end.

Definition log10 (x : R) : R := ln x / ln 10.

(** [Math.log10]. *)
Definition nlog10 (a : number) : number :=
  match a with
  | Fin x =>
      if Rlt_dec x 0 then NaN
      else if Req_dec_T x 0 then NInf
      else Fin (log10 x)
  | PInf => PInf
  | NaN | NInf => NaN
  end.

(** [Math.sin]. *)
Definition nsin (a : number) : number :=
  match a with
  | Fin x => Fin (sin x)
  | _ => NaN
  end.

(** A finite value between 0 and 1. *)
Definition in_unit_interval (a : number) : Prop :=
  match a with Fin x => 0 <= x <= 1 | _ => False end.

(** ToBoolean on a Number: [NaN] and zero are falsy. *)
Definition truthy (a : number) : bool :=
  match a with
  | NaN => false
  | Fin x => if Req_dec_T x 0 then false else true
  | PInf | NInf => true
  end.

(** [a || b] on Numbers. *)
Definition nor (a b : number) : number := if truthy a then a else b.

(** A literal or a finite quantity used as a Number, and the operators as
    the source writes them. *)
Coercion Fin : R >-> number.

Declare Scope js_scope.
Delimit Scope js_scope with J.
Bind Scope js_scope with number.
Infix "+" := nadd : js_scope.
Infix "-" := nsub : js_scope.
Infix "*" := nmul : js_scope.
Infix "/" := ndiv : js_scope.
Infix "<" := nlt : js_scope.
Infix ">" := ngt : js_scope.
Infix "||" := nor : js_scope.

End JS.

(** ** JSON scalars and [parseFloat] *)

Module Json.
Import JS.

(** The value of a field of a NOAA record: absent ([undefined]), [null],
    a number or a string.  The records are flat. *)
Inductive jsval : Type :=
  | JUndefined
  | JNull
  | JNum (x : R)
  | JStr (s : string).

Definition digit_of (c : ascii) : option Z :=
  let n := Z.of_nat (nat_of_ascii c) in
  if ((48 <=? n) && (n <=? 57))%Z then Some (n - 48)%Z else None.

(** The longest run of decimal digits at the head of [s]: its value, its
    length and what follows it. *)
Fixpoint digits (s : string) (acc : Z) (len : nat) : Z * nat * string :=
  match s with
  | String c s' =>
      match digit_of c with
      | Some d => digits s' (10 * acc + d)%Z (S len)
      | None => (acc, len, s)
      end
  | EmptyString => (acc, len, s)
  end.

Definition unsigned_digits (s : string) : option Z :=
  let '(v, len, _) := digits s 0%Z 0%nat in
  match len with O => None | S _ => Some v end.

(** ExponentPart, when [s] starts with one; exponent 0 otherwise. *)
Definition exponent_part (s : string) : Z :=
  match s with
  | String c s' =>
      if (Ascii.eqb c "e" || Ascii.eqb c "E")%char then
        match s' with
        | String "+" s'' => default 0%Z (unsigned_digits s'')
        | String "-" s'' => default 0%Z (Z.opp <$> unsigned_digits s'')
        | _ => default 0%Z (unsigned_digits s')
        end
      else 0%Z
  | EmptyString => 0%Z
  end.

Definition pow10 (e : Z) : R := powerRZ 10 e.

(** The longest prefix of [s] that is a StrUnsignedDecimalLiteral. *)
Definition unsigned_literal (s : string) : option number :=
  if String.prefix "Infinity" s then Some PInf
  else
    let '(ip, n1, r1) := digits s 0%Z 0%nat in
    match r1 with
    | String "." r2 =>
        let '(fp, n2, r3) := digits r2 0%Z 0%nat in
        match n1, n2 with
        | O, O => None
        | _, _ =>
            Some (Fin (IZR (ip * 10 ^ Z.of_nat n2 + fp)
                       * pow10 (exponent_part r3 - Z.of_nat n2)))
        end
    | _ =>
        match n1 with
        | O => None
        | S _ => Some (Fin (IZR ip * pow10 (exponent_part r1)))
        end
    end.

Definition decimal_literal (s : string) : option number :=
  match s with
  | String "+" s' => unsigned_literal s'
  | String "-" s' => nneg <$> unsigned_literal s'
  | _ => unsigned_literal s
  end.

Definition is_space (c : ascii) : bool :=
  let n := nat_of_ascii c in
  ((9 <=? n) && (n <=? 13) || (n =? 32))%nat.

Fixpoint skip_spaces (s : string) : string :=
  match s with
  | String c s' => if is_space c then skip_spaces s' else s
  | EmptyString => s
  end.

(** [parseFloat] on a string: leading white space is skipped, the longest
    numeric prefix is read, and anything after it is ignored. *)
Definition parseFloat_string (s : string) : number :=
  default NaN (decimal_literal (skip_spaces s)).

(** [parseFloat v] converts [v] to a string first: a number reads back as
    itself, while ["undefined"] and ["null"] have no numeric prefix. *)
Definition parseFloat (v : jsval) : number :=
  match v with
  | JNum x => Fin x
  | JStr s => parseFloat_string s
  | JUndefined | JNull => NaN
  end.

End Json.

(** ** The NOAA replies *)

(** One record per endpoint, holding the fields [updateSpaceWeather]
    reads.  A field that goes through [parseFloat] may hold any scalar.
    [predicted_ssn] is stored as it comes and later used as a Number
    ([toFixed], arithmetic), and the two flare classes are used as strings
    ([startsWith]): they are typed accordingly, [None] standing for an
    absent or [null] field.  Replies of any other content (a sunspot
    number that is not a Number, a series entry that is [null], a flare
    class that is not a string) are the matter of [Dynamic] below. *)
Module Payload.
Import Json.

Record SolarCycle := { predicted_ssn : option R }.
Record Flux := { flux : jsval }.
Record Kp := { kp_index : jsval }.
Record Wind := { wind_speed : jsval; bz : jsval }.
Record Flare := { current_class : option string; max_class : option string }.

(** What [Promise.all] resolves to.  A request that fails, or whose body
    is not JSON, is caught and becomes [null]: [None] here.  A reply is a
    time series, oldest entry first. *)
Record Replies := {
  rSSN : option (list SolarCycle);
  rProton : option (list Flux);
  rFlare : option (list Flare);
  rKp : option (list Kp);
  rWind : option (list Wind);
  rElectron : option (list Flux)
}.

(** Every request failed. *)
Definition no_reply : Replies :=
  {| rSSN := None; rProton := None; rFlare := None;
     rKp := None; rWind := None; rElectron := None |}.

End Payload.

(** ** The telemetry snapshot *)

Module Telemetry.
Import JS Json.

(** The object [noaaData]. *)
Record NoaaData := {
  ssn : number;
  kp : number;
  bz : number;
  solarWind : number;
  protonFlux : number;
  electronFlux : number;
  stormLevel : number;
  radiationLevel : number;
  recentFlare : string
}.

(** Its initial value (lines 20-30). *)
Definition noaaData0 : NoaaData :=
  {| ssn := Fin 50; kp := Fin 2; bz := Fin 0; solarWind := Fin 400;
     protonFlux := Fin 1; electronFlux := Fin 100;
     stormLevel := Fin 0; radiationLevel := Fin 0;
     recentFlare := "None" |}.

(** Assignments to one property. *)
Definition set_ssn (v : number) (d : NoaaData) : NoaaData :=
  {| ssn := v; kp := kp d; bz := bz d; solarWind := solarWind d;
     protonFlux := protonFlux d; electronFlux := electronFlux d;
     stormLevel := stormLevel d; radiationLevel := radiationLevel d;
     recentFlare := recentFlare d |}.
Definition set_kp (v : number) (d : NoaaData) : NoaaData :=
  {| ssn := ssn d; kp := v; bz := bz d; solarWind := solarWind d;
     protonFlux := protonFlux d; electronFlux := electronFlux d;
     stormLevel := stormLevel d; radiationLevel := radiationLevel d;
     recentFlare := recentFlare d |}.
Definition set_bz (v : number) (d : NoaaData) : NoaaData :=
  {| ssn := ssn d; kp := kp d; bz := v; solarWind := solarWind d;
     protonFlux := protonFlux d; electronFlux := electronFlux d;
     stormLevel := stormLevel d; radiationLevel := radiationLevel d;
     recentFlare := recentFlare d |}.
Definition set_solarWind (v : number) (d : NoaaData) : NoaaData :=
  {| ssn := ssn d; kp := kp d; bz := bz d; solarWind := v;
     protonFlux := protonFlux d; electronFlux := electronFlux d;
     stormLevel := stormLevel d; radiationLevel := radiationLevel d;
     recentFlare := recentFlare d |}.
Definition set_protonFlux (v : number) (d : NoaaData) : NoaaData :=
  {| ssn := ssn d; kp := kp d; bz := bz d; solarWind := solarWind d;
     protonFlux := v; electronFlux := electronFlux d;
     stormLevel := stormLevel d; radiationLevel := radiationLevel d;
     recentFlare := recentFlare d |}.
Definition set_electronFlux (v : number) (d : NoaaData) : NoaaData :=
  {| ssn := ssn d; kp := kp d; bz := bz d; solarWind := solarWind d;
     protonFlux := protonFlux d; electronFlux := v;
     stormLevel := stormLevel d; radiationLevel := radiationLevel d;
     recentFlare := recentFlare d |}.
Definition set_stormLevel (v : number) (d : NoaaData) : NoaaData :=
  {| ssn := ssn d; kp := kp d; bz := bz d; solarWind := solarWind d;
     protonFlux := protonFlux d; electronFlux := electronFlux d;
     stormLevel := v; radiationLevel := radiationLevel d;
     recentFlare := recentFlare d |}.
Definition set_radiationLevel (v : number) (d : NoaaData) : NoaaData :=
  {| ssn := ssn d; kp := kp d; bz := bz d; solarWind := solarWind d;
     protonFlux := protonFlux d; electronFlux := electronFlux d;
     stormLevel := stormLevel d; radiationLevel := v;
     recentFlare := recentFlare d |}.
Definition set_recentFlare (v : string) (d : NoaaData) : NoaaData :=
  {| ssn := ssn d; kp := kp d; bz := bz d; solarWind := solarWind d;
     protonFlux := protonFlux d; electronFlux := electronFlux d;
     stormLevel := stormLevel d; radiationLevel := radiationLevel d;
     recentFlare := v |}.

(** [r[r.length - 1]?.f] on an array of records: the field [f] of the
    last entry, [undefined] when the array is empty. *)
Definition last_field {A : Type} (f : A -> jsval) (l : list A) : jsval :=
  match last l with
  | Some e => f e
  | None => JUndefined
  end.

(** [x || dflt] for an optional Number [x]. *)
Definition num_or (x : option R) (dflt : number) : number :=
  match x with
  | Some v => (v || dflt)%J
  | None => dflt
  end.

(** [ToBoolean] on an optional string and [a || b] on such values; the
    empty string is falsy. *)
Definition str_truthy (a : option string) : bool :=
  match a with
  | Some s => negb (String.eqb s "")
  | None => false
  end.

Definition str_or (a b : option string) : option string :=
  if str_truthy a then a else b.

(** [s.startsWith(p)]. *)
Definition startsWith (s p : string) : bool := String.prefix p s.

(** Line 127. *)
Definition flareBoost (flare : string) : R :=
  if startsWith flare "X" then 0.8
  else if startsWith flare "M" then 0.3
  else 0.

(** Lines 114-125: the raw fields.  Each [if] is one step, in source
    order. *)
Definition update_ssn (r : Payload.Replies) (d : NoaaData) : NoaaData :=
  match Payload.rSSN r with
  | Some l => set_ssn (num_or (last l ≫= Payload.predicted_ssn) 50) d
  | None => d
  end.

Definition update_protonFlux (r : Payload.Replies) (d : NoaaData) : NoaaData :=
  match Payload.rProton r with
  | Some l =>
      set_protonFlux (parseFloat (last_field Payload.flux l) || 1)%J d
  | None => d
  end.

Definition update_kp (r : Payload.Replies) (d : NoaaData) : NoaaData :=
  match Payload.rKp r with
  | Some l =>
      set_kp (parseFloat (last_field Payload.kp_index l) || 2)%J d
  | None => d
  end.

(** [rWind?.length] is falsy for [null] and for the empty array. *)
Definition update_wind (r : Payload.Replies) (d : NoaaData) : NoaaData :=
  match Payload.rWind r ≫= last with
  | Some e =>
      set_bz (parseFloat (Payload.bz e) || 0)%J
        (set_solarWind (parseFloat (Payload.wind_speed e) || 400)%J d)
  | None => d
  end.

Definition update_electronFlux (r : Payload.Replies) (d : NoaaData) : NoaaData :=
  match Payload.rElectron r with
  | Some l =>
      set_electronFlux (parseFloat (last_field Payload.flux l) || 100)%J d
  | None => d
  end.

Definition update_recentFlare (r : Payload.Replies) (d : NoaaData) : NoaaData :=
  match Payload.rFlare r ≫= last with
  | Some latest =>
      set_recentFlare
        (default "None"
           (str_or (str_or (Payload.current_class latest)
                           (Payload.max_class latest))
                   (Some "None")))
        d
  | None => d
  end.

Definition update_raw (r : Payload.Replies) (d : NoaaData) : NoaaData :=
  update_recentFlare r
    (update_electronFlux r
      (update_wind r
        (update_kp r
          (update_protonFlux r
            (update_ssn r d))))).

(** Lines 127-129: the derived fields, from the raw fields just stored. *)
Definition derive_radiationLevel (d : NoaaData) : number :=
  nmin 1 (nlog10 (protonFlux d + 1) / 5 + flareBoost (recentFlare d))%J.

Definition derive_stormLevel (d : NoaaData) : number :=
  nmin 1 (kp d / 9 + (if (bz d < 0)%J then nabs (bz d) / 20 else 0))%J.

Definition derive (d : NoaaData) : NoaaData :=
  let d1 := set_radiationLevel (derive_radiationLevel d) d in
  set_stormLevel (derive_stormLevel d1) d1.

(** The snapshot [updateSpaceWeather] leaves in [noaaData], given the six
    replies (lines 114-129). *)
Definition refresh (r : Payload.Replies) (d : NoaaData) : NoaaData :=
  derive (update_raw r d).

(** The snapshots the program can hold: [noaaData] starts as
    [noaaData0] and is written by [updateSpaceWeather] only. *)
Inductive reachable : NoaaData -> Prop :=
  | reachable_init : reachable noaaData0
  | reachable_refresh (r : Payload.Replies) (d : NoaaData) :
      reachable d -> reachable (refresh r d).

(** The derived fields as the specification writes them (section 4.1):
    [flareBoost] is 0.8 for a class starting with X, 0.3 for M, else 0;
    [radiationLevel = min(1, log10(protonFlux+1)/5 + flareBoost)];
    [stormLevel = min(1, kIndex/9 + max(0,-bz)/20)]. *)
Definition spec_flareBoost (recentFlareClass : string) : R :=
  if String.prefix "X" recentFlareClass then 0.8
  else if String.prefix "M" recentFlareClass then 0.3
  else 0.

Definition spec_radiationLevel (flux : number) (recentFlareClass : string) : number :=
  nmin 1 (nlog10 (flux + 1) / 5 + spec_flareBoost recentFlareClass)%J.

Definition spec_stormLevel (kIndex field : number) : number :=
  nmin 1 (kIndex / 9 + nmax 0 (nneg field) / 20)%J.

End Telemetry.

(** ** Vectors of three.js *)

Module Vector3.

Record Vec3 := { x : R; y : R; z : R }.

Definition zero : Vec3 := {| x := 0; y := 0; z := 0 |}.

Definition add (a b : Vec3) : Vec3 :=
  {| x := x a + x b; y := y a + y b; z := z a + z b |}.

Definition sub (a b : Vec3) : Vec3 :=
  {| x := x a - x b; y := y a - y b; z := z a - z b |}.

Definition multiplyScalar (a : Vec3) (s : R) : Vec3 :=
  {| x := x a * s; y := y a * s; z := z a * s |}.

(** [a.addScaledVector(v, s)]. *)
Definition addScaledVector (a v : Vec3) (s : R) : Vec3 :=
  add a (multiplyScalar v s).

Definition crossVectors (a b : Vec3) : Vec3 :=
  {| x := y a * z b - z a * y b;
     y := z a * x b - x a * z b;
     z := x a * y b - y a * x b |}.

Definition length (a : Vec3) : R :=
  sqrt (x a * x a + y a * y a + z a * z a).

(** [a.normalize()] is [a.divideScalar(a.length() || 1)]. *)
Definition normalize (a : Vec3) : Vec3 :=
  let l := length a in
  multiplyScalar a (1 / (if Req_dec_T l 0 then 1 else l)).

End Vector3.

(** ** Application state *)

Module App.
Import JS Json Telemetry.
Export Vector3(Vec3).

(** [currentType], which only ever holds ['jpg'] or ['gif']. *)
Inductive MediaType : Type := jpg | gif.

Record Content := {
  currentIndex : Z;
  currentType : MediaType
}.

(** The camera as the program uses it: its position and the direction it
    looks in ([getWorldDirection]); [camera.up] stays at its default. *)
Record Camera := {
  position : Vec3;
  worldDirection : Vec3
}.

Definition camera_up : Vec3 := {| Vector3.x := 0; Vector3.y := 1; Vector3.z := 0 |}.

(** Navigation: the two modes, their clocks, the move flags (the object
    [moveState], keyed by direction name), the camera and the orbit target
    ([controls.target]). *)
Record Nav := {
  isAutopilot : bool;
  autopilotTime : R;
  autopilotContentTimer : R;
  moveState : gmap string bool;
  camera : Camera;
  target : Vec3
}.

(** A spot light: [intensity] and [userData.baseIntensity]. *)
Record Light := {
  intensity : number;
  baseIntensity : number
}.

(** [window.reactiveFrame]: material emissive colour (as [0xRRGGBB]) and
    intensity, [rotation.z], [position.y] and [userData.baseY]. *)
Record Frame := {
  emissive : Z;
  emissiveIntensity : number;
  rotationZ : number;
  positionY : number;
  baseY : number
}.

(** [dustParticles]: [position.y], [rotation.y], [material.opacity]. *)
Record Dust := {
  dustPositionY : number;
  dustRotationY : number;
  dustOpacity : number
}.

(** [starField]: [rotation.y], [position.z], [material.opacity]. *)
Record Stars := {
  starRotationY : number;
  starPositionZ : number;
  starOpacity : number
}.

(** The scene handles the animation writes to.  [lights] is the object
    keyed by ['left'], ['center'], ['right']; a handle that is still
    [null] or [undefined] is [None]. *)
Record Scene := {
  lights : gmap string Light;
  reactiveFrame : option Frame;
  dustParticles : option Dust;
  starField : Stars;
  ambientIntensity : number
}.

Record AppState := {
  isDynamic : bool;
  nav : Nav;
  content : Content;
  noaaData : NoaaData;
  scene : Scene
}.

Definition set_isDynamic (b : bool) (s : AppState) : AppState :=
  {| isDynamic := b; nav := nav s; content := content s;
     noaaData := noaaData s; scene := scene s |}.
Definition set_nav (n : Nav) (s : AppState) : AppState :=
  {| isDynamic := isDynamic s; nav := n; content := content s;
     noaaData := noaaData s; scene := scene s |}.
Definition set_content (c : Content) (s : AppState) : AppState :=
  {| isDynamic := isDynamic s; nav := nav s; content := c;
     noaaData := noaaData s; scene := scene s |}.
Definition set_noaaData (d : NoaaData) (s : AppState) : AppState :=
  {| isDynamic := isDynamic s; nav := nav s; content := content s;
     noaaData := d; scene := scene s |}.
Definition set_scene (c : Scene) (s : AppState) : AppState :=
  {| isDynamic := isDynamic s; nav := nav s; content := content s;
     noaaData := noaaData s; scene := c |}.

Definition set_moveState (m : gmap string bool) (n : Nav) : Nav :=
  {| isAutopilot := isAutopilot n; autopilotTime := autopilotTime n;
     autopilotContentTimer := autopilotContentTimer n;
     moveState := m; camera := camera n; target := target n |}.

Definition set_lights (l : gmap string Light) (c : Scene) : Scene :=
  {| lights := l; reactiveFrame := reactiveFrame c;
     dustParticles := dustParticles c; starField := starField c;
     ambientIntensity := ambientIntensity c |}.
Definition set_starField (f : Stars) (c : Scene) : Scene :=
  {| lights := lights c; reactiveFrame := reactiveFrame c;
     dustParticles := dustParticles c; starField := f;
     ambientIntensity := ambientIntensity c |}.

(** The state once [init] has built the scene (lines 7-30, 41, 50, 80,
    195-207, 228, 295, 310-320).  The constructor of OrbitControls has
    pointed the camera, placed at (0, 1.6, 15), at the origin. *)
Definition moveState0 : gmap string bool :=
  <["forward" := false]> (<["backward" := false]> (<["left" := false]>
  (<["right" := false]> (<["up" := false]> (<["down" := false]> ∅))))).

Definition PLAYER_HEIGHT : R := 1.6.
Definition moveSpeed : R := 0.25.

Definition nav0 : Nav :=
  {| isAutopilot := false; autopilotTime := 0; autopilotContentTimer := 0;
     moveState := moveState0;
     camera := {| position := Vector3.Build_Vec3 0 PLAYER_HEIGHT 15;
                  worldDirection :=
                    Vector3.normalize
                      (Vector3.Build_Vec3 0 (- PLAYER_HEIGHT) (-15)) |};
     target := Vector3.Build_Vec3 0 (PLAYER_HEIGHT + 0.5) (-2) |}.

Definition light0 : Light := {| intensity := 800; baseIntensity := 800 |}.

Definition scene0 : Scene :=
  {| lights := <["left" := light0]> (<["center" := light0]>
               (<["right" := light0]> ∅));
     reactiveFrame :=
       Some {| emissive := 0x000000; emissiveIntensity := 0; rotationZ := 0;
               positionY := PLAYER_HEIGHT + 0.5 + 0.5;
               baseY := PLAYER_HEIGHT + 0.5 + 0.5 |};
     dustParticles :=
       Some {| dustPositionY := 0; dustRotationY := 0; dustOpacity := 0.3 |};
     starField :=
       {| starRotationY := 0; starPositionZ := 0; starOpacity := 0.4 |};
     ambientIntensity := 0.03 |}.

Definition state0 : AppState :=
  {| isDynamic := true; nav := nav0;
     content := {| currentIndex := 1; currentType := jpg |};
     noaaData := noaaData0; scene := scene0 |}.

End App.

(** ** Content sequencer (lines 280-282) *)

Module Sequencer.
Import App.

Definition flip (t : MediaType) : MediaType :=
  match t with jpg => gif | gif => jpg end.

Definition nextContent (c : Content) : Content :=
  let i := (currentIndex c + 1)%Z in
  if (i >? 13)%Z
  then {| currentIndex := 1; currentType := flip (currentType c) |}
  else {| currentIndex := i; currentType := currentType c |}.

Definition prevContent (c : Content) : Content :=
  let i := (currentIndex c - 1)%Z in
  if (i <? 1)%Z
  then {| currentIndex := 13; currentType := flip (currentType c) |}
  else {| currentIndex := i; currentType := currentType c |}.

(** [u1] and [u2] are the two results of [Math.random()], in call order. *)
Definition randomContent (u1 u2 : R) : Content :=
  {| currentIndex := (Int_part (u1 * 13) + 1)%Z;
     currentType := if Rlt_dec 0.5 u2 then jpg else gif |}.

End Sequencer.

(** ** UI control surface (lines 233-249, 338-339) *)

Module Controls.
Import App.

Definition toggleAutopilot (s : AppState) : AppState :=
  let n := nav s in
  let on := negb (isAutopilot n) in
  set_nav
    {| isAutopilot := on;
       autopilotTime := if on then 0 else autopilotTime n;
       autopilotContentTimer := if on then 0 else autopilotContentTimer n;
       moveState := moveState n; camera := camera n; target := target n |}
    s.

Definition toggleFX (s : AppState) : AppState :=
  set_isDynamic (negb (isDynamic s)) s.

(** [moveState[dir] = true], for any property name [dir]. *)
Definition moveCamera (dir : string) (s : AppState) : AppState :=
  set_nav (set_moveState (<[dir := true]> (moveState (nav s))) (nav s)) s.

(** Every own key of [moveState] is set to [false]. *)
Definition stopCamera (s : AppState) : AppState :=
  set_nav (set_moveState ((λ _, false) <$> moveState (nav s)) (nav s)) s.

(** [moveState.k] read as a condition: an absent key is falsy. *)
Definition flag (s : AppState) (k : string) : bool :=
  default false (moveState (nav s) !! k).

(** The names of the six directions. *)
Definition directions : list string :=
  ["forward"; "backward"; "left"; "right"; "up"; "down"]%string.

Definition resetPosition (s : AppState) : AppState :=
  let n := nav s in
  set_nav
    {| isAutopilot := isAutopilot n; autopilotTime := autopilotTime n;
       autopilotContentTimer := autopilotContentTimer n;
       moveState := moveState n;
       camera := {| position := Vector3.Build_Vec3 0 (PLAYER_HEIGHT + 0.5) 8;
                    worldDirection := worldDirection (camera n) |};
       target := Vector3.Build_Vec3 0 (PLAYER_HEIGHT + 0.5) (-2) |}
    s.

End Controls.

(** ** Telemetry refresh on the application state (lines 103-175) *)

Module Weather.
Import JS Telemetry App.

Definition set_baseIntensity (v : number) (l : Light) : Light :=
  {| intensity := intensity l; baseIntensity := v |}.

(** Lines 146-156.  The rest of the function recolours the two colour
    pickers of the page and copies them to the lights' colour, which no
    other part of the program reads. *)
Definition updateLightsFromNOAA (s : AppState) : AppState :=
  let d := noaaData s in
  let baseIntensity := (300 + ssn d * 8)%J in
  let stormMod := (1 + stormLevel d * 0.5)%J in
  let ls0 := lights (scene s) in
  let ls1 := alter (set_baseIntensity (baseIntensity * stormMod)%J) "left" ls0 in
  let ls2 :=
    alter (set_baseIntensity (baseIntensity * stormMod * 1.2)%J) "center" ls1 in
  let ls3 := alter (set_baseIntensity (baseIntensity * stormMod)%J) "right" ls2 in
  set_scene (set_lights ls3 (scene s)) s.

(** The body of [updateSpaceWeather] after the [await], given what the
    six requests resolved to. *)
Definition updateSpaceWeather (r : Payload.Replies) (s : AppState) : AppState :=
  updateLightsFromNOAA (set_noaaData (refresh r (noaaData s)) s).

End Weather.

(** ** The render loop (lines 364-512) *)

Module Animation.
Import JS Telemetry App Sequencer Controls.

(** What one call of [animate] reads from outside: [Date.now()], the two
    numbers [Math.random()] yields if the content timer fires, and the
    camera pose and target [controls.update()] leaves, as a function of
    the pose and target it finds. *)
Record FrameInput := {
  now : R;
  random1 : R;
  random2 : R;
  orbit : Camera -> Vec3 -> Camera * Vec3
}.

(** Lines 370-394. *)
Definition autopilot_step (e : FrameInput) (s : AppState) : AppState :=
  let n := nav s in
  let t := autopilotTime n + 0.01 in
  let c := autopilotContentTimer n + 0.016 in
  let fire := if Rle_dec 8 c then true else false in
  let radius := 8 + sin (t * 0.3) * 3 in
  let height := PLAYER_HEIGHT + sin (t * 0.5) * 2 in
  let angle := t * 0.15 in
  set_nav
    {| isAutopilot := isAutopilot n;
       autopilotTime := t;
       autopilotContentTimer := if fire then 0 else c;
       moveState := moveState n;
       camera :=
         {| position :=
              Vector3.Build_Vec3 (cos angle * radius) height
                                 (sin angle * radius + 2);
            worldDirection := worldDirection (camera n) |};
       target :=
         Vector3.Build_Vec3 (sin (t * 0.2) * 0.5)
                            (PLAYER_HEIGHT + 0.5 + cos (t * 0.3) * 0.3)
                            (-2 + sin (t * 0.25) * 0.2) |}
    (if fire then set_content (randomContent (random1 e) (random2 e)) s
     else s).

(** Lines 397-418. *)
Definition moveVector (s : AppState) : Vec3 :=
  let d := worldDirection (camera (nav s)) in
  let dir :=
    Vector3.normalize (Vector3.Build_Vec3 (Vector3.x d) 0 (Vector3.z d)) in
  let side := Vector3.normalize (Vector3.crossVectors camera_up dir) in
  let v0 := Vector3.zero in
  let v1 :=
    if flag s "forward" then Vector3.addScaledVector v0 dir moveSpeed else v0 in
  let v2 :=
    if flag s "backward" then Vector3.addScaledVector v1 dir (- moveSpeed)
    else v1 in
  let v3 :=
    if flag s "left" then Vector3.addScaledVector v2 side moveSpeed else v2 in
  let v4 :=
    if flag s "right" then Vector3.addScaledVector v3 side (- moveSpeed)
    else v3 in
  let v5 :=
    if flag s "up"
    then Vector3.Build_Vec3 (Vector3.x v4) (Vector3.y v4 + moveSpeed) (Vector3.z v4)
    else v4 in
  if flag s "down"
  then Vector3.Build_Vec3 (Vector3.x v5) (Vector3.y v5 - moveSpeed) (Vector3.z v5)
  else v5.

Definition manual_step (s : AppState) : AppState :=
  let n := nav s in
  if flag s "forward" || flag s "backward" || flag s "left"
     || flag s "right" || flag s "up" || flag s "down"
  then
    let v := moveVector s in
    set_nav
      {| isAutopilot := isAutopilot n; autopilotTime := autopilotTime n;
         autopilotContentTimer := autopilotContentTimer n;
         moveState := moveState n;
         camera := {| position := Vector3.add (position (camera n)) v;
                      worldDirection := worldDirection (camera n) |};
         target := Vector3.add (target n) v |}
      s
  else s.

(** Lines 424-438: one light, [i] being its index in
    [['left', 'center', 'right']]. *)
Definition breathe (time : R) (d : NoaaData) (i : nat) (l : Light) : Light :=
  let breathSpeed := (1.5 + kp d / 3)%J in
  let breathDepth := (0.2 + stormLevel d * 0.3)%J in
  let pulse :=
    (nsin (time * breathSpeed + INR i * 2) * breathDepth
     + (1 - breathDepth / 2))%J in
  let lit := (baseIntensity l * pulse)%J in
  {| intensity :=
       if startsWith (recentFlare d) "X"
       then (lit * (nsin (time * 8) * 0.5 + 1.5))%J
       else if startsWith (recentFlare d) "M"
       then (lit * (nsin (time * 5) * 0.3 + 1.2))%J
       else lit;
     baseIntensity := baseIntensity l |}.

Definition breathe_all (time : R) (d : NoaaData)
    (ls : gmap string Light) : gmap string Light :=
  foldl (λ acc '(name, i), alter (breathe time d i) name acc) ls
        [("left"%string, 0%nat); ("center"%string, 1%nat);
         ("right"%string, 2%nat)].

(** Lines 448-468: the emissive colour and intensity of the frame. *)
Definition frame_glow (time : R) (d : NoaaData) : Z * number :=
  if (bz d < Fin (-5))%J then
    (0xff3300%Z, (0.3 + nsin (time * 2) * 0.2)%J)
  else if (bz d > 5)%J then
    (0x0066ff%Z, (0.15 + nsin (time * 1) * 0.1)%J)
  else if (kp d > 5)%J then
    (0x9933ff%Z, (0.4 + nsin (time * 3) * 0.3)%J)
  else if (ssn d > 100)%J then
    (0xffaa00%Z, (0.2 + nsin (time * 1.5) * 0.15)%J)
  else
    (0x003344%Z, (0.05 + nsin (time * 0.5) * 0.05)%J).

(** Lines 443-481. *)
Definition animate_frame (time : R) (d : NoaaData) (f : Frame) : Frame :=
  let drift := ((solarWind d - 400) / 10000)%J in
  {| emissive := fst (frame_glow time d);
     emissiveIntensity := snd (frame_glow time d);
     rotationZ :=
       if (radiationLevel d > 0.3)%J
       then (nsin (time * 20) * radiationLevel d * 0.02)%J
       else 0;
     positionY := (baseY f + nsin (time * 0.3) * drift * 0.5)%J;
     baseY := baseY f |}.

(** Lines 484-489. *)
Definition animate_dust (time : R) (d : NoaaData) (p : Dust) : Dust :=
  let driftSpeed := ((solarWind d - 400) / 1000)%J in
  {| dustPositionY := (nsin (time * 0.5) * 0.2)%J;
     dustRotationY := (dustRotationY p + (0.001 + driftSpeed))%J;
     dustOpacity := (0.2 + stormLevel d * 0.3)%J |}.

(** Lines 492-501. *)
Definition animate_stars (time : R) (d : NoaaData) (f : Stars) : Stars :=
  let starSpeed := (0.0003 + ssn d / 50000)%J in
  {| starRotationY := (starRotationY f + starSpeed)%J;
     starPositionZ := (starPositionZ f + nsin time * 0.15)%J;
     starOpacity :=
       if (radiationLevel d > 0.3)%J
       then (0.4 + nsin (time * 10) * radiationLevel d * 0.2)%J
       else 0.4 |}.

(** Lines 422-505: the branch taken when [isDynamic] holds. *)
Definition dynamics (time : R) (d : NoaaData) (c : Scene) : Scene :=
  {| lights := breathe_all time d (lights c);
     reactiveFrame := animate_frame time d <$> reactiveFrame c;
     dustParticles := animate_dust time d <$> dustParticles c;
     starField := animate_stars time d (starField c);
     ambientIntensity := (0.03 + stormLevel d * 0.05)%J |}.

(** Line 507: the branch taken otherwise. *)
Definition idle (c : Scene) : Scene :=
  let f := starField c in
  set_starField
    {| starRotationY := (starRotationY f + 0.0002)%J;
       starPositionZ := starPositionZ f;
       starOpacity := starOpacity f |}
    c.

(** Line 510. *)
Definition controls_update (e : FrameInput) (s : AppState) : AppState :=
  let n := nav s in
  let '(cam, tgt) := orbit e (camera n) (target n) in
  set_nav
    {| isAutopilot := isAutopilot n; autopilotTime := autopilotTime n;
       autopilotContentTimer := autopilotContentTimer n;
       moveState := moveState n; camera := cam; target := tgt |}
    s.

(** Lines 369-419: the navigation step of a frame. *)
Definition nav_step (e : FrameInput) (s : AppState) : AppState :=
  if isAutopilot (nav s) then autopilot_step e s else manual_step s.

(** One frame. *)
Definition animate (e : FrameInput) (s : AppState) : AppState :=
  let time := now e * 0.001 in
  let s1 := nav_step e s in
  let s2 :=
    if isDynamic s1
    then set_scene (dynamics time (noaaData s1) (scene s1)) s1
    else set_scene (idle (scene s1)) s1 in
  controls_update e s2.

(** A run of frames, one input per frame, oldest first. *)
Definition run (es : list FrameInput) (s : AppState) : AppState :=
  foldl (λ acc e, animate e acc) s es.

End Animation.

(** ** Sample replies and states *)

Module Samples.
Import JS Json Telemetry App Controls Weather Animation.

(** A reply to one request only, the others having failed. *)
Definition proton_only (v : jsval) : Payload.Replies :=
  {| Payload.rSSN := None;
     Payload.rProton := Some [ {| Payload.flux := v |} ];
     Payload.rFlare := None; Payload.rKp := None; Payload.rWind := None;
     Payload.rElectron := None |}.

Definition kp_only (v : jsval) : Payload.Replies :=
  {| Payload.rSSN := None; Payload.rProton := None; Payload.rFlare := None;
     Payload.rKp := Some [ {| Payload.kp_index := v |} ];
     Payload.rWind := None; Payload.rElectron := None |}.

(** Replies whose latest entries carry the given readings. *)
Definition readings (sunspots : option R) (proton kpi wind field electron : jsval)
    (flare : option string) : Payload.Replies :=
  {| Payload.rSSN := Some [ {| Payload.predicted_ssn := sunspots |} ];
     Payload.rProton := Some [ {| Payload.flux := proton |} ];
     Payload.rFlare :=
       Some [ {| Payload.current_class := flare; Payload.max_class := None |} ];
     Payload.rKp := Some [ {| Payload.kp_index := kpi |} ];
     Payload.rWind :=
       Some [ {| Payload.wind_speed := wind; Payload.bz := field |} ];
     Payload.rElectron := Some [ {| Payload.flux := electron |} ] |}.

(** The snapshot of the specification's example. *)
Definition x_flare_storm : Payload.Replies :=
  readings (Some 50) (JNum 1) (JNum 9) (JNum 400) (JNum (-10)) (JNum 100)
           (Some "X5.0"%string).

(** The extreme readings of the specification. *)
Definition extreme : Payload.Replies :=
  readings (Some 50) (JNum 1e9) (JNum 9) (JNum 400) (JNum (-100)) (JNum 100)
           None.

(** Every reading reported as zero. *)
Definition all_zero : Payload.Replies :=
  readings (Some 0) (JNum 0) (JNum 0) (JNum 0) (JNum 0) (JNum 0) None.

(** Every reading unusable. *)
Definition all_malformed : Payload.Replies :=
  readings None (JStr "n/a") JNull JUndefined (JStr "") (JStr "--") None.

(** Autopilot switched on from the initial state, then the forward
    button pressed. *)
Definition flying_forward : AppState :=
  moveCamera "forward" (toggleAutopilot state0).

(** A frame at clock reading [ms] during which the pointer is idle:
    OrbitControls keeps the position and the target and turns the camera
    towards the target. *)
Definition quiet_frame (ms : R) : FrameInput :=
  {| now := ms; random1 := 0; random2 := 0;
     orbit := λ cam tgt,
       ({| position := position cam;
           worldDirection :=
             Vector3.normalize (Vector3.sub tgt (position cam)) |}, tgt) |}.

(** The initial state with the reactive animation switched off. *)
Definition effects_off : AppState := toggleFX state0.

(** The initial state once the readings of the specification's example
    have arrived. *)
Definition stormy : AppState := updateSpaceWeather x_flare_storm state0.

End Samples.

(** ** Colour pickers (lines 158-186) *)

Module Colour.
Import JS Telemetry.

(** Truncation towards zero. *)
Definition Rtrunc (x : R) : Z :=
  if Rlt_dec x 0 then (- Int_part (- x))%Z else Int_part x.

(** [a % b] on Numbers: the remainder has the sign of the dividend. *)
Definition nrem (a b : number) : number :=
  match a, b with
  | NaN, _ | _, NaN => NaN
  | PInf, _ | NInf, _ => NaN
  | Fin x, Fin y =>
      if Req_dec_T y 0 then NaN else Fin (x - y * IZR (Rtrunc (x / y)))
  | Fin x, _ => Fin x
  end.

(** The result of [Math.round]: an integer, unless the argument was not
    finite. *)
Inductive rounded : Type :=
  | RoundNaN
  | RoundPInf
  | RoundNInf
  | RoundInt (n : Z).

(** [Math.round]: the nearest integer, halves going up. *)
Definition round (a : number) : rounded :=
  match a with
  | NaN => RoundNaN
  | PInf => RoundPInf
  | NInf => RoundNInf
  | Fin x => RoundInt (Int_part (x + 0.5))
  end.

(** [n.toString(16)] for what [Math.round] returns. *)
Definition toString16 (r : rounded) : string :=
  match r with
  | RoundNaN => "NaN"
  | RoundPInf => "Infinity"
  | RoundNInf => "-Infinity"
  | RoundInt Z0 => "0"
  | RoundInt (Zpos p) => HexString.Raw.of_pos p ""
  | RoundInt (Zneg p) => String "-" (HexString.Raw.of_pos p "")
  end.

(** [s.padStart(2, '0')]. *)
Definition padStart2 (s : string) : string :=
  match String.length s with
  | O => "00"
  | S O => String "0" s
  | _ => s
  end.

(** The inner function [f] of [hslToHex], with [l] and [a] as computed
    on lines 178-179. *)
Definition channel (h l a : number) (n : R) : string :=
  let k := nrem (n + h / 30)%J 12 in
  let color :=
    (l - a * nmax (nmin (nmin (k - 3) (9 - k)) 1) (Fin (-1)))%J in
  padStart2 (toString16 (round (255 * color)%J)).

Definition hslToHex (h s l : number) : string :=
  let l := (l / 100)%J in
  let a := (s * nmin l (1 - l) / 100)%J in
  String "#" (channel h l a 0 ++ channel h l a 8 ++ channel h l a 4).

(** Two hexadecimal digits for the integer [v]. *)
Definition hex2 (v : Z) : string := padStart2 (toString16 (RoundInt v)).

(** What an [<input type="color">] accepts: [#] and six lower-case
    hexadecimal digits. *)
Definition is_hex_digit (c : ascii) : bool :=
  let n := nat_of_ascii c in
  ((48 <=? n) && (n <=? 57) || (97 <=? n) && (n <=? 102))%nat.

Fixpoint hex_digits (s : string) : bool :=
  match s with
  | EmptyString => true
  | String c s' => is_hex_digit c && hex_digits s'
  end.

Definition is_hex_colour (s : string) : bool :=
  match s with
  | String "#" s' => (String.length s' =? 6)%nat && hex_digits s'
  | _ => false
  end.

(** Lines 159-168: the hues pushed to the left and right pickers. *)
Definition bzShift (d : NoaaData) : number := (bz d * 15)%J.

Definition leftHue (d : NoaaData) : number :=
  nmax 0 (nmin 360 (350 - bzShift d)%J).

Definition rightHue (d : NoaaData) : number :=
  nmax 0 (nmin 360 (220 + bzShift d)%J).

(** Lines 170-171: the values written to [color-left] and
    [color-right], when both pickers exist. *)
Definition pickerValues (d : NoaaData) : string * string :=
  (hslToHex (leftHue d) 100 50, hslToHex (rightHue d) 100 50).

End Colour.

(** ** Joystick (lines 345-359) *)

Module Joystick.
Import JS App Controls.

(** The variables the three listeners close over; [startX] and [startY]
    are [undefined] until the first [mousedown], which arithmetic reads
    as [NaN].  The listeners also move the thumb on the page, which
    nothing else reads. *)
Record Stick := {
  active : bool;
  startX : number;
  startY : number
}.

Definition stick0 : Stick :=
  {| active := false; startX := NaN; startY := NaN |}.

(** [mousedown] on the thumb, at client coordinates [(cx, cy)]. *)
Definition mousedown (cx cy : R) (j : Stick) : Stick :=
  {| active := true; startX := cx; startY := cy |}.

(** [mousemove] on the window. *)
Definition mousemove (cx cy : R) (j : Stick) (s : AppState) : AppState :=
  if active j then
    let dx := (cx - startX j)%J in
    let dy := (cy - startY j)%J in
    let m0 := moveState (nav s) in
    let m1 := <["forward" := (dy < Fin (-5))%J]> m0 in
    let m2 := <["backward" := (dy > 5)%J]> m1 in
    let m3 := <["left" := (dx < Fin (-5))%J]> m2 in
    let m4 := <["right" := (dx > 5)%J]> m3 in
    set_nav (set_moveState m4 (nav s)) s
  else s.

(** [mouseup] on the window. *)
Definition mouseup (j : Stick) (s : AppState) : Stick * AppState :=
  ({| active := false; startX := startX j; startY := startY j |},
   stopCamera s).

End Joystick.

(** ** The requested file (line 262) *)

Module Loader.
Import App.

Definition extension (t : MediaType) : string :=
  match t with jpg => "jpg" | gif => "gif" end.

(** [`${currentIndex}.${currentType}`]; an integer below 1e21 prints in
    plain decimal. *)
Definition filename (c : Content) : string :=
  pretty (currentIndex c) +:+ "." +:+ extension (currentType c).

End Loader.

(** ** The program as a whole *)

Module Events.
Import JS Telemetry App Sequencer Controls Weather Animation.

(** What can happen to the application state once [init] has run: a
    telemetry refresh completes, a frame is drawn, or the page calls one
    of the functions exposed on [window]. *)
Inductive Event : Type :=
  | Refresh (r : Payload.Replies)
  | Draw (e : FrameInput)
  | ToggleAutopilot
  | ToggleFX
  | MoveCamera (dir : string)
  | StopCamera
  | ResetPosition
  | NextContent
  | PrevContent
  | RandomContent (u1 u2 : R).

Definition step (s : AppState) (ev : Event) : AppState :=
  match ev with
  | Refresh r => updateSpaceWeather r s
  | Draw e => animate e s
  | ToggleAutopilot => toggleAutopilot s
  | ToggleFX => toggleFX s
  | MoveCamera dir => moveCamera dir s
  | StopCamera => stopCamera s
  | ResetPosition => resetPosition s
  | NextContent => set_content (nextContent (content s)) s
  | PrevContent => set_content (prevContent (content s)) s
  | RandomContent u1 u2 => set_content (randomContent u1 u2) s
  end.

(** [Math.random()] yields a number in [0, 1). *)
Definition unit_random (u : R) : Prop := 0 <= u < 1.

Definition well_formed (ev : Event) : Prop :=
  match ev with
  | Draw e => unit_random (random1 e) /\ unit_random (random2 e)
  | RandomContent u1 u2 => unit_random u1 /\ unit_random u2
  | _ => True
  end.

Definition steps (evs : list Event) (s : AppState) : AppState :=
  foldl step s evs.

End Events.

(** ** Manual movement, by component *)

Module Heading.
Import App Controls Animation.

(** [dir] and [side] of lines 400-405: the camera's heading projected on
    the ground, and the horizontal direction at a right angle to it. *)
Definition heading (s : AppState) : Vec3 :=
  let d := worldDirection (camera (nav s)) in
  Vector3.normalize (Vector3.Build_Vec3 (Vector3.x d) 0 (Vector3.z d)).

Definition sideways (s : AppState) : Vec3 :=
  Vector3.normalize (Vector3.crossVectors camera_up (heading s)).

(** What a raised flag contributes. *)
Definition push (s : AppState) (k : string) : R :=
  if flag s k then moveSpeed else 0.

(** The squared length of the horizontal part of a vector. *)
Definition ground_sq (v : Vec3) : R :=
  Vector3.x v * Vector3.x v + Vector3.z v * Vector3.z v.

(** The directions whose flag is raised. *)
Definition held (s : AppState) : list string := filter (λ k, flag s k = true) directions.

(** How far the navigation step of a frame moves the camera. *)
Definition displacement (e : FrameInput) (s : AppState) : Vec3 :=
  Vector3.sub (position (camera (nav (nav_step e s))))
              (position (camera (nav s))).

End Heading.

(** ** Further sample states *)

Module Scenarios.
Import JS App Controls Animation.

(** The initial state with the camera level, facing the wall. *)
Definition facing_wall : AppState :=
  set_nav
    {| isAutopilot := false; autopilotTime := 0; autopilotContentTimer := 0;
       moveState := moveState0;
       camera := {| position := Vector3.Build_Vec3 0 PLAYER_HEIGHT 15;
                    worldDirection := Vector3.Build_Vec3 0 0 (-1) |};
       target := Vector3.Build_Vec3 0 PLAYER_HEIGHT (-2) |}
    state0.

(** The same with the camera looking straight down. *)
Definition looking_down : AppState :=
  set_nav
    {| isAutopilot := false; autopilotTime := 0; autopilotContentTimer := 0;
       moveState := moveState0;
       camera := {| position := Vector3.Build_Vec3 0 PLAYER_HEIGHT 15;
                    worldDirection := Vector3.Build_Vec3 0 (-1) 0 |};
       target := Vector3.Build_Vec3 0 0 15 |}
    state0.

End Scenarios.

(** ** Invariants *)

Module Invariant.
Import JS Telemetry App.

(** What every snapshot the program can hold satisfies. *)
Definition snapshot_ok (d : NoaaData) : Prop :=
  truthy (ssn d) = true /\ truthy (kp d) = true /\
  truthy (solarWind d) = true /\ truthy (protonFlux d) = true /\
  truthy (electronFlux d) = true /\ bz d <> NaN /\
  recentFlare d <> ""%string /\
  (1 < stormLevel d)%J = false /\ (1 < radiationLevel d)%J = false.

(** What every state of the program satisfies once [init] has run. *)
Definition app_ok (s : AppState) : Prop :=
  (1 <= currentIndex (content s) <= 13)%Z /\
  reachable (noaaData s) /\
  0 <= autopilotTime (nav s) /\
  0 <= autopilotContentTimer (nav s) < 8 /\
  Forall (λ k, is_Some (lights (scene s) !! k))
         ["left"; "center"; "right"]%string /\
  is_Some (reactiveFrame (scene s)) /\
  is_Some (dustParticles (scene s)).

End Invariant.

(** ** The refresh on replies of any content (lines 114-129) *)

(** The records of [Payload] fix what a well-formed series holds.  Here
    the body of a reply is any JSON array: an entry may be [null] or any
    other value, a field may hold any value, [predicted_ssn] and the
    flare class are kept as they come, and a statement that throws ends
    the [try] block where it stands. *)
Module Dynamic.
Import JS Json.

#[warnings="-register-all"]
Inductive json : Type :=
  | JsNull
  | JsBool (b : bool)
  | JsNumber (x : R)
  | JsString (s : string)
  | JsArray (items : list json)
  | JsObject (props : list (string * json)).

(** The property [name] of an object given by its members in the order
    of the text: [JSON.parse] keeps the last member of a name. *)
Fixpoint prop (name : string) (props : list (string * json)) : option json :=
  match props with
  | [] => None
  | (k, v) :: rest =>
      match prop name rest with
      | Some later => Some later
      | None => if String.eqb k name then Some v else None
      end
  end.

(** [j.name] for a [j] that is not [null], [None] being [undefined].
    None of the names this program reads is a property of an array, a
    string, a number or a boolean. *)
Definition get (name : string) (j : json) : option json :=
  match j with
  | JsObject props => prop name props
  | _ => None
  end.

(** [e?.name], where [e] is [undefined] when the series is empty. *)
Definition opt_get (name : string) (e : option json) : option json :=
  match e with
  | None | Some JsNull => None
  | Some j => get name j
  end.

(** [e.name]: reading a property of [null] throws, the outer [None]. *)
Definition member (name : string) (e : json) : option (option json) :=
  match e with
  | JsNull => None
  | _ => Some (get name e)
  end.

(** ToBoolean. *)
Definition to_boolean (v : option json) : bool :=
  match v with
  | None | Some JsNull => false
  | Some (JsBool b) => b
  | Some (JsNumber x) => if Req_dec_T x 0 then false else true
  | Some (JsString s) => negb (String.eqb s "")
  | Some (JsArray _) | Some (JsObject _) => true
  end.

(** [a || b] on values, and [a || d] for a default [d] that is truthy. *)
Definition or_else (a b : option json) : option json :=
  if to_boolean a then a else b.

Definition or_default (a : option json) (d : json) : json :=
  match a with
  | Some j => if to_boolean a then j else d
  | None => d
  end.

(** Whether converting [j] to a string throws.  An object is printed by
    [Object.prototype.toString] unless it has a member named [toString]:
    a parsed member is never callable, and [valueOf] then returns the
    object itself, so the conversion ends in a TypeError.  An array
    prints its items, but for [null] ones. *)
Fixpoint unprintable (j : json) : bool :=
  match j with
  | JsObject props =>
      match prop "toString" props with Some _ => true | None => false end
  | JsArray items => existsb unprintable items
  | JsNull | JsBool _ | JsNumber _ | JsString _ => false
  end.

(** The number [parseFloat] reads in the printed form of [j].  A number
    reads back as itself; an array prints its items separated by commas,
    [null] items as nothing, so that only its first item can be read;
    ["null"], ["true"], ["false"] and ["[object Object]"] have no numeric
    prefix. *)
Fixpoint parseFloat_json (j : json) : number :=
  match j with
  | JsNumber x => Fin x
  | JsString s => parseFloat_string s
  | JsArray (JsNull :: _) => NaN
  | JsArray (first :: _) => parseFloat_json first
  | JsArray [] | JsNull | JsBool _ | JsObject _ => NaN
  end.

(** [parseFloat(v)], [None] when the conversion to a string throws. *)
Definition parseFloat_value (v : option json) : option number :=
  match v with
  | Some j => if unprintable j then None else Some (parseFloat_json j)
  | None => Some NaN
  end.

(** [parseFloat(e?.name)] and [parseFloat(e.name)]. *)
Definition opt_parse (name : string) (e : option json) : option number :=
  parseFloat_value (opt_get name e).

Definition parse_member (name : string) (e : json) : option number :=
  member name e ≫= parseFloat_value.

(** What [Promise.all] resolves to: [None] for [null], which stands for
    a request that failed or a body that is not JSON, the items of the
    array otherwise. *)
Record Replies := {
  rSSN : option (list json);
  rProton : option (list json);
  rFlare : option (list json);
  rKp : option (list json);
  rWind : option (list json);
  rElectron : option (list json)
}.

Definition no_reply : Replies :=
  {| rSSN := None; rProton := None; rFlare := None;
     rKp := None; rWind := None; rElectron := None |}.

(** The object [noaaData], with [ssn] and [recentFlare] as they are
    stored: whatever truthy value was delivered. *)
Record Snapshot := {
  ssn : json;
  kp : number;
  bz : number;
  solarWind : number;
  protonFlux : number;
  electronFlux : number;
  stormLevel : number;
  radiationLevel : number;
  recentFlare : json
}.

Definition snapshot0 : Snapshot :=
  {| ssn := JsNumber 50; kp := Fin 2; bz := Fin 0; solarWind := Fin 400;
     protonFlux := Fin 1; electronFlux := Fin 100;
     stormLevel := Fin 0; radiationLevel := Fin 0;
     recentFlare := JsString "None" |}.

Definition set_ssn (v : json) (d : Snapshot) : Snapshot :=
  {| ssn := v; kp := kp d; bz := bz d; solarWind := solarWind d;
     protonFlux := protonFlux d; electronFlux := electronFlux d;
     stormLevel := stormLevel d; radiationLevel := radiationLevel d;
     recentFlare := recentFlare d |}.
Definition set_kp (v : number) (d : Snapshot) : Snapshot :=
  {| ssn := ssn d; kp := v; bz := bz d; solarWind := solarWind d;
     protonFlux := protonFlux d; electronFlux := electronFlux d;
     stormLevel := stormLevel d; radiationLevel := radiationLevel d;
     recentFlare := recentFlare d |}.
Definition set_bz (v : number) (d : Snapshot) : Snapshot :=
  {| ssn := ssn d; kp := kp d; bz := v; solarWind := solarWind d;
     protonFlux := protonFlux d; electronFlux := electronFlux d;
     stormLevel := stormLevel d; radiationLevel := radiationLevel d;
     recentFlare := recentFlare d |}.
Definition set_solarWind (v : number) (d : Snapshot) : Snapshot :=
  {| ssn := ssn d; kp := kp d; bz := bz d; solarWind := v;
     protonFlux := protonFlux d; electronFlux := electronFlux d;
     stormLevel := stormLevel d; radiationLevel := radiationLevel d;
     recentFlare := recentFlare d |}.
Definition set_protonFlux (v : number) (d : Snapshot) : Snapshot :=
  {| ssn := ssn d; kp := kp d; bz := bz d; solarWind := solarWind d;
     protonFlux := v; electronFlux := electronFlux d;
     stormLevel := stormLevel d; radiationLevel := radiationLevel d;
     recentFlare := recentFlare d |}.
Definition set_electronFlux (v : number) (d : Snapshot) : Snapshot :=
  {| ssn := ssn d; kp := kp d; bz := bz d; solarWind := solarWind d;
     protonFlux := protonFlux d; electronFlux := v;
     stormLevel := stormLevel d; radiationLevel := radiationLevel d;
     recentFlare := recentFlare d |}.
Definition set_recentFlare (v : json) (d : Snapshot) : Snapshot :=
  {| ssn := ssn d; kp := kp d; bz := bz d; solarWind := solarWind d;
     protonFlux := protonFlux d; electronFlux := electronFlux d;
     stormLevel := stormLevel d; radiationLevel := radiationLevel d;
     recentFlare := v |}.
Definition set_radiationLevel (v : number) (d : Snapshot) : Snapshot :=
  {| ssn := ssn d; kp := kp d; bz := bz d; solarWind := solarWind d;
     protonFlux := protonFlux d; electronFlux := electronFlux d;
     stormLevel := stormLevel d; radiationLevel := v;
     recentFlare := recentFlare d |}.
Definition set_stormLevel (v : number) (d : Snapshot) : Snapshot :=
  {| ssn := ssn d; kp := kp d; bz := bz d; solarWind := solarWind d;
     protonFlux := protonFlux d; electronFlux := electronFlux d;
     stormLevel := v; radiationLevel := radiationLevel d;
     recentFlare := recentFlare d |}.

(** How a statement ends: normally, or by throwing at a line of the
    source, which takes the control to the [catch] clause with
    [noaaData] as it then is. *)
Inductive outcome : Type :=
  | Normal (d : Snapshot)
  | Thrown (line : nat) (d : Snapshot).

Definition and_then (o : outcome) (f : Snapshot -> outcome) : outcome :=
  match o with
  | Normal d => f d
  | Thrown line d => Thrown line d
  end.

Definition final (o : outcome) : Snapshot :=
  match o with Normal d | Thrown _ d => d end.

(** The line that threw. *)
Definition thrown_at (o : outcome) : option nat :=
  match o with
  | Normal _ => None
  | Thrown line _ => Some line
  end.

(** The control went past [line]: nothing threw there or before. *)
Definition passes (line : nat) (o : outcome) : bool :=
  match o with
  | Normal _ => true
  | Thrown at_line _ => (line <? at_line)%nat
  end.

(** A statement keeps a field when it leaves it as it was, whether it
    ends normally or throws. *)
Definition keeps {A : Type} (field : Snapshot -> A)
    (f : Snapshot -> outcome) : Prop :=
  forall d, field (final (f d)) = field d.

(** A statement throws from [line] on when it does not throw before. *)
Definition throws_from (line : nat) (f : Snapshot -> outcome) : Prop :=
  forall d at_line, thrown_at (f d) = Some at_line -> (line <= at_line)%nat.

(** When a statement throws at [line] or before, it leaves a field as it
    was. *)
Definition unwritten_upto {A : Type} (line : nat) (field : Snapshot -> A)
    (f : Snapshot -> outcome) : Prop :=
  forall d at_line, thrown_at (f d) = Some at_line ->
    (at_line <= line)%nat -> field (final (f d)) = field d.

(** [noaaData.field = value] at [line], where the evaluation of [value]
    may throw. *)
Definition assign {A : Type} (line : nat) (value : option A)
    (store : A -> Snapshot -> Snapshot) (d : Snapshot) : outcome :=
  match value with
  | Some v => Normal (store v d)
  | None => Thrown line d
  end.

(** Line 114. *)
Definition line_114 (r : Replies) (d : Snapshot) : outcome :=
  match rSSN r with
  | Some l =>
      Normal (set_ssn (or_default (opt_get "predicted_ssn" (last l))
                                  (JsNumber 50)) d)
  | None => Normal d
  end.

(** Line 115. *)
Definition line_115 (r : Replies) (d : Snapshot) : outcome :=
  match rProton r with
  | Some l =>
      assign 115 (opt_parse "flux" (last l))
        (λ x, set_protonFlux (x || 1)%J) d
  | None => Normal d
  end.

(** Line 116. *)
Definition line_116 (r : Replies) (d : Snapshot) : outcome :=
  match rKp r with
  | Some l =>
      assign 116 (opt_parse "kp_index" (last l))
        (λ x, set_kp (x || 2)%J) d
  | None => Normal d
  end.

(** Lines 117-120.  The guard [rWind?.length] lets through an array that
    is not empty. *)
Definition lines_117_120 (r : Replies) (d : Snapshot) : outcome :=
  match rWind r ≫= last with
  | Some e =>
      and_then
        (assign 118 (parse_member "wind_speed" e)
           (λ x, set_solarWind (x || 400)%J) d)
        (assign 119 (parse_member "bz" e) (λ x, set_bz (x || 0)%J))
  | None => Normal d
  end.

(** Line 121. *)
Definition line_121 (r : Replies) (d : Snapshot) : outcome :=
  match rElectron r with
  | Some l =>
      assign 121 (opt_parse "flux" (last l))
        (λ x, set_electronFlux (x || 100)%J) d
  | None => Normal d
  end.

(** Lines 122-125. *)
Definition lines_122_125 (r : Replies) (d : Snapshot) : outcome :=
  match rFlare r ≫= last with
  | Some latest =>
      assign 124
        (current_class ← member "current_class" latest;
         max_class ← member "max_class" latest;
         Some (or_default (or_else current_class max_class)
                          (JsString "None")))
        set_recentFlare d
  | None => Normal d
  end.

(** Lines 127-129.  Only a string has a [startsWith] method. *)
Definition lines_127_129 (d : Snapshot) : outcome :=
  match recentFlare d with
  | JsString flare =>
      let flareBoost := Telemetry.flareBoost flare in
      let d1 :=
        set_radiationLevel
          (nmin 1 (nlog10 (protonFlux d + 1) / 5 + flareBoost)%J) d in
      Normal
        (set_stormLevel
           (nmin 1 (kp d1 / 9
                    + (if (bz d1 < 0)%J then nabs (bz d1) / 20 else 0))%J)
           d1)
  | _ => Thrown 127 d
  end.

(** The [try] block of [updateSpaceWeather] as far as [noaaData] goes. *)
Definition run_try (r : Replies) (d : Snapshot) : outcome :=
  and_then (line_114 r d) (λ d1,
  and_then (line_115 r d1) (λ d2,
  and_then (line_116 r d2) (λ d3,
  and_then (lines_117_120 r d3) (λ d4,
  and_then (line_121 r d4) (λ d5,
  and_then (lines_122_125 r d5) lines_127_129))))).

(** [noaaData] after [updateSpaceWeather], whether the [try] block ran
    to its end or was left by a throw. *)
Definition refresh (r : Replies) (d : Snapshot) : Snapshot :=
  final (run_try r d).

(** ** Well-formed replies as JSON *)

Definition of_jsval (name : string) (v : jsval) : list (string * json) :=
  match v with
  | JUndefined => []
  | JNull => [(name, JsNull)]
  | JNum x => [(name, JsNumber x)]
  | JStr s => [(name, JsString s)]
  end.

Definition of_text (name : string) (v : option string) : list (string * json) :=
  match v with
  | Some s => [(name, JsString s)]
  | None => []
  end.

Definition of_solar_cycle (e : Payload.SolarCycle) : json :=
  JsObject match Payload.predicted_ssn e with
           | Some x => [("predicted_ssn"%string, JsNumber x)]
           | None => []
           end.

Definition of_flux (e : Payload.Flux) : json :=
  JsObject (of_jsval "flux" (Payload.flux e)).

Definition of_kp (e : Payload.Kp) : json :=
  JsObject (of_jsval "kp_index" (Payload.kp_index e)).

Definition of_wind (e : Payload.Wind) : json :=
  JsObject (of_jsval "wind_speed" (Payload.wind_speed e)
            ++ of_jsval "bz" (Payload.bz e)).

Definition of_flare (e : Payload.Flare) : json :=
  JsObject (of_text "current_class" (Payload.current_class e)
            ++ of_text "max_class" (Payload.max_class e)).

Definition of_series {A} (f : A -> json) (l : option (list A))
  : option (list json) :=
  match l with
  | Some entries => Some (map f entries)
  | None => None
  end.

Definition of_replies (r : Payload.Replies) : Replies :=
  {| rSSN := of_series of_solar_cycle (Payload.rSSN r);
     rProton := of_series of_flux (Payload.rProton r);
     rFlare := of_series of_flare (Payload.rFlare r);
     rKp := of_series of_kp (Payload.rKp r);
     rWind := of_series of_wind (Payload.rWind r);
     rElectron := of_series of_flux (Payload.rElectron r) |}.

(** A snapshot of [Telemetry] whose sunspot number is the real [x]. *)
Definition of_snapshot (x : R) (d : Telemetry.NoaaData) : Snapshot :=
  {| ssn := JsNumber x; kp := Telemetry.kp d; bz := Telemetry.bz d;
     solarWind := Telemetry.solarWind d;
     protonFlux := Telemetry.protonFlux d;
     electronFlux := Telemetry.electronFlux d;
     stormLevel := Telemetry.stormLevel d;
     radiationLevel := Telemetry.radiationLevel d;
     recentFlare := JsString (Telemetry.recentFlare d) |}.

(** The two models hold the same snapshot. *)
Definition agrees (s : Snapshot) (d : Telemetry.NoaaData) : Prop :=
  exists x, Telemetry.ssn d = Fin x /\ s = of_snapshot x d.

(** ** Sample replies *)

Definition record (name : string) (v : json) : json := JsObject [(name, v)].

(** A snapshot that holds none of the seed defaults. *)
Definition observed : Snapshot :=
  {| ssn := JsNumber 120; kp := Fin 3; bz := Fin (-4); solarWind := Fin 520;
     protonFlux := Fin 7; electronFlux := Fin 900;
     stormLevel := Fin 0.5; radiationLevel := Fin 0.25;
     recentFlare := JsString "C2.1" |}.

(** Only the proton request succeeded, with the given latest flux. *)
Definition proton_only (v : json) : Replies :=
  {| rSSN := None; rProton := Some [record "flux" v]; rFlare := None;
     rKp := None; rWind := None; rElectron := None |}.

(** Every request succeeded and nothing in the replies is usable: the
    sunspot number and the flux are the text "n/a", the last kp entry is
    [null], the wind entry has no field, the electron series is empty,
    the flare entry is a bare number. *)
Definition unusable : Replies :=
  {| rSSN := Some [record "predicted_ssn" (JsString "n/a")];
     rProton := Some [record "flux" (JsString "n/a")];
     rFlare := Some [JsNumber 7];
     rKp := Some [JsNull];
     rWind := Some [JsObject []];
     rElectron := Some [] |}.

(** The same with a sunspot number that is [null] and a wind series that
    ends in [null]. *)
Definition wind_null : Replies :=
  {| rSSN := Some [record "predicted_ssn" JsNull];
     rProton := Some [record "flux" (JsString "n/a")];
     rFlare := Some [JsNumber 7];
     rKp := Some [JsNull];
     rWind := Some [JsObject []; JsNull];
     rElectron := Some [] |}.

(** The same with a kp index that cannot be printed. *)
Definition kp_unprintable : Replies :=
  {| rSSN := Some [record "predicted_ssn" JsNull];
     rProton := Some [record "flux" (JsString "n/a")];
     rFlare := Some [JsNumber 7];
     rKp := Some [record "kp_index" (record "toString" (JsNumber 1))];
     rWind := Some [JsObject []];
     rElectron := Some [] |}.

End Dynamic.

(** * Properties *)

Import JS Json Telemetry App Sequencer Controls Weather Animation Samples.

(** Splits the conjunctions of the goal, leaving implications alone. *)
Ltac split_all := repeat match goal with |- _ /\ _ => split end.

(** ** Numbers *)

Section NumberFacts.

Lemma nor_zero (d : number) : (Fin 0 || d)%J = d.
Proof.
  unfold nor, truthy. destruct (Req_dec_T 0 0) as [_ | H]; [reflexivity | lra].
Qed.

Lemma nor_nonzero (x : R) (d : number) : x <> 0 -> (Fin x || d)%J = Fin x.
Proof.
  intros H. unfold nor, truthy.
  destruct (Req_dec_T x 0) as [E | _]; [contradiction | reflexivity].
Qed.

(** The result of [x || d] is [NaN] only if the default is. *)
Lemma nor_not_NaN (a d : number) : d <> NaN -> (a || d)%J <> NaN.
Proof.
  intros Hd. unfold nor. destruct a; simpl; try assumption; try discriminate.
  destruct (Req_dec_T x 0); [assumption | discriminate].
Qed.

Lemma nlt_Fin_true (x y : R) : x < y -> (Fin x < Fin y)%J = true.
Proof.
  intros H. unfold nlt. destruct (Rlt_dec x y); [reflexivity | contradiction].
Qed.

Lemma nlt_Fin_false (x y : R) : y <= x -> (Fin x < Fin y)%J = false.
Proof.
  intros H. unfold nlt. destruct (Rlt_dec x y); [lra | reflexivity].
Qed.

Lemma nadd_Fin (x y : R) : (Fin x + Fin y)%J = Fin (x + y).
Proof. reflexivity. Qed.

Lemma ndiv_Fin (x y : R) : y <> 0 -> (Fin x / Fin y)%J = Fin (x / y).
Proof.
  intros H. unfold ndiv.
  destruct (Req_dec_T y 0); [contradiction | reflexivity].
Qed.

(** [Math.min(1, x)] on a finite [x]. *)
Lemma nmin_1_Fin (x : R) : nmin 1 (Fin x) = Fin (Rmin 1 x).
Proof.
  unfold nmin, nlt, Rmin.
  destruct (Rlt_dec x 1), (Rle_dec 1 x); try reflexivity; lra.
Qed.

(** [Math.min(1, x)] is never above 1, whatever [x] is. *)
Lemma nmin_1_upper (a : number) : (1 < nmin 1 a)%J = false.
Proof.
  destruct a as [| x | |].
  - reflexivity.
  - rewrite nmin_1_Fin. apply nlt_Fin_false, Rmin_l.
  - apply nlt_Fin_false. lra.
  - reflexivity.
Qed.

(** Adding finite amounts one after the other. *)
Lemma nadd_Fin_Fin (a : number) (x y : R) :
  (a + Fin x + Fin y)%J = (a + Fin (x + y))%J.
Proof.
  destruct a; simpl; try reflexivity. f_equal. lra.
Qed.

Lemma nadd_Fin_0 (a : number) : (a + Fin 0)%J = a.
Proof.
  destruct a; simpl; try reflexivity. f_equal. lra.
Qed.

Lemma ln10_pos : 0 < ln 10.
Proof. rewrite <- ln_1. apply ln_increasing; lra. Qed.

Lemma log10_nonneg (x : R) : 1 <= x -> 0 <= log10 x.
Proof.
  intros H. unfold log10.
  assert (0 <= ln x).
  { destruct H as [H | <-]; [| rewrite ln_1; lra].
    left. rewrite <- ln_1. apply ln_increasing; lra. }
  pose proof ln10_pos.
  apply Rmult_le_pos; [assumption |].
  left. apply Rinv_0_lt_compat. assumption.
Qed.

Lemma log10_lt_1 (x : R) : 0 < x < 10 -> log10 x < 1.
Proof.
  intros [H0 H1]. unfold log10. pose proof ln10_pos as Hp.
  assert (ln x < ln 10) by (apply ln_increasing; lra).
  apply (Rmult_lt_reg_r (ln 10)); [assumption |].
  unfold Rdiv. rewrite Rmult_assoc, Rinv_l; lra.
Qed.

End NumberFacts.

(** ** [parseFloat] on sample inputs *)

Example parseFloat_number : parseFloat (JNum 7) = Fin 7.
Proof. reflexivity. Qed.

Example parseFloat_null : parseFloat JNull = NaN.
Proof. reflexivity. Qed.

Example parseFloat_text : parseFloat (JStr "n/a") = NaN.
Proof. reflexivity. Qed.

(** Runs the parser on a literal string; a real equation is left. *)
Ltac eval_parse :=
  cbv [parseFloat parseFloat_string]; vm_compute skip_spaces;
  cbv [decimal_literal unsigned_literal]; vm_compute String.prefix;
  vm_compute digits; cbv beta iota; vm_compute exponent_part;
  repeat match goal with
  | |- context [IZR ?z] =>
      progress (let z' := eval vm_compute in z in change z with z')
  | |- context [pow10 ?z] =>
      progress (let z' := eval vm_compute in z in change z with z')
  end;
  unfold pow10; simpl.

Example parseFloat_prefix : parseFloat (JStr "  12.5 km/s") = Fin 12.5.
Proof. eval_parse. f_equal. lra. Qed.

Example parseFloat_exponent : parseFloat (JStr "-3e2") = Fin (-300).
Proof. eval_parse. f_equal. lra. Qed.

Example parseFloat_fraction : parseFloat (JStr ".5E-1x") = Fin 0.05.
Proof. eval_parse. f_equal. lra. Qed.

Example parseFloat_infinity : parseFloat (JStr "Infinity") = PInf.
Proof. reflexivity. Qed.

(** ** Telemetry refresh *)

Section RefreshFields.

Variable r : Payload.Replies.
Variable d : NoaaData.

Ltac by_cases :=
  unfold refresh, derive, update_raw, update_recentFlare,
    update_electronFlux, update_wind, update_kp, update_protonFlux,
    update_ssn;
  destruct (Payload.rFlare r ≫= last), (Payload.rElectron r),
    (Payload.rWind r ≫= last), (Payload.rKp r), (Payload.rProton r),
    (Payload.rSSN r);
  reflexivity.

(** What [refresh] stores in each raw field. *)
Lemma refresh_ssn :
  ssn (refresh r d) =
  match Payload.rSSN r with
  | Some l => num_or (last l ≫= Payload.predicted_ssn) 50
  | None => ssn d
  end.
Proof. by_cases. Qed.

Lemma refresh_protonFlux :
  protonFlux (refresh r d) =
  match Payload.rProton r with
  | Some l => (parseFloat (last_field Payload.flux l) || 1)%J
  | None => protonFlux d
  end.
Proof. by_cases. Qed.

Lemma refresh_kp :
  kp (refresh r d) =
  match Payload.rKp r with
  | Some l => (parseFloat (last_field Payload.kp_index l) || 2)%J
  | None => kp d
  end.
Proof. by_cases. Qed.

Lemma refresh_solarWind :
  solarWind (refresh r d) =
  match Payload.rWind r ≫= last with
  | Some e => (parseFloat (Payload.wind_speed e) || 400)%J
  | None => solarWind d
  end.
Proof. by_cases. Qed.

Lemma refresh_bz :
  bz (refresh r d) =
  match Payload.rWind r ≫= last with
  | Some e => (parseFloat (Payload.bz e) || 0)%J
  | None => bz d
  end.
Proof. by_cases. Qed.

Lemma refresh_electronFlux :
  electronFlux (refresh r d) =
  match Payload.rElectron r with
  | Some l => (parseFloat (last_field Payload.flux l) || 100)%J
  | None => electronFlux d
  end.
Proof. by_cases. Qed.

(** The derived fields are those of the raw fields just stored. *)
Lemma refresh_radiationLevel :
  radiationLevel (refresh r d) = derive_radiationLevel (refresh r d).
Proof. reflexivity. Qed.

Lemma refresh_stormLevel :
  stormLevel (refresh r d) = derive_stormLevel (refresh r d).
Proof. reflexivity. Qed.

End RefreshFields.

(** ** The refresh on replies of any content *)

Lemma keeps_then {A : Type} (field : Dynamic.Snapshot -> A) f g :
  Dynamic.keeps field f -> Dynamic.keeps field g ->
  Dynamic.keeps field (fun d => Dynamic.and_then (f d) g).
Proof.
  intros Hf Hg d. specialize (Hf d).
  destruct (f d) as [d1 | n d1]; cbn [Dynamic.and_then Dynamic.final] in *.
  - rewrite Hg. exact Hf.
  - exact Hf.
Qed.

Lemma final_keeps {A : Type} (field : Dynamic.Snapshot -> A) o g :
  Dynamic.keeps field g ->
  field (Dynamic.final (Dynamic.and_then o g)) = field (Dynamic.final o).
Proof.
  intros Hg. destruct o as [d1 | n d1]; cbn [Dynamic.and_then Dynamic.final].
  - apply Hg.
  - reflexivity.
Qed.

Lemma throws_from_then (line : nat) f g :
  Dynamic.throws_from line f -> Dynamic.throws_from line g ->
  Dynamic.throws_from line (fun d => Dynamic.and_then (f d) g).
Proof.
  intros Hf Hg d n. specialize (Hf d n).
  destruct (f d) as [d1 | m d1];
    cbn [Dynamic.and_then Dynamic.thrown_at] in *.
  - apply Hg.
  - exact Hf.
Qed.

(** One statement, by the cases of what it reads. *)
Ltac by_reads :=
  unfold Dynamic.line_114, Dynamic.line_115, Dynamic.line_116,
    Dynamic.lines_117_120, Dynamic.line_121, Dynamic.lines_122_125,
    Dynamic.lines_127_129, Dynamic.assign;
  repeat (cbn [Dynamic.and_then Dynamic.assign Dynamic.final
               Dynamic.thrown_at];
          match goal with
          | |- context [match ?x with _ => _ end] =>
              lazymatch x with
              | context [match _ with _ => _ end] => fail
              | _ => destruct x
              end
          end);
  cbn [Dynamic.and_then Dynamic.assign Dynamic.final Dynamic.thrown_at].

Ltac keeps_statement := intros ?; by_reads; reflexivity.

(** The statements that follow the assignment of a field. *)
Ltac keeps_rest := repeat apply keeps_then; keeps_statement.

Ltac throws_statement :=
  intros ? ?; by_reads; intros H;
  first [discriminate H | injection H as <-; lia].

Ltac throws_rest := repeat apply throws_from_then; throws_statement.

(** If the block throws at [line] or before, a field assigned at [line]
    is as it was. *)
Lemma unwritten_then {A : Type} (field : Dynamic.Snapshot -> A) line f g :
  Dynamic.keeps field f ->
  Dynamic.unwritten_upto line field g ->
  Dynamic.unwritten_upto line field (fun d => Dynamic.and_then (f d) g).
Proof.
  intros Hf Hg d n. specialize (Hf d).
  destruct (f d) as [d1 | m d1];
    cbn [Dynamic.and_then Dynamic.final Dynamic.thrown_at] in *.
  - intros Ht Hn. rewrite (Hg d1 n Ht Hn). exact Hf.
  - intros _ _. exact Hf.
Qed.

Lemma unwritten_at {A : Type} (field : Dynamic.Snapshot -> A) line f g :
  (forall d, match f d with
             | Dynamic.Normal _ => True
             | Dynamic.Thrown at_line d1 =>
                 (at_line <= line)%nat -> field d1 = field d
             end) ->
  Dynamic.throws_from (S line) g ->
  Dynamic.unwritten_upto line field (fun d => Dynamic.and_then (f d) g).
Proof.
  intros Hf Hg d n. specialize (Hf d).
  destruct (f d) as [d1 | m d1];
    cbn [Dynamic.and_then Dynamic.final Dynamic.thrown_at] in *.
  - intros Ht Hn. apply Hg in Ht. lia.
  - intros Ht Hn. injection Ht as ->. exact (Hf Hn).
Qed.

Ltac thrown_statement :=
  intros ?; by_reads; first [exact I | intros; first [reflexivity | lia]].

Section DynamicFields.
Variable r : Dynamic.Replies.

Lemma protonFlux_unwritten :
  Dynamic.unwritten_upto 115 Dynamic.protonFlux (Dynamic.run_try r).
Proof.
  unfold Dynamic.run_try.
  apply unwritten_then; [keeps_statement |].
  apply unwritten_at; [thrown_statement | throws_rest].
Qed.

Lemma kp_unwritten :
  Dynamic.unwritten_upto 116 Dynamic.kp (Dynamic.run_try r).
Proof.
  unfold Dynamic.run_try.
  do 2 (apply unwritten_then; [keeps_statement |]).
  apply unwritten_at; [thrown_statement | throws_rest].
Qed.

Lemma solarWind_unwritten :
  Dynamic.unwritten_upto 118 Dynamic.solarWind (Dynamic.run_try r).
Proof.
  unfold Dynamic.run_try.
  do 3 (apply unwritten_then; [keeps_statement |]).
  apply unwritten_at; [thrown_statement | throws_rest].
Qed.

Lemma bz_unwritten :
  Dynamic.unwritten_upto 119 Dynamic.bz (Dynamic.run_try r).
Proof.
  unfold Dynamic.run_try.
  do 3 (apply unwritten_then; [keeps_statement |]).
  apply unwritten_at; [thrown_statement | throws_rest].
Qed.

Lemma electronFlux_unwritten :
  Dynamic.unwritten_upto 121 Dynamic.electronFlux (Dynamic.run_try r).
Proof.
  unfold Dynamic.run_try.
  do 4 (apply unwritten_then; [keeps_statement |]).
  apply unwritten_at; [thrown_statement | throws_rest].
Qed.

Lemma recentFlare_unwritten :
  Dynamic.unwritten_upto 124 Dynamic.recentFlare (Dynamic.run_try r).
Proof.
  unfold Dynamic.run_try.
  do 5 (apply unwritten_then; [keeps_statement |]).
  apply unwritten_at; [thrown_statement | throws_rest].
Qed.

Lemma levels_unwritten (line : nat) :
  Dynamic.unwritten_upto line
    (fun d => (Dynamic.stormLevel d, Dynamic.radiationLevel d))
    (Dynamic.run_try r).
Proof.
  unfold Dynamic.run_try.
  do 6 (apply unwritten_then; [keeps_statement |]).
  intros d n. by_reads; intros H; first [discriminate H | reflexivity].
Qed.

End DynamicFields.

Section DynamicDefaults.
Variables (r : Dynamic.Replies) (d : Dynamic.Snapshot).

(** A failed request: its statement does nothing, and no other statement
    writes its field. *)
Lemma failed_ssn :
  Dynamic.rSSN r = None ->
  Dynamic.ssn (Dynamic.refresh r d) = Dynamic.ssn d.
Proof.
  intros H. unfold Dynamic.refresh, Dynamic.run_try, Dynamic.line_114.
  rewrite H. apply (keeps_then Dynamic.ssn (fun d => Dynamic.Normal d));
    [intros ?; reflexivity | keeps_rest].
Qed.

Lemma failed_protonFlux :
  Dynamic.rProton r = None ->
  Dynamic.protonFlux (Dynamic.refresh r d) = Dynamic.protonFlux d.
Proof.
  intros H. unfold Dynamic.refresh.
  assert (K : Dynamic.keeps Dynamic.protonFlux (Dynamic.run_try r)).
  { unfold Dynamic.run_try, Dynamic.line_115. rewrite H. keeps_rest. }
  apply K.
Qed.

Lemma failed_kp :
  Dynamic.rKp r = None ->
  Dynamic.kp (Dynamic.refresh r d) = Dynamic.kp d.
Proof.
  intros H. unfold Dynamic.refresh.
  assert (K : Dynamic.keeps Dynamic.kp (Dynamic.run_try r)).
  { unfold Dynamic.run_try, Dynamic.line_116. rewrite H. keeps_rest. }
  apply K.
Qed.

Lemma failed_wind :
  Dynamic.rWind r ≫= last = None ->
  Dynamic.solarWind (Dynamic.refresh r d) = Dynamic.solarWind d /\
  Dynamic.bz (Dynamic.refresh r d) = Dynamic.bz d.
Proof.
  intros H. unfold Dynamic.refresh.
  assert (K : Dynamic.keeps
                (fun d => (Dynamic.solarWind d, Dynamic.bz d))
                (Dynamic.run_try r)).
  { unfold Dynamic.run_try, Dynamic.lines_117_120. rewrite H. keeps_rest. }
  specialize (K d). cbv beta in K. injection K as K1 K2. split; assumption.
Qed.

Lemma failed_electronFlux :
  Dynamic.rElectron r = None ->
  Dynamic.electronFlux (Dynamic.refresh r d) = Dynamic.electronFlux d.
Proof.
  intros H. unfold Dynamic.refresh.
  assert (K : Dynamic.keeps Dynamic.electronFlux (Dynamic.run_try r)).
  { unfold Dynamic.run_try, Dynamic.line_121. rewrite H. keeps_rest. }
  apply K.
Qed.

(** Line 114 comes first and never throws. *)
Lemma stored_ssn (l : list Dynamic.json) :
  Dynamic.rSSN r = Some l ->
  Dynamic.ssn (Dynamic.refresh r d)
  = Dynamic.or_default (Dynamic.opt_get "predicted_ssn" (last l))
      (Dynamic.JsNumber 50).
Proof.
  intros H. unfold Dynamic.refresh, Dynamic.run_try.
  rewrite (final_keeps Dynamic.ssn) by keeps_rest.
  unfold Dynamic.line_114. rewrite H. reflexivity.
Qed.

(** The statements up to a line, by the cases of what they read; the
    cases in which one of them throws contradict [passes]. *)
Ltac past_114 :=
  unfold Dynamic.refresh, Dynamic.run_try, Dynamic.line_114;
  destruct (Dynamic.rSSN r); cbn [Dynamic.and_then].

Ltac stopped :=
  cbn [Dynamic.passes Dynamic.and_then Nat.ltb Nat.leb];
  try (intros Hstop; discriminate Hstop).

Ltac past_115 :=
  past_114; unfold Dynamic.line_115, Dynamic.assign;
  (destruct (Dynamic.rProton r) as [lp |];
   [destruct (Dynamic.opt_parse "flux" (last lp)) |]); stopped.

Ltac past_116 :=
  past_115; unfold Dynamic.line_116, Dynamic.assign;
  (destruct (Dynamic.rKp r) as [lk |];
   [destruct (Dynamic.opt_parse "kp_index" (last lk)) |]); stopped.

Lemma stored_protonFlux (l : list Dynamic.json) :
  Dynamic.rProton r = Some l ->
  match Dynamic.opt_parse "flux" (last l) with
  | Some x => Dynamic.protonFlux (Dynamic.refresh r d) = (x || 1)%J
  | None => Dynamic.thrown_at (Dynamic.run_try r d) = Some 115%nat
  end.
Proof.
  intros H. past_114; unfold Dynamic.line_115, Dynamic.assign; rewrite H;
    (destruct (Dynamic.opt_parse "flux" (last l));
     [rewrite (final_keeps Dynamic.protonFlux) by keeps_rest |]);
    reflexivity.
Qed.

Lemma stored_kp (l : list Dynamic.json) :
  Dynamic.rKp r = Some l ->
  Dynamic.passes 115 (Dynamic.run_try r d) = true ->
  match Dynamic.opt_parse "kp_index" (last l) with
  | Some x => Dynamic.kp (Dynamic.refresh r d) = (x || 2)%J
  | None => Dynamic.thrown_at (Dynamic.run_try r d) = Some 116%nat
  end.
Proof.
  intros H. past_115; intros _; unfold Dynamic.line_116, Dynamic.assign;
    rewrite H;
    (destruct (Dynamic.opt_parse "kp_index" (last l));
     [rewrite (final_keeps Dynamic.kp) by keeps_rest |]);
    reflexivity.
Qed.

Lemma stored_solarWind (e : Dynamic.json) :
  Dynamic.rWind r ≫= last = Some e ->
  Dynamic.passes 116 (Dynamic.run_try r d) = true ->
  match Dynamic.parse_member "wind_speed" e with
  | Some x => Dynamic.solarWind (Dynamic.refresh r d) = (x || 400)%J
  | None => Dynamic.thrown_at (Dynamic.run_try r d) = Some 118%nat
  end.
Proof.
  intros H. past_116; intros _;
    unfold Dynamic.lines_117_120, Dynamic.assign; rewrite H;
    (destruct (Dynamic.parse_member "wind_speed" e);
     [rewrite !(final_keeps Dynamic.solarWind) by keeps_rest |]);
    reflexivity.
Qed.

Lemma stored_bz (e : Dynamic.json) :
  Dynamic.rWind r ≫= last = Some e ->
  Dynamic.passes 118 (Dynamic.run_try r d) = true ->
  match Dynamic.parse_member "bz" e with
  | Some x => Dynamic.bz (Dynamic.refresh r d) = (x || 0)%J
  | None => Dynamic.thrown_at (Dynamic.run_try r d) = Some 119%nat
  end.
Proof.
  intros H. past_116;
    unfold Dynamic.lines_117_120, Dynamic.assign; rewrite H;
    destruct (Dynamic.parse_member "wind_speed" e); stopped; intros _;
    (destruct (Dynamic.parse_member "bz" e);
     [rewrite (final_keeps Dynamic.bz) by keeps_rest |]);
    reflexivity.
Qed.

Lemma stored_electronFlux (l : list Dynamic.json) :
  Dynamic.rElectron r = Some l ->
  Dynamic.passes 119 (Dynamic.run_try r d) = true ->
  match Dynamic.opt_parse "flux" (last l) with
  | Some x => Dynamic.electronFlux (Dynamic.refresh r d) = (x || 100)%J
  | None => Dynamic.thrown_at (Dynamic.run_try r d) = Some 121%nat
  end.
Proof.
  intros H. past_116;
    unfold Dynamic.lines_117_120, Dynamic.assign;
    (destruct (Dynamic.rWind r ≫= last) as [e |];
     [destruct (Dynamic.parse_member "wind_speed" e); stopped;
      destruct (Dynamic.parse_member "bz" e) |]);
    stopped; intros _; unfold Dynamic.line_121, Dynamic.assign; rewrite H;
    (destruct (Dynamic.opt_parse "flux" (last l));
     [rewrite (final_keeps Dynamic.electronFlux) by keeps_rest |]);
    reflexivity.
Qed.

End DynamicDefaults.

(** What makes the block throw. *)
Lemma thrown_and_then o (f : Dynamic.Snapshot -> Dynamic.outcome) n :
  Dynamic.thrown_at (Dynamic.and_then o f) = Some n ->
  Dynamic.thrown_at o = Some n \/
  exists d1, Dynamic.thrown_at (f d1) = Some n.
Proof.
  destruct o as [d1 | m d1]; cbn [Dynamic.and_then]; intros H.
  - right. exists d1. exact H.
  - left. exact H.
Qed.

Lemma thrown_assign {A : Type} line (value : option A) store d n :
  Dynamic.thrown_at (Dynamic.assign line value store d) = Some n ->
  n = line /\ value = None.
Proof.
  destruct value; cbn [Dynamic.assign Dynamic.thrown_at]; intros H.
  - discriminate H.
  - injection H as <-. split; reflexivity.
Qed.

Lemma flare_thrown (latest : Dynamic.json) :
  (current_class ← Dynamic.member "current_class" latest;
   max_class ← Dynamic.member "max_class" latest;
   Some (Dynamic.or_default (Dynamic.or_else current_class max_class)
           (Dynamic.JsString "None"))) = None ->
  latest = Dynamic.JsNull.
Proof.
  destruct latest; cbn [Dynamic.member mbind option_bind]; intros H;
    first [reflexivity | discriminate H].
Qed.

Lemma thrown_cause (r : Dynamic.Replies) (d : Dynamic.Snapshot) (n : nat) :
  Dynamic.thrown_at (Dynamic.run_try r d) = Some n ->
  (n = 115%nat /\ exists l, Dynamic.rProton r = Some l /\
     Dynamic.opt_parse "flux" (last l) = None) \/
  (n = 116%nat /\ exists l, Dynamic.rKp r = Some l /\
     Dynamic.opt_parse "kp_index" (last l) = None) \/
  (n = 118%nat /\ exists e, Dynamic.rWind r ≫= last = Some e /\
     Dynamic.parse_member "wind_speed" e = None) \/
  (n = 119%nat /\ exists e, Dynamic.rWind r ≫= last = Some e /\
     Dynamic.parse_member "bz" e = None) \/
  (n = 121%nat /\ exists l, Dynamic.rElectron r = Some l /\
     Dynamic.opt_parse "flux" (last l) = None) \/
  (n = 124%nat /\ Dynamic.rFlare r ≫= last = Some Dynamic.JsNull) \/
  n = 127%nat.
Proof.
  unfold Dynamic.run_try. intros H.
  apply thrown_and_then in H as [H | [d1 H]].
  { unfold Dynamic.line_114 in H. destruct (Dynamic.rSSN r); discriminate H. }
  apply thrown_and_then in H as [H | [d2 H]].
  { left. unfold Dynamic.line_115 in H.
    destruct (Dynamic.rProton r) as [l |]; [| discriminate H].
    apply thrown_assign in H as [-> H]. eauto. }
  apply thrown_and_then in H as [H | [d3 H]].
  { right; left. unfold Dynamic.line_116 in H.
    destruct (Dynamic.rKp r) as [l |]; [| discriminate H].
    apply thrown_assign in H as [-> H]. eauto. }
  apply thrown_and_then in H as [H | [d4 H]].
  { unfold Dynamic.lines_117_120 in H.
    destruct (Dynamic.rWind r ≫= last) as [e |]; [| discriminate H].
    apply thrown_and_then in H as [H | [d4 H]];
      apply thrown_assign in H as [-> H].
    - right; right; left. eauto.
    - right; right; right; left. eauto. }
  apply thrown_and_then in H as [H | [d5 H]].
  { do 4 right; left. unfold Dynamic.line_121 in H.
    destruct (Dynamic.rElectron r) as [l |]; [| discriminate H].
    apply thrown_assign in H as [-> H]. eauto. }
  apply thrown_and_then in H as [H | [d6 H]].
  { do 5 right; left. unfold Dynamic.lines_122_125 in H.
    destruct (Dynamic.rFlare r ≫= last) as [latest |]; [| discriminate H].
    apply thrown_assign in H as [-> H]. apply flare_thrown in H as ->.
    split; reflexivity. }
  do 6 right. unfold Dynamic.lines_127_129 in H.
  destruct (Dynamic.recentFlare d6); first [discriminate H | injection H as <-];
    reflexivity.
Qed.

(** When the evaluation of a value throws. *)
Lemma opt_parse_throws (name : string) (e : option Dynamic.json) :
  Dynamic.opt_parse name e = None <->
  exists j, Dynamic.opt_get name e = Some j /\ Dynamic.unprintable j = true.
Proof.
  unfold Dynamic.opt_parse, Dynamic.parseFloat_value.
  destruct (Dynamic.opt_get name e) as [j |].
  - destruct (Dynamic.unprintable j) eqn:E; split.
    + intros _. exists j. split; [reflexivity | exact E].
    + reflexivity.
    + intros H. discriminate H.
    + intros (j' & H & H'). injection H as <-. congruence.
  - split; [intros H; discriminate H | intros (j & H & _); discriminate H].
Qed.

Lemma parse_member_throws (name : string) (e : Dynamic.json) :
  Dynamic.parse_member name e = None <->
  e = Dynamic.JsNull \/
  exists j, Dynamic.get name e = Some j /\ Dynamic.unprintable j = true.
Proof.
  assert (H : forall v, Dynamic.parseFloat_value v = None <->
            exists j, v = Some j /\ Dynamic.unprintable j = true).
  { intros [j |]; unfold Dynamic.parseFloat_value.
    - destruct (Dynamic.unprintable j) eqn:E; split.
      + intros _. exists j. split; [reflexivity | exact E].
      + reflexivity.
      + intros H. discriminate H.
      + intros (j' & H & H'). injection H as <-. congruence.
    - split; [intros H; discriminate H | intros (j & H & _); discriminate H]. }
  unfold Dynamic.parse_member.
  destruct e; cbn [Dynamic.member mbind option_bind]; rewrite ?H;
    split; try (intros [E | E]; [discriminate E | exact E]);
    try (intros E; right; exact E).
  - intros _. left. reflexivity.
  - reflexivity.
Qed.

(** C1, as amended, over replies that are JSON arrays of any content.
    A request that fails leaves its field as it was, and so does an
    empty wind series.  A request that succeeds does not keep the
    previous value when the latest value is missing or does not parse:
    once its assignment is reached, the proton flux, the kp index, the
    wind speed, bz and the electron flux get their seed defaults 1, 2,
    400, 0 and 100; the sunspot number, stored without parsing, gets 50
    for a missing or falsy value and is otherwise the value delivered,
    whatever it is.  An assignment is not reached when an earlier
    statement throws.  The block throws at line 115, 116, 118, 119 or
    121 when the evaluation of the value throws there: the last wind
    entry is [null], or the value handed to [parseFloat] cannot be
    converted to a string; it throws for no other cause but a flare
    series that ends in [null] (line 124) or a flare class that is not a
    string (line 127).  Whenever the block throws, the fields assigned
    at that line or later are as they were, the two derived levels among
    them. *)
Theorem refresh_failed_keeps_malformed_overwrites
    (r : Dynamic.Replies) (d : Dynamic.Snapshot) :
  let o := Dynamic.run_try r d in
  let d' := Dynamic.refresh r d in
  (Dynamic.rSSN r = None -> Dynamic.ssn d' = Dynamic.ssn d) /\
  (Dynamic.rProton r = None ->
     Dynamic.protonFlux d' = Dynamic.protonFlux d) /\
  (Dynamic.rKp r = None -> Dynamic.kp d' = Dynamic.kp d) /\
  (Dynamic.rWind r = None \/ Dynamic.rWind r = Some [] ->
     Dynamic.solarWind d' = Dynamic.solarWind d /\
     Dynamic.bz d' = Dynamic.bz d) /\
  (Dynamic.rElectron r = None ->
     Dynamic.electronFlux d' = Dynamic.electronFlux d) /\
  (forall l, Dynamic.rSSN r = Some l ->
     let v := Dynamic.opt_get "predicted_ssn" (last l) in
     (Dynamic.to_boolean v = false -> Dynamic.ssn d' = Dynamic.JsNumber 50) /\
     (forall j, v = Some j -> Dynamic.to_boolean v = true ->
        Dynamic.ssn d' = j)) /\
  (forall l, Dynamic.rProton r = Some l ->
     (Dynamic.opt_parse "flux" (last l) = Some NaN ->
        Dynamic.protonFlux d' = Fin 1) /\
     (Dynamic.opt_parse "flux" (last l) = None ->
        Dynamic.thrown_at o = Some 115%nat)) /\
  (forall l, Dynamic.rKp r = Some l ->
     Dynamic.passes 115 o = true ->
     (Dynamic.opt_parse "kp_index" (last l) = Some NaN ->
        Dynamic.kp d' = Fin 2) /\
     (Dynamic.opt_parse "kp_index" (last l) = None ->
        Dynamic.thrown_at o = Some 116%nat)) /\
  (forall l e, Dynamic.rWind r = Some l -> last l = Some e ->
     Dynamic.passes 116 o = true ->
     (Dynamic.parse_member "wind_speed" e = Some NaN ->
        Dynamic.solarWind d' = Fin 400) /\
     (Dynamic.parse_member "wind_speed" e = None ->
        Dynamic.thrown_at o = Some 118%nat) /\
     (Dynamic.parse_member "bz" e = Some NaN ->
        Dynamic.passes 118 o = true -> Dynamic.bz d' = Fin 0) /\
     (Dynamic.parse_member "bz" e = None ->
        Dynamic.passes 118 o = true ->
        Dynamic.thrown_at o = Some 119%nat)) /\
  (forall l, Dynamic.rElectron r = Some l ->
     Dynamic.passes 119 o = true ->
     (Dynamic.opt_parse "flux" (last l) = Some NaN ->
        Dynamic.electronFlux d' = Fin 100) /\
     (Dynamic.opt_parse "flux" (last l) = None ->
        Dynamic.thrown_at o = Some 121%nat)) /\
  (forall line, Dynamic.thrown_at o = Some line ->
     ((line <= 115)%nat -> Dynamic.protonFlux d' = Dynamic.protonFlux d) /\
     ((line <= 116)%nat -> Dynamic.kp d' = Dynamic.kp d) /\
     ((line <= 118)%nat -> Dynamic.solarWind d' = Dynamic.solarWind d) /\
     ((line <= 119)%nat -> Dynamic.bz d' = Dynamic.bz d) /\
     ((line <= 121)%nat ->
        Dynamic.electronFlux d' = Dynamic.electronFlux d) /\
     ((line <= 124)%nat ->
        Dynamic.recentFlare d' = Dynamic.recentFlare d) /\
     Dynamic.stormLevel d' = Dynamic.stormLevel d /\
     Dynamic.radiationLevel d' = Dynamic.radiationLevel d) /\
  (forall line, Dynamic.thrown_at o = Some line ->
     (line = 115%nat /\ exists l, Dynamic.rProton r = Some l /\
        Dynamic.opt_parse "flux" (last l) = None) \/
     (line = 116%nat /\ exists l, Dynamic.rKp r = Some l /\
        Dynamic.opt_parse "kp_index" (last l) = None) \/
     (line = 118%nat /\ exists e, Dynamic.rWind r ≫= last = Some e /\
        Dynamic.parse_member "wind_speed" e = None) \/
     (line = 119%nat /\ exists e, Dynamic.rWind r ≫= last = Some e /\
        Dynamic.parse_member "bz" e = None) \/
     (line = 121%nat /\ exists l, Dynamic.rElectron r = Some l /\
        Dynamic.opt_parse "flux" (last l) = None) \/
     (line = 124%nat /\ Dynamic.rFlare r ≫= last = Some Dynamic.JsNull) \/
     line = 127%nat) /\
  (forall name e, Dynamic.opt_parse name e = None <->
     exists j, Dynamic.opt_get name e = Some j /\
       Dynamic.unprintable j = true) /\
  (forall name e, Dynamic.parse_member name e = None <->
     e = Dynamic.JsNull \/
     exists j, Dynamic.get name e = Some j /\ Dynamic.unprintable j = true).
Proof.
  cbv zeta. split_all.
  - apply failed_ssn.
  - apply failed_protonFlux.
  - apply failed_kp.
  - intros [H | H]; apply failed_wind; rewrite H; reflexivity.
  - apply failed_electronFlux.
  - intros l Hl. rewrite (stored_ssn r d l Hl). unfold Dynamic.or_default.
    split.
    + intros ->.
      destruct (Dynamic.opt_get "predicted_ssn" (last l)); reflexivity.
    + intros j -> ->. reflexivity.
  - intros l Hl. pose proof (stored_protonFlux r d l Hl) as H.
    split; intros E; rewrite E in H; exact H.
  - intros l Hl Hp. pose proof (stored_kp r d l Hl Hp) as H.
    split; intros E; rewrite E in H; exact H.
  - intros l e Hl He Hp.
    assert (Hw : Dynamic.rWind r ≫= last = Some e).
    { rewrite Hl. exact He. }
    pose proof (stored_solarWind r d e Hw Hp) as H.
    split_all.
    + intros E. rewrite E in H. exact H.
    + intros E. rewrite E in H. exact H.
    + intros E Hp'. pose proof (stored_bz r d e Hw Hp') as H'.
      rewrite E in H'. exact H'.
    + intros E Hp'. pose proof (stored_bz r d e Hw Hp') as H'.
      rewrite E in H'. exact H'.
  - intros l Hl Hp. pose proof (stored_electronFlux r d l Hl Hp) as H.
    split; intros E; rewrite E in H; exact H.
  - intros line Ht.
    pose proof (levels_unwritten r line d line Ht (Nat.le_refl line)) as Hl.
    cbv beta in Hl. injection Hl as Hs Hr.
    split_all.
    + apply (protonFlux_unwritten r d line Ht).
    + apply (kp_unwritten r d line Ht).
    + apply (solarWind_unwritten r d line Ht).
    + apply (bz_unwritten r d line Ht).
    + apply (electronFlux_unwritten r d line Ht).
    + apply (recentFlare_unwritten r d line Ht).
    + exact Hs.
    + exact Hr.
  - apply thrown_cause.
  - apply opt_parse_throws.
  - apply parse_member_throws.
Qed.

(** C1, as stated, fails: with a proton flux of 7 in the snapshot, a
    reply whose latest flux is the text "n/a" leaves 1 there, not 7. *)
Lemma malformed_flux_replaces_previous :
  let d := Dynamic.refresh (Dynamic.proton_only (Dynamic.JsNumber 7))
             Dynamic.snapshot0 in
  let r := Dynamic.proton_only (Dynamic.JsString "n/a") in
  Dynamic.rProton r
    = Some [Dynamic.JsObject [("flux", Dynamic.JsString "n/a")]] /\
  Dynamic.parseFloat_value (Some (Dynamic.JsString "n/a")) = Some NaN /\
  Dynamic.thrown_at (Dynamic.run_try r d) = None /\
  Dynamic.protonFlux d = Fin 7 /\
  Dynamic.protonFlux (Dynamic.refresh r d) = Fin 1 /\
  Dynamic.protonFlux (Dynamic.refresh r d) <> Dynamic.protonFlux d.
Proof.
  assert (H7 : Dynamic.protonFlux
                 (Dynamic.refresh (Dynamic.proton_only (Dynamic.JsNumber 7))
                    Dynamic.snapshot0) = Fin 7).
  { transitivity (Fin 7 || 1)%J; [| apply nor_nonzero; lra].
    exact (stored_protonFlux (Dynamic.proton_only (Dynamic.JsNumber 7))
             Dynamic.snapshot0 _ eq_refl). }
  assert (H1 : Dynamic.protonFlux
                 (Dynamic.refresh (Dynamic.proton_only (Dynamic.JsString "n/a"))
                    (Dynamic.refresh
                       (Dynamic.proton_only (Dynamic.JsNumber 7))
                       Dynamic.snapshot0)) = Fin 1).
  { exact (stored_protonFlux
             (Dynamic.proton_only (Dynamic.JsString "n/a")) _ _ eq_refl). }
  cbv zeta. split_all.
  - reflexivity.
  - reflexivity.
  - reflexivity.
  - exact H7.
  - exact H1.
  - rewrite H1, H7. intros E. injection E as E. lra.
Qed.

(** The amended C1 at work on a snapshot that holds none of the seed
    defaults.  With every request failed the six fields stay put.  With
    every reading unusable the text "n/a" becomes the sunspot number and
    the other five fields fall back to their seed defaults.  With a
    wind series that ends in [null] the block throws at line 118: the
    fields assigned before get 50, 1 and 2, and everything from the wind
    speed on stays put.  With a kp index that cannot be printed the
    block throws at line 116 and the kp index stays put as well. *)
Lemma refresh_failed_keeps_malformed_overwrites_witness :
  let d := Dynamic.observed in
  (Dynamic.ssn (Dynamic.refresh Dynamic.no_reply d) = Dynamic.JsNumber 120 /\
   Dynamic.protonFlux (Dynamic.refresh Dynamic.no_reply d) = Fin 7 /\
   Dynamic.kp (Dynamic.refresh Dynamic.no_reply d) = Fin 3 /\
   Dynamic.solarWind (Dynamic.refresh Dynamic.no_reply d) = Fin 520 /\
   Dynamic.bz (Dynamic.refresh Dynamic.no_reply d) = Fin (-4) /\
   Dynamic.electronFlux (Dynamic.refresh Dynamic.no_reply d) = Fin 900) /\
  (Dynamic.thrown_at (Dynamic.run_try Dynamic.unusable d) = None /\
   Dynamic.ssn (Dynamic.refresh Dynamic.unusable d)
     = Dynamic.JsString "n/a" /\
   Dynamic.protonFlux (Dynamic.refresh Dynamic.unusable d) = Fin 1 /\
   Dynamic.kp (Dynamic.refresh Dynamic.unusable d) = Fin 2 /\
   Dynamic.solarWind (Dynamic.refresh Dynamic.unusable d) = Fin 400 /\
   Dynamic.bz (Dynamic.refresh Dynamic.unusable d) = Fin 0 /\
   Dynamic.electronFlux (Dynamic.refresh Dynamic.unusable d) = Fin 100) /\
  (Dynamic.thrown_at (Dynamic.run_try Dynamic.wind_null d) = Some 118%nat /\
   Dynamic.ssn (Dynamic.refresh Dynamic.wind_null d) = Dynamic.JsNumber 50 /\
   Dynamic.protonFlux (Dynamic.refresh Dynamic.wind_null d) = Fin 1 /\
   Dynamic.kp (Dynamic.refresh Dynamic.wind_null d) = Fin 2 /\
   Dynamic.solarWind (Dynamic.refresh Dynamic.wind_null d) = Fin 520 /\
   Dynamic.bz (Dynamic.refresh Dynamic.wind_null d) = Fin (-4) /\
   Dynamic.electronFlux (Dynamic.refresh Dynamic.wind_null d) = Fin 900 /\
   Dynamic.recentFlare (Dynamic.refresh Dynamic.wind_null d)
     = Dynamic.JsString "C2.1" /\
   Dynamic.stormLevel (Dynamic.refresh Dynamic.wind_null d) = Fin 0.5 /\
   Dynamic.radiationLevel (Dynamic.refresh Dynamic.wind_null d) = Fin 0.25) /\
  (Dynamic.thrown_at (Dynamic.run_try Dynamic.kp_unprintable d)
     = Some 116%nat /\
   Dynamic.protonFlux (Dynamic.refresh Dynamic.kp_unprintable d) = Fin 1 /\
   Dynamic.kp (Dynamic.refresh Dynamic.kp_unprintable d) = Fin 3 /\
   Dynamic.solarWind (Dynamic.refresh Dynamic.kp_unprintable d) = Fin 520 /\
   Dynamic.electronFlux (Dynamic.refresh Dynamic.kp_unprintable d) = Fin 900).
Proof.
  intros d.
  destruct (refresh_failed_keeps_malformed_overwrites Dynamic.no_reply d)
    as (K1 & K2 & K3 & K4 & K5 & _).
  destruct (refresh_failed_keeps_malformed_overwrites Dynamic.unusable d)
    as (_ & _ & _ & _ & _ & D1 & D2 & D3 & D4 & D5 & _).
  destruct (refresh_failed_keeps_malformed_overwrites Dynamic.wind_null d)
    as (_ & _ & _ & _ & _ & N1 & N2 & N3 & N4 & _ & N6 & _ & _ & _).
  destruct (refresh_failed_keeps_malformed_overwrites
              Dynamic.kp_unprintable d)
    as (_ & _ & _ & _ & _ & _ & U2 & U3 & _ & _ & U6 & _ & _ & _).
  destruct (K4 (or_introl eq_refl)) as [K4a K4b].
  destruct (D1 _ eq_refl) as [_ D1b].
  destruct (D2 _ eq_refl) as [D2a _].
  destruct (D3 _ eq_refl eq_refl) as [D3a _].
  destruct (D4 _ _ eq_refl eq_refl eq_refl) as (D4a & _ & D4b & _).
  destruct (D5 _ eq_refl eq_refl) as [D5a _].
  destruct (N1 _ eq_refl) as [N1a _].
  destruct (N2 _ eq_refl) as [N2a _].
  destruct (N3 _ eq_refl eq_refl) as [N3a _].
  destruct (N4 _ _ eq_refl eq_refl eq_refl) as (_ & N4a & _).
  destruct (N6 _ (N4a eq_refl))
    as (_ & _ & N6a & N6b & N6c & N6d & N6e & N6f).
  destruct (U2 _ eq_refl) as [U2a _].
  destruct (U3 _ eq_refl eq_refl) as [_ U3a].
  destruct (U6 _ (U3a eq_refl)) as (_ & U6a & U6b & _ & U6c & _).
  split; [| split; [| split]].
  - split_all;
      [ rewrite K1 | rewrite K2 | rewrite K3 | rewrite K4a | rewrite K4b
      | rewrite K5 ];
      reflexivity.
  - split_all;
      [ reflexivity | apply D1b | apply D2a | apply D3a | apply D4a
      | apply D4b | apply D5a ];
      reflexivity.
  - split_all;
      [ apply N4a; reflexivity | apply N1a; reflexivity
      | apply N2a; reflexivity | apply N3a; reflexivity
      | rewrite N6a by (cbv; lia); reflexivity
      | rewrite N6b by (cbv; lia); reflexivity
      | rewrite N6c by (cbv; lia); reflexivity
      | rewrite N6d by (cbv; lia); reflexivity
      | rewrite N6e; reflexivity | rewrite N6f; reflexivity ].
  - split_all;
      [ apply U3a; reflexivity | apply U2a; reflexivity
      | rewrite U6a by (cbv; lia); reflexivity
      | rewrite U6b by (cbv; lia); reflexivity
      | rewrite U6c by (cbv; lia); reflexivity ].
Defined.

(** ** Well-formed replies in the general model *)

(** On replies that follow the schema of [Payload], no statement throws
    and the general model computes the snapshot of [Telemetry.refresh]. *)
Lemma last_map {A B : Type} (f : A -> B) (l : list A) :
  last (map f l) = f <$> last l.
Proof.
  induction l as [| a [| b l] IH]; [reflexivity | reflexivity |].
  exact IH.
Qed.

Lemma parseFloat_of_jsval (name : string) (v : jsval) :
  Dynamic.parseFloat_value
    (Dynamic.get name (Dynamic.JsObject (Dynamic.of_jsval name v)))
  = Some (parseFloat v).
Proof.
  destruct v; cbn [Dynamic.of_jsval Dynamic.get Dynamic.prop];
    rewrite ?String.eqb_refl; reflexivity.
Qed.

Lemma opt_parse_last_flux (l : list Payload.Flux) :
  Dynamic.opt_parse "flux" (last (map Dynamic.of_flux l))
  = Some (parseFloat (last_field Payload.flux l)).
Proof.
  rewrite last_map. unfold last_field.
  destruct (last l) as [e |]; [| reflexivity].
  apply (parseFloat_of_jsval "flux").
Qed.

Lemma opt_parse_last_kp (l : list Payload.Kp) :
  Dynamic.opt_parse "kp_index" (last (map Dynamic.of_kp l))
  = Some (parseFloat (last_field Payload.kp_index l)).
Proof.
  rewrite last_map. unfold last_field.
  destruct (last l) as [e |]; [| reflexivity].
  apply (parseFloat_of_jsval "kp_index").
Qed.

Lemma parse_member_wind_speed (e : Payload.Wind) :
  Dynamic.parse_member "wind_speed" (Dynamic.of_wind e)
  = Some (parseFloat (Payload.wind_speed e)).
Proof.
  destruct e as [[| | s | s] [| | b | b]]; reflexivity.
Qed.

Lemma parse_member_bz (e : Payload.Wind) :
  Dynamic.parse_member "bz" (Dynamic.of_wind e)
  = Some (parseFloat (Payload.bz e)).
Proof.
  destruct e as [[| | s | s] [| | b | b]]; reflexivity.
Qed.

Lemma member_current_class (e : Payload.Flare) :
  Dynamic.member "current_class" (Dynamic.of_flare e)
  = Some (Dynamic.JsString <$> Payload.current_class e).
Proof. destruct e as [[c |] [m |]]; reflexivity. Qed.

Lemma member_max_class (e : Payload.Flare) :
  Dynamic.member "max_class" (Dynamic.of_flare e)
  = Some (Dynamic.JsString <$> Payload.max_class e).
Proof. destruct e as [[c |] [m |]]; reflexivity. Qed.

Lemma flare_class_of_flare (a b : option string) :
  Dynamic.or_default
    (Dynamic.or_else (Dynamic.JsString <$> a) (Dynamic.JsString <$> b))
    (Dynamic.JsString "None")
  = Dynamic.JsString (default "None" (str_or (str_or a b) (Some "None"))).
Proof.
  destruct a as [c |], b as [m |];
    unfold Dynamic.or_default, Dynamic.or_else, str_or, str_truthy;
    cbn [fmap option_fmap option_map Dynamic.to_boolean default];
    repeat match goal with
           | |- context [String.eqb ?a ""] =>
               destruct (String.eqb a ""); cbn [negb Dynamic.to_boolean]
           end;
    reflexivity.
Qed.

Section WellFormed.
Variables (r : Payload.Replies) (d : NoaaData) (x : R).

Lemma line_114_of_replies :
  ssn d = Fin x ->
  exists x', ssn (update_ssn r d) = Fin x' /\
    Dynamic.line_114 (Dynamic.of_replies r) (Dynamic.of_snapshot x d)
    = Dynamic.Normal (Dynamic.of_snapshot x' (update_ssn r d)).
Proof.
  intros Hx. unfold Dynamic.line_114, update_ssn.
  cbn [Dynamic.of_replies Dynamic.rSSN].
  destruct (Payload.rSSN r) as [l |]; cbn [Dynamic.of_series];
    [| exists x; split; [exact Hx | reflexivity]].
  rewrite last_map.
  destruct (last l) as [[[v |]] |];
    cbn [fmap option_fmap option_map mbind option_bind Payload.predicted_ssn
         Dynamic.opt_get Dynamic.of_solar_cycle Dynamic.get Dynamic.prop
         num_or];
    rewrite ?String.eqb_refl;
    try (exists 50; split; reflexivity).
  unfold Dynamic.or_default, Dynamic.to_boolean, nor, truthy.
  destruct (Req_dec_T v 0);
    [exists 50 | exists v]; split; reflexivity.
Qed.

Lemma line_115_of_replies :
  Dynamic.line_115 (Dynamic.of_replies r) (Dynamic.of_snapshot x d)
  = Dynamic.Normal (Dynamic.of_snapshot x (update_protonFlux r d)).
Proof.
  unfold Dynamic.line_115, update_protonFlux.
  cbn [Dynamic.of_replies Dynamic.rProton].
  destruct (Payload.rProton r) as [l |]; cbn [Dynamic.of_series];
    [| reflexivity].
  rewrite opt_parse_last_flux. reflexivity.
Qed.

Lemma line_116_of_replies :
  Dynamic.line_116 (Dynamic.of_replies r) (Dynamic.of_snapshot x d)
  = Dynamic.Normal (Dynamic.of_snapshot x (update_kp r d)).
Proof.
  unfold Dynamic.line_116, update_kp.
  cbn [Dynamic.of_replies Dynamic.rKp].
  destruct (Payload.rKp r) as [l |]; cbn [Dynamic.of_series];
    [| reflexivity].
  rewrite opt_parse_last_kp. reflexivity.
Qed.

Lemma lines_117_120_of_replies :
  Dynamic.lines_117_120 (Dynamic.of_replies r) (Dynamic.of_snapshot x d)
  = Dynamic.Normal (Dynamic.of_snapshot x (update_wind r d)).
Proof.
  unfold Dynamic.lines_117_120, update_wind.
  cbn [Dynamic.of_replies Dynamic.rWind].
  destruct (Payload.rWind r) as [l |]; cbn [Dynamic.of_series];
    [| reflexivity].
  cbn [mbind option_bind]. rewrite last_map.
  destruct (last l) as [e |]; [| reflexivity].
  cbn [fmap option_fmap option_map].
  rewrite parse_member_wind_speed, parse_member_bz. reflexivity.
Qed.

Lemma line_121_of_replies :
  Dynamic.line_121 (Dynamic.of_replies r) (Dynamic.of_snapshot x d)
  = Dynamic.Normal (Dynamic.of_snapshot x (update_electronFlux r d)).
Proof.
  unfold Dynamic.line_121, update_electronFlux.
  cbn [Dynamic.of_replies Dynamic.rElectron].
  destruct (Payload.rElectron r) as [l |]; cbn [Dynamic.of_series];
    [| reflexivity].
  rewrite opt_parse_last_flux. reflexivity.
Qed.

Lemma lines_122_125_of_replies :
  Dynamic.lines_122_125 (Dynamic.of_replies r) (Dynamic.of_snapshot x d)
  = Dynamic.Normal (Dynamic.of_snapshot x (update_recentFlare r d)).
Proof.
  unfold Dynamic.lines_122_125, update_recentFlare.
  cbn [Dynamic.of_replies Dynamic.rFlare].
  destruct (Payload.rFlare r) as [l |]; cbn [Dynamic.of_series];
    [| reflexivity].
  cbn [mbind option_bind]. rewrite last_map.
  destruct (last l) as [e |]; [| reflexivity].
  cbn [fmap option_fmap option_map].
  rewrite member_current_class, member_max_class.
  cbn [mbind option_bind]. rewrite flare_class_of_flare. reflexivity.
Qed.

Lemma lines_127_129_of_snapshot :
  Dynamic.lines_127_129 (Dynamic.of_snapshot x d)
  = Dynamic.Normal (Dynamic.of_snapshot x (derive d)).
Proof. reflexivity. Qed.

End WellFormed.

Lemma run_try_of_replies (r : Payload.Replies) (d : NoaaData)
    (s : Dynamic.Snapshot) :
  Dynamic.agrees s d ->
  exists s', Dynamic.run_try (Dynamic.of_replies r) s = Dynamic.Normal s' /\
    Dynamic.agrees s' (refresh r d).
Proof.
  intros (x & Hx & ->).
  destruct (line_114_of_replies r d x Hx) as (x' & Hx' & H114).
  exists (Dynamic.of_snapshot x' (refresh r d)). split.
  - unfold Dynamic.run_try. rewrite H114. cbn [Dynamic.and_then].
    rewrite line_115_of_replies. cbn [Dynamic.and_then].
    rewrite line_116_of_replies. cbn [Dynamic.and_then].
    rewrite lines_117_120_of_replies. cbn [Dynamic.and_then].
    rewrite line_121_of_replies. cbn [Dynamic.and_then].
    rewrite lines_122_125_of_replies. cbn [Dynamic.and_then].
    apply lines_127_129_of_snapshot.
  - exists x'. split; [| reflexivity].
    rewrite refresh_ssn. unfold update_ssn in Hx'.
    destruct (Payload.rSSN r); exact Hx'.
Qed.

Lemma agrees_initially : Dynamic.agrees Dynamic.snapshot0 noaaData0.
Proof. exists 50. split; reflexivity. Qed.

Lemma refresh_of_replies (r : Payload.Replies) (d : NoaaData)
    (s : Dynamic.Snapshot) :
  Dynamic.agrees s d ->
  Dynamic.agrees (Dynamic.refresh (Dynamic.of_replies r) s) (refresh r d).
Proof.
  intros H. destruct (run_try_of_replies r d s H) as (s' & Hrun & Hs').
  unfold Dynamic.refresh. rewrite Hrun. exact Hs'.
Qed.

(** Every reading unusable, in both models: the six fields get their
    seed defaults. *)
Lemma refresh_all_malformed :
  let d := refresh all_malformed noaaData0 in
  ssn d = Fin 50 /\ protonFlux d = Fin 1 /\ kp d = Fin 2 /\
  solarWind d = Fin 400 /\ bz d = Fin 0 /\ electronFlux d = Fin 100 /\
  Dynamic.agrees
    (Dynamic.refresh (Dynamic.of_replies all_malformed) Dynamic.snapshot0) d.
Proof.
  cbv zeta.
  rewrite refresh_ssn, refresh_protonFlux, refresh_kp, refresh_solarWind,
    refresh_bz, refresh_electronFlux.
  split_all; try reflexivity.
  apply refresh_of_replies, agrees_initially.
Qed.

(** C10: when a request succeeds and the reading parses to exactly 0,
    the field receives its seed default (the proton flux 1, the wind
    speed 400, the kp index 2, and likewise 50, 0 and 100 for the other
    fields), whatever it held before: [||] falls back on every falsy
    value. *)
Theorem refresh_zero_reading_stores_default (r : Payload.Replies) (d : NoaaData) :
  (forall l, Payload.rProton r = Some l ->
     parseFloat (last_field Payload.flux l) = Fin 0 ->
     protonFlux (refresh r d) = Fin 1) /\
  (forall l e, Payload.rWind r = Some l -> last l = Some e ->
     parseFloat (Payload.wind_speed e) = Fin 0 ->
     solarWind (refresh r d) = Fin 400) /\
  (forall l, Payload.rKp r = Some l ->
     parseFloat (last_field Payload.kp_index l) = Fin 0 ->
     kp (refresh r d) = Fin 2) /\
  (forall l, Payload.rSSN r = Some l ->
     last l ≫= Payload.predicted_ssn = Some 0 ->
     ssn (refresh r d) = Fin 50) /\
  (forall l e, Payload.rWind r = Some l -> last l = Some e ->
     parseFloat (Payload.bz e) = Fin 0 ->
     bz (refresh r d) = Fin 0) /\
  (forall l, Payload.rElectron r = Some l ->
     parseFloat (last_field Payload.flux l) = Fin 0 ->
     electronFlux (refresh r d) = Fin 100).
Proof.
  rewrite refresh_ssn, refresh_protonFlux, refresh_kp, refresh_solarWind,
    refresh_bz, refresh_electronFlux.
  split_all.
  - intros l -> ->. apply nor_zero.
  - intros l e -> He. simpl. rewrite He. intros ->. apply nor_zero.
  - intros l -> ->. apply nor_zero.
  - intros l -> ->. apply nor_zero.
  - intros l e -> He. simpl. rewrite He. intros ->. apply nor_zero.
  - intros l -> ->. apply nor_zero.
Qed.

(** C10 at work: replies reporting 0 everywhere, received with a flux of
    7 in the snapshot, store 1, 400 and 2 (and 50, 0, 100). *)
Lemma refresh_zero_reading_stores_default_witness :
  let d := refresh (proton_only (JNum 7)) noaaData0 in
  protonFlux (refresh all_zero d) = Fin 1 /\
  solarWind (refresh all_zero d) = Fin 400 /\
  kp (refresh all_zero d) = Fin 2 /\
  ssn (refresh all_zero d) = Fin 50 /\
  bz (refresh all_zero d) = Fin 0 /\
  electronFlux (refresh all_zero d) = Fin 100.
Proof.
  intros d.
  destruct (refresh_zero_reading_stores_default all_zero d)
    as (Z1 & Z2 & Z3 & Z4 & Z5 & Z6).
  split_all;
    [ eapply Z1 | eapply Z2 | eapply Z3 | eapply Z4 | eapply Z5 | eapply Z6 ];
    reflexivity.
Defined.

(** ** Derived fields *)

Lemma flareBoost_range (flare : string) : 0 <= flareBoost flare <= 0.8.
Proof.
  unfold flareBoost.
  destruct (startsWith flare "X"), (startsWith flare "M"); lra.
Qed.

Lemma Rmin_1_unit (x : R) : 0 <= x -> 0 <= Rmin 1 x <= 1.
Proof.
  intros H. unfold Rmin. destruct (Rle_dec 1 x); lra.
Qed.

Lemma derive_stormLevel_unit (d : NoaaData) (k b : R) :
  kp d = Fin k -> bz d = Fin b -> 0 <= k ->
  in_unit_interval (derive_stormLevel d).
Proof.
  intros Hk Hb Hk0. unfold derive_stormLevel. rewrite Hk, Hb.
  rewrite ndiv_Fin by lra.
  destruct (Rlt_dec b 0) as [Hneg | Hpos].
  - rewrite (nlt_Fin_true b 0) by assumption.
    simpl nabs. rewrite ndiv_Fin by lra. simpl nadd.
    rewrite nmin_1_Fin. simpl. apply Rmin_1_unit.
    pose proof (Rabs_pos b). lra.
  - rewrite (nlt_Fin_false b 0) by lra.
    simpl nadd. rewrite nmin_1_Fin. simpl. apply Rmin_1_unit. lra.
Qed.

Lemma nlog10_Fin (x : R) : 0 < x -> nlog10 (Fin x) = Fin (log10 x).
Proof.
  intros H. unfold nlog10.
  destruct (Rlt_dec x 0); [lra |].
  destruct (Req_dec_T x 0); [lra | reflexivity].
Qed.

Lemma derive_radiationLevel_unit (d : NoaaData) (p : R) :
  protonFlux d = Fin p -> 0 <= p ->
  in_unit_interval (derive_radiationLevel d).
Proof.
  intros Hp Hp0. unfold derive_radiationLevel. rewrite Hp, nadd_Fin.
  rewrite nlog10_Fin by lra. rewrite ndiv_Fin by lra. rewrite nadd_Fin.
  rewrite nmin_1_Fin. simpl. apply Rmin_1_unit.
  pose proof (log10_nonneg (p + 1)). pose proof (flareBoost_range (recentFlare d)).
  lra.
Qed.

(** C2, as stated, fails: a reported kp index of -9 is stored as it is
    and gives a storm level of -1. *)
Lemma negative_kp_storm_below_zero :
  let d := refresh (kp_only (JNum (-9))) noaaData0 in
  kp d = Fin (-9) /\ bz d = Fin 0 /\ protonFlux d = Fin 1 /\
  stormLevel d = Fin (-1) /\
  ~ in_unit_interval (stormLevel d).
Proof.
  cbv zeta.
  assert (Hk : kp (refresh (kp_only (JNum (-9))) noaaData0) = Fin (-9)).
  { rewrite refresh_kp. simpl. apply nor_nonzero. lra. }
  assert (Hb : bz (refresh (kp_only (JNum (-9))) noaaData0) = Fin 0).
  { rewrite refresh_bz. reflexivity. }
  assert (Hs : stormLevel (refresh (kp_only (JNum (-9))) noaaData0) = Fin (-1)).
  { rewrite refresh_stormLevel. unfold derive_stormLevel. rewrite Hk, Hb.
    rewrite ndiv_Fin by lra. rewrite (nlt_Fin_false 0 0) by lra.
    simpl nadd. rewrite nmin_1_Fin. f_equal.
    unfold Rmin. destruct (Rle_dec 1 (-9 / 9 + 0)); lra. }
  split_all.
  - exact Hk.
  - exact Hb.
  - rewrite refresh_protonFlux. reflexivity.
  - exact Hs.
  - rewrite Hs. simpl. lra.
Qed.

(** C2, as amended: whatever the inputs, neither derived field exceeds 1;
    and for a finite kp index and proton flux that are not negative, with
    any finite Bz and any flare class, both lie in [0,1]. *)
Theorem refresh_levels_bounded (r : Payload.Replies) (d : NoaaData) :
  ((1 < stormLevel (refresh r d))%J = false /\
   (1 < radiationLevel (refresh r d))%J = false) /\
  (forall k b p : R,
     kp (refresh r d) = Fin k -> bz (refresh r d) = Fin b ->
     protonFlux (refresh r d) = Fin p -> 0 <= k -> 0 <= p ->
     in_unit_interval (stormLevel (refresh r d)) /\
     in_unit_interval (radiationLevel (refresh r d))).
Proof.
  rewrite refresh_stormLevel, refresh_radiationLevel.
  split; [split |].
  - apply nmin_1_upper.
  - apply nmin_1_upper.
  - intros k b p Hk Hb Hp Hk0 Hp0. split.
    + exact (derive_stormLevel_unit _ k b Hk Hb Hk0).
    + exact (derive_radiationLevel_unit _ p Hp Hp0).
Qed.

(** The amended C2 at the extreme readings of the specification:
    kp index 9, Bz -100, proton flux 1e9. *)
Lemma refresh_levels_bounded_witness :
  in_unit_interval (stormLevel (refresh extreme noaaData0)) /\
  in_unit_interval (radiationLevel (refresh extreme noaaData0)).
Proof.
  apply (proj2 (refresh_levels_bounded extreme noaaData0) 9 (-100) 1e9).
  - rewrite refresh_kp. simpl. apply nor_nonzero. lra.
  - rewrite refresh_bz. simpl. apply nor_nonzero. lra.
  - rewrite refresh_protonFlux. simpl. apply nor_nonzero. lra.
  - lra.
  - lra.
Defined.

(** Bz is never [NaN] in a snapshot the program can hold. *)
Lemma reachable_bz (d : NoaaData) : reachable d -> bz d <> NaN.
Proof.
  induction 1 as [| r d _ IH].
  - discriminate.
  - rewrite refresh_bz. destruct (Payload.rWind r ≫= last).
    + apply nor_not_NaN. discriminate.
    + exact IH.
Qed.

(** The source's [bz < 0 ? Math.abs(bz) / 20 : 0] against the
    specification's [max(0, -bz) / 20]; they differ on [NaN] only. *)
Lemma storm_term_spec (field : number) :
  field <> NaN ->
  (if (field < 0)%J then nabs field / 20 else 0)%J
  = (nmax 0 (nneg field) / 20)%J.
Proof.
  intros H. destruct field as [| b | |].
  - contradiction.
  - simpl nabs. simpl nneg. unfold nmax.
    destruct (Rlt_dec b 0) as [Hneg | Hpos].
    + rewrite (nlt_Fin_true b 0), (nlt_Fin_true 0 (- b)) by lra.
      rewrite Rabs_left by assumption. reflexivity.
    + rewrite (nlt_Fin_false b 0), (nlt_Fin_false 0 (- b)) by lra.
      rewrite ndiv_Fin by lra. f_equal. lra.
  - simpl. destruct (Req_dec_T 20 0); [lra |]. f_equal. lra.
  - reflexivity.
Qed.

Lemma derive_stormLevel_spec (d : NoaaData) :
  bz d <> NaN -> derive_stormLevel d = spec_stormLevel (kp d) (bz d).
Proof.
  intros H. unfold derive_stormLevel, spec_stormLevel.
  rewrite (storm_term_spec _ H). reflexivity.
Qed.

(** C3: from any snapshot the program can hold, a refresh leaves
    [radiationLevel = min(1, log10(protonFlux+1)/5 + flareBoost)] and
    [stormLevel = min(1, kIndex/9 + max(0,-bz)/20)] over the raw fields it
    has just stored; with kIndex 9, Bz -10, protonFlux 1 and flare class
    "X5.0" these are 1 and [min(1, log10(2)/5 + 0.8)]. *)
Theorem refresh_derived_fields (r : Payload.Replies) (d : NoaaData) :
  reachable d ->
  radiationLevel (refresh r d)
  = spec_radiationLevel (protonFlux (refresh r d)) (recentFlare (refresh r d)) /\
  stormLevel (refresh r d)
  = spec_stormLevel (kp (refresh r d)) (bz (refresh r d)) /\
  (kp (refresh r d) = Fin 9 -> bz (refresh r d) = Fin (-10) ->
   protonFlux (refresh r d) = Fin 1 ->
   recentFlare (refresh r d) = "X5.0"%string ->
   stormLevel (refresh r d) = Fin 1 /\
   radiationLevel (refresh r d) = nmin 1 (Fin (log10 2 / 5 + 0.8))).
Proof.
  intros Hd.
  assert (Hbz : bz (refresh r d) <> NaN)
    by (apply reachable_bz; constructor; exact Hd).
  rewrite refresh_radiationLevel, refresh_stormLevel.
  split_all.
  - reflexivity.
  - apply derive_stormLevel_spec. exact Hbz.
  - intros Hk Hb Hp Hf. split.
    + unfold derive_stormLevel. rewrite Hk, Hb.
      rewrite ndiv_Fin by lra. rewrite (nlt_Fin_true (-10) 0) by lra.
      simpl nabs. rewrite ndiv_Fin by lra. rewrite nadd_Fin, nmin_1_Fin.
      f_equal. rewrite Rabs_left by lra. apply Rmin_left. lra.
    + unfold derive_radiationLevel. rewrite Hp, Hf, nadd_Fin.
      rewrite nlog10_Fin by lra. rewrite ndiv_Fin by lra. rewrite nadd_Fin.
      replace (1 + 1) with 2 by lra.
      change (flareBoost "X5.0") with 0.8. reflexivity.
Qed.

(** C3 at work on the first refresh of the program, when it receives the
    readings of the specification's example; the radiation level is then
    below the cap. *)
Lemma refresh_derived_fields_witness :
  stormLevel (refresh x_flare_storm noaaData0) = Fin 1 /\
  radiationLevel (refresh x_flare_storm noaaData0) = Fin (log10 2 / 5 + 0.8).
Proof.
  destruct (refresh_derived_fields x_flare_storm noaaData0 reachable_init)
    as (_ & _ & H).
  destruct H as [Hs Hr].
  - rewrite refresh_kp. simpl. apply nor_nonzero. lra.
  - rewrite refresh_bz. simpl. apply nor_nonzero. lra.
  - rewrite refresh_protonFlux. simpl. apply nor_nonzero. lra.
  - reflexivity.
  - split; [exact Hs |].
    rewrite Hr, nmin_1_Fin. f_equal. apply Rmin_right.
    pose proof (log10_lt_1 2). lra.
Defined.

(** ** Content sequencer *)

Lemma flip_changes (t : MediaType) : flip t <> t.
Proof. destruct t; discriminate. Qed.

Lemma nextContent_below (c : Content) :
  (currentIndex c < 13)%Z ->
  nextContent c =
  {| currentIndex := currentIndex c + 1; currentType := currentType c |}.
Proof.
  intros H. unfold nextContent.
  destruct (Z.gtb_spec (currentIndex c + 1) 13); [lia | reflexivity].
Qed.

Lemma nextContent_wrap (c : Content) :
  currentIndex c = 13%Z ->
  nextContent c = {| currentIndex := 1; currentType := flip (currentType c) |}.
Proof. intros H. unfold nextContent. rewrite H. reflexivity. Qed.

Lemma nextContent_range (c : Content) :
  (1 <= currentIndex c <= 13)%Z -> (1 <= currentIndex (nextContent c) <= 13)%Z.
Proof.
  intros H. unfold nextContent.
  destruct (Z.gtb_spec (currentIndex c + 1) 13); simpl; lia.
Qed.

Lemma prevContent_above (c : Content) :
  (1 < currentIndex c)%Z ->
  prevContent c =
  {| currentIndex := currentIndex c - 1; currentType := currentType c |}.
Proof.
  intros H. unfold prevContent.
  destruct (Z.ltb_spec (currentIndex c - 1) 1); [lia | reflexivity].
Qed.

Lemma prevContent_wrap (c : Content) :
  currentIndex c = 1%Z ->
  prevContent c = {| currentIndex := 13; currentType := flip (currentType c) |}.
Proof. intros H. unfold prevContent. rewrite H. reflexivity. Qed.

(** From index 1, [k] forward advances with [k <= 12] reach index
    [1 + k] without changing the kind. *)
Lemma nextContent_climb (t : MediaType) (k : nat) :
  (k <= 12)%nat ->
  Nat.iter k nextContent {| currentIndex := 1; currentType := t |}
  = {| currentIndex := 1 + Z.of_nat k; currentType := t |}.
Proof.
  induction k as [| k IH]; intros Hk.
  - reflexivity.
  - simpl Nat.iter. rewrite IH by lia.
    rewrite nextContent_below by (simpl; lia).
    simpl. f_equal. lia.
Qed.

(** C4: from an index in [1,13] every run of forward advances stays in
    [1,13]; a forward advance adds one, except at 13 where it goes to 1
    and flips the kind; from index 1 the first twelve advances keep the
    kind and the thirteenth is back at index 1 with the kind flipped; a
    backward advance subtracts one, except at 1 where it goes to 13 and
    flips the kind. *)
Theorem content_advance_wraps (c : Content) :
  (1 <= currentIndex c <= 13)%Z ->
  (forall n : nat, (1 <= currentIndex (Nat.iter n nextContent c) <= 13)%Z) /\
  (currentIndex c < 13 ->
   nextContent c =
   {| currentIndex := currentIndex c + 1; currentType := currentType c |})%Z /\
  (currentIndex c = 13%Z ->
   nextContent c =
   {| currentIndex := 1; currentType := flip (currentType c) |}) /\
  (currentIndex c = 1%Z ->
   (forall k : nat, (k < 13)%nat ->
      Nat.iter k nextContent c =
      {| currentIndex := 1 + Z.of_nat k; currentType := currentType c |}) /\
   Nat.iter 13 nextContent c =
   {| currentIndex := 1; currentType := flip (currentType c) |}) /\
  flip (currentType c) <> currentType c /\
  (1 < currentIndex c ->
   prevContent c =
   {| currentIndex := currentIndex c - 1; currentType := currentType c |})%Z /\
  (currentIndex c = 1%Z ->
   prevContent c =
   {| currentIndex := 13; currentType := flip (currentType c) |}).
Proof.
  intros Hc. split_all.
  - induction n as [| n IH]; [exact Hc |].
    simpl Nat.iter. apply nextContent_range, IH.
  - apply nextContent_below.
  - apply nextContent_wrap.
  - intros H1. destruct c as [i t]. cbn [currentIndex currentType] in *.
    subst i. split.
    + intros k Hk. apply nextContent_climb. lia.
    + change (nextContent
                (Nat.iter 12 nextContent {| currentIndex := 1; currentType := t |})
              = {| currentIndex := 1; currentType := flip t |}).
      rewrite (nextContent_climb t 12) by lia. reflexivity.
  - apply flip_changes.
  - apply prevContent_above.
  - apply prevContent_wrap.
Qed.

(** C4 on the initial content state, index 1 of kind jpg. *)
Lemma content_advance_wraps_witness :
  Nat.iter 12 nextContent (content state0)
  = {| currentIndex := 13; currentType := jpg |} /\
  Nat.iter 13 nextContent (content state0)
  = {| currentIndex := 1; currentType := gif |} /\
  prevContent (content state0) = {| currentIndex := 13; currentType := gif |}.
Proof.
  assert (H : (1 <= currentIndex (content state0) <= 13)%Z) by (simpl; lia).
  destruct (content_advance_wraps (content state0) H)
    as (_ & _ & _ & Hcycle & _ & _ & Hprev).
  destruct (Hcycle eq_refl) as [Hclimb Hback].
  split_all.
  - apply (Hclimb 12%nat). lia.
  - exact Hback.
  - exact (Hprev eq_refl).
Defined.

(** ** Navigation mode and the effects switch *)

Lemma flag_moveCamera (dir : string) (s : AppState) :
  flag (moveCamera dir s) dir = true.
Proof.
  unfold flag, moveCamera. simpl. rewrite lookup_insert_eq. reflexivity.
Qed.

Lemma flag_toggleAutopilot (s : AppState) (k : string) :
  flag (toggleAutopilot s) k = flag s k.
Proof. reflexivity. Qed.

(** C5, as stated, fails: with autopilot on and the forward flag raised,
    toggling back to manual leaves the flag raised. *)
Lemma toggle_out_keeps_forward_flag :
  isAutopilot (nav flying_forward) = true /\
  isAutopilot (nav (toggleAutopilot flying_forward)) = false /\
  flag (toggleAutopilot flying_forward) "forward" = true.
Proof.
  split_all.
  - reflexivity.
  - reflexivity.
  - rewrite flag_toggleAutopilot. apply flag_moveCamera.
Qed.

(** C5, as amended: a toggle of the navigation mode, in either direction,
    leaves every move flag as it was; it is [stopCamera] that clears them:
    after it every flag, the six directions included, is inactive. *)
Theorem toggle_keeps_flags_stopCamera_clears (s : AppState) :
  moveState (nav (toggleAutopilot s)) = moveState (nav s) /\
  (forall k : string, flag (toggleAutopilot s) k = flag s k) /\
  (forall k : string, flag (stopCamera s) k = false) /\
  Forall (λ k, flag (stopCamera s) k = false) directions.
Proof.
  assert (Hstop : forall k : string, flag (stopCamera s) k = false).
  { intros k. unfold flag, stopCamera. simpl. rewrite lookup_fmap.
    destruct (moveState (nav s) !! k); reflexivity. }
  split_all.
  - reflexivity.
  - intros k. reflexivity.
  - exact Hstop.
  - apply Forall_forall. intros k _. apply Hstop.
Qed.

(** C6: a toggle of the navigation mode leaves the camera and the orbit
    target where they are and flips the mode; whenever the mode it
    enters is Autopilot, both clocks are 0, whatever they were. *)
Theorem toggleAutopilot_keeps_pose_resets_clocks (s : AppState) :
  camera (nav (toggleAutopilot s)) = camera (nav s) /\
  target (nav (toggleAutopilot s)) = target (nav s) /\
  isAutopilot (nav (toggleAutopilot s)) = negb (isAutopilot (nav s)) /\
  (isAutopilot (nav (toggleAutopilot s)) = true ->
   autopilotTime (nav (toggleAutopilot s)) = 0 /\
   autopilotContentTimer (nav (toggleAutopilot s)) = 0).
Proof.
  split_all; try reflexivity.
  unfold toggleAutopilot. simpl. intros ->. split; reflexivity.
Qed.

(** C9, as stated, fails: from the initial state two toggles leave the
    effects on, one toggle leaves them off. *)
Lemma toggleFX_twice_differs_from_once :
  isDynamic (toggleFX (toggleFX state0)) = true /\
  isDynamic (toggleFX state0) = false /\
  isDynamic (toggleFX (toggleFX state0)) <> isDynamic (toggleFX state0).
Proof. split_all; [reflexivity | reflexivity | discriminate]. Qed.

(** C9, as amended: the toggle negates the switch and changes nothing
    else, so two toggles in succession restore the state there was before
    the first. *)
Theorem toggleFX_involutive (s : AppState) :
  isDynamic (toggleFX s) = negb (isDynamic s) /\
  toggleFX (toggleFX s) = s /\
  nav (toggleFX s) = nav s /\ content (toggleFX s) = content s /\
  noaaData (toggleFX s) = noaaData s /\ scene (toggleFX s) = scene s.
Proof.
  split_all; try reflexivity.
  destruct s as [dyn n c d sc]. unfold toggleFX, set_isDynamic. simpl.
  rewrite negb_involutive. reflexivity.
Qed.

(** ** The render loop *)

(** What the navigation step of a frame leaves alone. *)
Lemma nav_step_frame (e : FrameInput) (s : AppState) :
  isDynamic (nav_step e s) = isDynamic s /\
  noaaData (nav_step e s) = noaaData s /\
  scene (nav_step e s) = scene s /\
  isAutopilot (nav (nav_step e s)) = isAutopilot (nav s) /\
  moveState (nav (nav_step e s)) = moveState (nav s).
Proof.
  unfold nav_step, autopilot_step, manual_step.
  destruct (isAutopilot (nav s)) eqn:Hmode.
  - destruct (Rle_dec 8 (autopilotContentTimer (nav s) + 0.016));
      split_all; reflexivity || exact Hmode.
  - destruct (flag s "forward" || flag s "backward" || flag s "left"
              || flag s "right" || flag s "up" || flag s "down");
      split_all; reflexivity || exact Hmode.
Qed.

Lemma controls_update_frame (e : FrameInput) (s : AppState) :
  isDynamic (controls_update e s) = isDynamic s /\
  noaaData (controls_update e s) = noaaData s /\
  scene (controls_update e s) = scene s /\
  content (controls_update e s) = content s /\
  isAutopilot (nav (controls_update e s)) = isAutopilot (nav s) /\
  autopilotTime (nav (controls_update e s)) = autopilotTime (nav s) /\
  moveState (nav (controls_update e s)) = moveState (nav s).
Proof.
  unfold controls_update.
  destruct (orbit e (camera (nav s)) (target (nav s))).
  split_all; reflexivity.
Qed.

Lemma animate_unfold (e : FrameInput) (s : AppState) :
  animate e s =
  controls_update e
    (set_scene
       (if isDynamic s
        then dynamics (now e * 0.001) (noaaData s) (scene s)
        else idle (scene s))
       (nav_step e s)).
Proof.
  destruct (nav_step_frame e s) as (Hdyn & Hdata & Hscene & _).
  unfold animate. cbv zeta. rewrite Hdyn, Hdata, Hscene.
  destruct (isDynamic s); reflexivity.
Qed.

Lemma animate_isDynamic (e : FrameInput) (s : AppState) :
  isDynamic (animate e s) = isDynamic s.
Proof.
  rewrite animate_unfold.
  rewrite (proj1 (controls_update_frame e _)). simpl.
  apply nav_step_frame.
Qed.

Lemma animate_isAutopilot (e : FrameInput) (s : AppState) :
  isAutopilot (nav (animate e s)) = isAutopilot (nav s).
Proof.
  rewrite animate_unfold.
  destruct (controls_update_frame e
              (set_scene
                 (if isDynamic s
                  then dynamics (now e * 0.001) (noaaData s) (scene s)
                  else idle (scene s))
                 (nav_step e s))) as (_ & _ & _ & _ & -> & _).
  simpl. apply nav_step_frame.
Qed.

Lemma animate_noaaData (e : FrameInput) (s : AppState) :
  noaaData (animate e s) = noaaData s.
Proof.
  rewrite animate_unfold.
  destruct (controls_update_frame e
              (set_scene
                 (if isDynamic s
                  then dynamics (now e * 0.001) (noaaData s) (scene s)
                  else idle (scene s))
                 (nav_step e s))) as (_ & -> & _).
  simpl. apply nav_step_frame.
Qed.

Lemma animate_autopilotTime (e : FrameInput) (s : AppState) :
  isAutopilot (nav s) = true ->
  autopilotTime (nav (animate e s)) = autopilotTime (nav s) + 0.01.
Proof.
  intros H. rewrite animate_unfold.
  destruct (controls_update_frame e
              (set_scene
                 (if isDynamic s
                  then dynamics (now e * 0.001) (noaaData s) (scene s)
                  else idle (scene s))
                 (nav_step e s))) as (_ & _ & _ & _ & _ & -> & _).
  simpl. unfold nav_step. rewrite H. reflexivity.
Qed.

(** The scene after one frame: the reactive branch or the idle one. *)
Lemma animate_scene (e : FrameInput) (s : AppState) :
  scene (animate e s) =
  if isDynamic s
  then dynamics (now e * 0.001) (noaaData s) (scene s)
  else idle (scene s).
Proof.
  rewrite animate_unfold.
  destruct (controls_update_frame e
              (set_scene
                 (if isDynamic s
                  then dynamics (now e * 0.001) (noaaData s) (scene s)
                  else idle (scene s))
                 (nav_step e s))) as (_ & _ & -> & _).
  reflexivity.
Qed.

Lemma run_cons (e : FrameInput) (es : list FrameInput) (s : AppState) :
  run (e :: es) s = run es (animate e s).
Proof. reflexivity. Qed.

Lemma run_isAutopilot (es : list FrameInput) (s : AppState) :
  isAutopilot (nav (run es s)) = isAutopilot (nav s).
Proof.
  revert s. induction es as [| e es IH]; intros s; [reflexivity |].
  rewrite run_cons, IH. apply animate_isAutopilot.
Qed.

Lemma run_isDynamic (es : list FrameInput) (s : AppState) :
  isDynamic (run es s) = isDynamic s.
Proof.
  revert s. induction es as [| e es IH]; intros s; [reflexivity |].
  rewrite run_cons, IH. apply animate_isDynamic.
Qed.

Lemma toggleAutopilot_leaving_keeps_clock (s : AppState) :
  isAutopilot (nav s) = true ->
  autopilotTime (nav (toggleAutopilot s)) = autopilotTime (nav s).
Proof. intros H. unfold toggleAutopilot. simpl. rewrite H. reflexivity. Qed.

(** C6 on a re-entry: autopilot is entered from the initial state, flies
    two frames (its clock is then at 0.02), is left, and is entered
    again; the second entry finds both clocks at 0 and moves neither the
    camera nor the target. *)
Lemma toggleAutopilot_keeps_pose_resets_clocks_witness :
  let flown := run [quiet_frame 0; quiet_frame 16] (toggleAutopilot state0) in
  let left := toggleAutopilot flown in
  autopilotTime (nav left) = 0 + 0.01 + 0.01 /\
  isAutopilot (nav left) = false /\
  isAutopilot (nav (toggleAutopilot left)) = true /\
  autopilotTime (nav (toggleAutopilot left)) = 0 /\
  autopilotContentTimer (nav (toggleAutopilot left)) = 0 /\
  camera (nav (toggleAutopilot left)) = camera (nav left) /\
  target (nav (toggleAutopilot left)) = target (nav left).
Proof.
  intros flown left.
  assert (Hflown : isAutopilot (nav flown) = true).
  { unfold flown. rewrite run_isAutopilot. reflexivity. }
  assert (Hleft : isAutopilot (nav left) = false).
  { unfold left.
    rewrite (proj1 (proj2 (proj2
               (toggleAutopilot_keeps_pose_resets_clocks flown)))).
    rewrite Hflown. reflexivity. }
  destruct (toggleAutopilot_keeps_pose_resets_clocks left)
    as (Hcam & Htgt & Hmode & Hclocks).
  rewrite Hleft in Hmode. destruct (Hclocks Hmode) as [Htime Htimer].
  split_all; try assumption.
  unfold left. rewrite (toggleAutopilot_leaving_keeps_clock _ Hflown).
  unfold flown. rewrite !run_cons. change (run [] ?s) with s.
  rewrite animate_autopilotTime
    by (rewrite animate_isAutopilot; reflexivity).
  rewrite animate_autopilotTime by reflexivity.
  reflexivity.
Defined.

(** ** The reactive animation switched off *)

Lemma idle_unfold (c : Scene) :
  idle c =
  {| lights := lights c; reactiveFrame := reactiveFrame c;
     dustParticles := dustParticles c;
     starField :=
       {| starRotationY := (starRotationY (starField c) + 0.0002)%J;
          starPositionZ := starPositionZ (starField c);
          starOpacity := starOpacity (starField c) |};
     ambientIntensity := ambientIntensity c |}.
Proof. reflexivity. Qed.

(** C7: while the switch is off, every frame leaves the lights, the
    frame, the dust, the ambient light and the opacity and position of
    the star field exactly as they were, and adds 0.0002 to the rotation
    of the star field; so after any run of frames these channels still
    hold the values they had when the run started, the rotation having
    advanced by 0.0002 per frame. *)
Theorem idle_frames_freeze_channels (es : list FrameInput) (s : AppState) :
  isDynamic s = false ->
  (forall e : FrameInput,
     scene (animate e s) =
     set_starField
       {| starRotationY := (starRotationY (starField (scene s)) + 0.0002)%J;
          starPositionZ := starPositionZ (starField (scene s));
          starOpacity := starOpacity (starField (scene s)) |}
       (scene s)) /\
  isDynamic (run es s) = false /\
  lights (scene (run es s)) = lights (scene s) /\
  reactiveFrame (scene (run es s)) = reactiveFrame (scene s) /\
  dustParticles (scene (run es s)) = dustParticles (scene s) /\
  ambientIntensity (scene (run es s)) = ambientIntensity (scene s) /\
  starOpacity (starField (scene (run es s)))
  = starOpacity (starField (scene s)) /\
  starPositionZ (starField (scene (run es s)))
  = starPositionZ (starField (scene s)) /\
  starRotationY (starField (scene (run es s)))
  = (starRotationY (starField (scene s))
     + Fin (INR (length es) * 0.0002))%J.
Proof.
  intros Hoff. split.
  { intros e. rewrite animate_scene, Hoff. reflexivity. }
  revert s Hoff. induction es as [| e es IH]; intros s Hoff.
  - split_all; try reflexivity; try exact Hoff.
    simpl. replace (0 * 0.0002) with 0 by lra.
    symmetry. apply nadd_Fin_0.
  - rewrite run_cons.
    assert (Hoff' : isDynamic (animate e s) = false)
      by (rewrite animate_isDynamic; exact Hoff).
    destruct (IH _ Hoff')
      as (Hdyn & Hl & Hf & Hd & Ha & Ho & Hz & Hr).
    rewrite Hl, Hf, Hd, Ha, Ho, Hz, Hr, animate_scene, Hoff, idle_unfold.
    cbn [lights reactiveFrame dustParticles ambientIntensity starField
         starOpacity starPositionZ starRotationY].
    split_all; try reflexivity; try exact Hdyn.
    rewrite nadd_Fin_Fin. do 2 f_equal.
    change (length (e :: es)) with (S (length es)). rewrite S_INR. lra.
Qed.

(** C7 on three frames taken with the switch off from the initial
    scene. *)
Lemma idle_frames_freeze_channels_witness :
  let s := run [quiet_frame 0; quiet_frame 16; quiet_frame 33] effects_off in
  lights (scene s) = lights scene0 /\
  reactiveFrame (scene s) = reactiveFrame scene0 /\
  dustParticles (scene s) = dustParticles scene0 /\
  ambientIntensity (scene s) = Fin 0.03 /\
  starOpacity (starField (scene s)) = Fin 0.4 /\
  starRotationY (starField (scene s)) = Fin 0.0006.
Proof.
  intros s.
  destruct (idle_frames_freeze_channels
              [quiet_frame 0; quiet_frame 16; quiet_frame 33] effects_off
              eq_refl)
    as (_ & _ & Hl & Hf & Hd & Ha & Ho & _ & Hr).
  split_all; try assumption.
  unfold s. rewrite Hr. simpl. f_equal. lra.
Defined.

(** ** The frame palette *)

Lemma dynamic_reactiveFrame (e : FrameInput) (s : AppState) (f : Frame) :
  isDynamic s = true -> reactiveFrame (scene s) = Some f ->
  reactiveFrame (scene (animate e s))
  = Some (animate_frame (now e * 0.001) (noaaData s) f).
Proof.
  intros Hon Hf. rewrite animate_scene, Hon. simpl. rewrite Hf. reflexivity.
Qed.

Lemma nsin_scaled (t c : R) : nsin (t * c)%J = Fin (sin (c * t)).
Proof. simpl. do 2 f_equal. lra. Qed.

(** C8: on a frame taken with the switch on, the emissive colour and
    intensity of the reactive frame follow the first test that succeeds
    on the current snapshot, [t] being the clock in seconds: Bz < -5
    gives 0xff3300 and 0.3 + 0.2 sin(2t); else Bz > 5 gives 0x0066ff and
    0.15 + 0.1 sin(t); else kp > 5 gives 0x9933ff and 0.4 + 0.3 sin(3t);
    else ssn > 100 gives 0xffaa00 and 0.2 + 0.15 sin(1.5t); else 0x003344
    and 0.05 + 0.05 sin(0.5t).  With kp 9 and Bz -10 it is the first. *)
Theorem dynamic_frame_palette (e : FrameInput) (s : AppState) (f : Frame) :
  isDynamic s = true -> reactiveFrame (scene s) = Some f ->
  let t := now e * 0.001 in
  let d := noaaData s in
  exists f' : Frame,
    reactiveFrame (scene (animate e s)) = Some f' /\
    ((bz d < Fin (-5))%J = true ->
       emissive f' = 0xff3300%Z /\
       emissiveIntensity f' = Fin (0.3 + 0.2 * sin (2 * t))) /\
    ((bz d < Fin (-5))%J = false -> (bz d > 5)%J = true ->
       emissive f' = 0x0066ff%Z /\
       emissiveIntensity f' = Fin (0.15 + 0.1 * sin t)) /\
    ((bz d < Fin (-5))%J = false -> (bz d > 5)%J = false ->
     (kp d > 5)%J = true ->
       emissive f' = 0x9933ff%Z /\
       emissiveIntensity f' = Fin (0.4 + 0.3 * sin (3 * t))) /\
    ((bz d < Fin (-5))%J = false -> (bz d > 5)%J = false ->
     (kp d > 5)%J = false -> (ssn d > 100)%J = true ->
       emissive f' = 0xffaa00%Z /\
       emissiveIntensity f' = Fin (0.2 + 0.15 * sin (1.5 * t))) /\
    ((bz d < Fin (-5))%J = false -> (bz d > 5)%J = false ->
     (kp d > 5)%J = false -> (ssn d > 100)%J = false ->
       emissive f' = 0x003344%Z /\
       emissiveIntensity f' = Fin (0.05 + 0.05 * sin (0.5 * t))) /\
    (kp d = Fin 9 -> bz d = Fin (-10) -> emissive f' = 0xff3300%Z).
Proof.
  intros Hon Hf t d.
  exists (animate_frame t d f). split.
  { apply dynamic_reactiveFrame; assumption. }
  unfold animate_frame, frame_glow. cbn [emissive emissiveIntensity].
  split_all.
  - intros ->. cbn [fst snd]. rewrite nsin_scaled. split; [reflexivity |].
    simpl. f_equal. lra.
  - intros -> ->. cbn [fst snd]. rewrite nsin_scaled. split; [reflexivity |].
    simpl. f_equal. replace (1 * t) with t by lra. lra.
  - intros -> -> ->. cbn [fst snd]. rewrite nsin_scaled.
    split; [reflexivity |]. simpl. f_equal. lra.
  - intros -> -> -> ->. cbn [fst snd]. rewrite nsin_scaled.
    split; [reflexivity |]. simpl. f_equal. lra.
  - intros -> -> -> ->. cbn [fst snd]. rewrite nsin_scaled.
    split; [reflexivity |]. simpl. f_equal. lra.
  - intros _ ->. rewrite (nlt_Fin_true (-10) (-5)) by lra. reflexivity.
Qed.

(** C8 on the first frame after the readings of the specification's
    example (kp 9, Bz -10) have arrived: the frame turns 0xff3300. *)
Lemma dynamic_frame_palette_witness :
  exists f' : Frame,
    reactiveFrame (scene (animate (quiet_frame 2000) stormy)) = Some f' /\
    emissive f' = 0xff3300%Z /\
    emissiveIntensity f' = Fin (0.3 + 0.2 * sin (2 * (2000 * 0.001))).
Proof.
  assert (Hk : kp (noaaData stormy) = Fin 9).
  { unfold stormy, updateSpaceWeather. simpl noaaData.
    rewrite refresh_kp. simpl. apply nor_nonzero. lra. }
  assert (Hb : bz (noaaData stormy) = Fin (-10)).
  { unfold stormy, updateSpaceWeather. simpl noaaData.
    rewrite refresh_bz. simpl. apply nor_nonzero. lra. }
  destruct (dynamic_frame_palette (quiet_frame 2000) stormy
              {| emissive := 0x000000; emissiveIntensity := 0; rotationZ := 0;
                 positionY := PLAYER_HEIGHT + 0.5 + 0.5;
                 baseY := PLAYER_HEIGHT + 0.5 + 0.5 |}
              eq_refl eq_refl)
    as (f' & Hf' & Halert & _).
  exists f'. split; [exact Hf' |].
  apply Halert. rewrite Hb. apply nlt_Fin_true. lra.
Defined.

(** * Further properties of the code *)

Import Colour Joystick Loader Events Invariant Heading Scenarios.

(** ** The snapshot over time *)

(** X1: receiving the same six replies a second time changes nothing:
    the raw fields are overwritten by the same values, or kept, and the
    derived fields are recomputed from the same raw fields. *)
Theorem refresh_same_replies_twice (r : Payload.Replies) (d : NoaaData) :
  refresh r (refresh r d) = refresh r d.
Proof.
  unfold refresh, derive, update_raw, update_recentFlare,
    update_electronFlux, update_wind, update_kp, update_protonFlux,
    update_ssn.
  destruct (Payload.rFlare r ≫= last), (Payload.rElectron r),
    (Payload.rWind r ≫= last), (Payload.rKp r), (Payload.rProton r),
    (Payload.rSSN r);
    reflexivity.
Qed.

Lemma truthy_nor (a dflt : number) :
  truthy dflt = true -> truthy (a || dflt)%J = true.
Proof.
  intros H. unfold nor. destruct (truthy a) eqn:E; assumption.
Qed.

Lemma truthy_Fin (x : R) : x <> 0 -> truthy (Fin x) = true.
Proof.
  intros H. unfold truthy. destruct (Req_dec_T x 0); [contradiction | reflexivity].
Qed.

Lemma truthy_num_or (x : option R) (dflt : number) :
  truthy dflt = true -> truthy (num_or x dflt) = true.
Proof.
  intros H. destruct x; [apply truthy_nor |]; assumption.
Qed.

Lemma flare_choice_nonempty (a b : option string) :
  default "None"%string (str_or (str_or a b) (Some "None"%string))
  <> ""%string.
Proof.
  unfold str_or.
  destruct (str_truthy (if str_truthy a then a else b)) eqn:E.
  - destruct (if str_truthy a then a else b) as [s |]; [| discriminate].
    simpl in *. intros ->. discriminate.
  - discriminate.
Qed.

Lemma refresh_recentFlare (r : Payload.Replies) (d : NoaaData) :
  recentFlare (refresh r d) =
  match Payload.rFlare r ≫= last with
  | Some latest =>
      default "None"%string
        (str_or (str_or (Payload.current_class latest)
                        (Payload.max_class latest))
                (Some "None"%string))
  | None => recentFlare d
  end.
Proof.
  unfold refresh, derive, update_raw, update_recentFlare,
    update_electronFlux, update_wind, update_kp, update_protonFlux,
    update_ssn.
  destruct (Payload.rFlare r ≫= last), (Payload.rElectron r),
    (Payload.rWind r ≫= last), (Payload.rKp r), (Payload.rProton r),
    (Payload.rSSN r);
    reflexivity.
Qed.

Lemma snapshot_ok_init : snapshot_ok noaaData0.
Proof.
  unfold snapshot_ok. simpl.
  split_all; try (apply truthy_Fin; lra); try discriminate;
    apply nlt_Fin_false; lra.
Qed.

Lemma snapshot_ok_refresh (r : Payload.Replies) (d : NoaaData) :
  snapshot_ok d -> snapshot_ok (refresh r d).
Proof.
  intros (Hs & Hk & Hw & Hp & He & Hb & Hf & _ & _).
  unfold snapshot_ok.
  rewrite refresh_ssn, refresh_kp, refresh_solarWind, refresh_protonFlux,
    refresh_electronFlux, refresh_bz, refresh_recentFlare,
    refresh_stormLevel, refresh_radiationLevel.
  split_all.
  - destruct (Payload.rSSN r); [apply truthy_num_or, truthy_Fin; lra | exact Hs].
  - destruct (Payload.rKp r); [apply truthy_nor, truthy_Fin; lra | exact Hk].
  - destruct (Payload.rWind r ≫= last);
      [apply truthy_nor, truthy_Fin; lra | exact Hw].
  - destruct (Payload.rProton r); [apply truthy_nor, truthy_Fin; lra | exact Hp].
  - destruct (Payload.rElectron r);
      [apply truthy_nor, truthy_Fin; lra | exact He].
  - destruct (Payload.rWind r ≫= last);
      [apply nor_not_NaN; discriminate | exact Hb].
  - destruct (Payload.rFlare r ≫= last);
      [apply flare_choice_nonempty | exact Hf].
  - apply nmin_1_upper.
  - apply nmin_1_upper.
Qed.

Lemma reachable_snapshot_ok' (d : NoaaData) :
  reachable d -> snapshot_ok d.
Proof.
  induction 1 as [| r d _ IH].
  - apply snapshot_ok_init.
  - apply snapshot_ok_refresh, IH.
Qed.

Lemma nlt_Fin_inv_false' (x y : R) : (Fin x < Fin y)%J = false -> y <= x.
Proof.
  unfold nlt. destruct (Rlt_dec x y); [discriminate | lra].
Qed.

(** X2: in every snapshot the program can hold, the sunspot number, the
    kp index, the wind speed and the two fluxes are neither [NaN] nor 0,
    Bz is not [NaN], the flare class is not empty, and neither derived
    level is above 1. *)
Theorem reachable_snapshot_ok (d : NoaaData) :
  reachable d ->
  truthy (ssn d) = true /\ truthy (kp d) = true /\
  truthy (solarWind d) = true /\ truthy (protonFlux d) = true /\
  truthy (electronFlux d) = true /\ bz d <> NaN /\
  recentFlare d <> ""%string /\
  (1 < stormLevel d)%J = false /\ (1 < radiationLevel d)%J = false.
Proof. intros Hd. exact (reachable_snapshot_ok' d Hd). Qed.

(** X2 after a first refresh that reports 0 everywhere: the kp index in
    the snapshot is still not 0. *)
Lemma reachable_snapshot_ok_witness :
  truthy (kp (refresh all_zero noaaData0)) = true /\
  kp (refresh all_zero noaaData0) = Fin 2.
Proof.
  split.
  - apply (reachable_snapshot_ok (refresh all_zero noaaData0)).
    apply reachable_refresh, reachable_init.
  - rewrite refresh_kp. simpl. apply nor_zero.
Defined.

(** ** Refresh on the application state *)

Lemma updateLights_lookup (s : AppState) (k : string) :
  let B := ((300 + ssn (noaaData s) * 8)
            * (1 + stormLevel (noaaData s) * 0.5))%J in
  lights (scene (updateLightsFromNOAA s)) !! k =
  if decide (k = "left"%string) then
    set_baseIntensity B <$> lights (scene s) !! k
  else if decide (k = "center"%string) then
    set_baseIntensity (B * 1.2)%J <$> lights (scene s) !! k
  else if decide (k = "right"%string) then
    set_baseIntensity B <$> lights (scene s) !! k
  else lights (scene s) !! k.
Proof.
  unfold updateLightsFromNOAA. cbn [scene set_scene lights set_lights].
  rewrite !lookup_alter.
  repeat case_decide; subst; try reflexivity; try discriminate; congruence.
Qed.

(** X3: a completed refresh stores the refreshed snapshot, rewrites the
    base intensity of each light that exists from it (the centre light
    1.2 times the side lights), and touches nothing else: no light is
    created or removed, no current intensity changes, and the switch,
    the navigation state, the content and the other scene handles are
    as before. *)
Theorem updateSpaceWeather_effect (r : Payload.Replies) (s : AppState) :
  let s' := updateSpaceWeather r s in
  let B := ((300 + ssn (noaaData s') * 8)
            * (1 + stormLevel (noaaData s') * 0.5))%J in
  noaaData s' = refresh r (noaaData s) /\
  isDynamic s' = isDynamic s /\ nav s' = nav s /\ content s' = content s /\
  reactiveFrame (scene s') = reactiveFrame (scene s) /\
  dustParticles (scene s') = dustParticles (scene s) /\
  starField (scene s') = starField (scene s) /\
  ambientIntensity (scene s') = ambientIntensity (scene s) /\
  (forall k : string,
     intensity <$> lights (scene s') !! k
     = intensity <$> lights (scene s) !! k) /\
  baseIntensity <$> lights (scene s') !! "left"
  = (λ _, B) <$> lights (scene s) !! "left" /\
  baseIntensity <$> lights (scene s') !! "center"
  = (λ _, (B * 1.2)%J) <$> lights (scene s) !! "center" /\
  baseIntensity <$> lights (scene s') !! "right"
  = (λ _, B) <$> lights (scene s) !! "right" /\
  (forall k : string,
     k ∉ ["left"; "center"; "right"]%string ->
     lights (scene s') !! k = lights (scene s) !! k).
Proof.
  intros s' B. unfold s', updateSpaceWeather in *.
  assert (Hlook := updateLights_lookup
                     (set_noaaData (refresh r (noaaData s)) s)).
  cbv zeta in Hlook. cbn [scene set_noaaData noaaData] in Hlook.
  split_all; try reflexivity.
  - intros k. rewrite Hlook.
    repeat case_decide; destruct (lights (scene s) !! k); reflexivity.
  - rewrite Hlook. simpl.
    destruct (lights (scene s) !! "left"); reflexivity.
  - rewrite Hlook. simpl.
    destruct (lights (scene s) !! "center"); reflexivity.
  - rewrite Hlook. simpl.
    destruct (lights (scene s) !! "right"); reflexivity.
  - intros k Hk. rewrite Hlook.
    repeat case_decide; subst; try reflexivity;
      exfalso; apply Hk; set_solver.
Qed.

(** ** Colour pickers *)

Lemma nmin_Fin (x y : R) : nmin (Fin x) (Fin y) = Fin (Rmin x y).
Proof.
  unfold nmin, nlt, Rmin.
  destruct (Rlt_dec y x), (Rle_dec x y); try reflexivity; lra.
Qed.

Lemma nmax_Fin (x y : R) : nmax (Fin x) (Fin y) = Fin (Rmax x y).
Proof.
  unfold nmax, nlt, Rmax.
  destruct (Rlt_dec x y), (Rle_dec x y); try reflexivity; try lra.
  f_equal. lra.
Qed.

Lemma nmul_Fin (x y : R) : (Fin x * Fin y)%J = Fin (x * y).
Proof. reflexivity. Qed.

Lemma nsub_Fin (x y : R) : (Fin x - Fin y)%J = Fin (x - y).
Proof. reflexivity. Qed.

Lemma hue_clamp_range (x : R) : 0 <= Rmax 0 (Rmin 360 x) <= 360.
Proof.
  split; [apply Rmax_l |].
  apply Rmax_lub; [lra | apply Rmin_l].
Qed.

Lemma Rsign_pos (x : R) : 0 < x -> Rsign x = Gt.
Proof.
  intros H. unfold Rsign.
  destruct (Rlt_dec x 0); [lra |]. destruct (Rlt_dec 0 x); [reflexivity | lra].
Qed.

Lemma string_length_app (s1 s2 : string) :
  String.length (s1 +:+ s2) = (String.length s1 + String.length s2)%nat.
Proof. induction s1 as [| c s1 IH]; simpl; [reflexivity | rewrite IH; reflexivity]. Qed.

Lemma hex_digits_app (s1 s2 : string) :
  hex_digits (s1 +:+ s2) = hex_digits s1 && hex_digits s2.
Proof.
  induction s1 as [| c s1 IH]; simpl; [reflexivity |].
  rewrite IH. apply andb_assoc.
Qed.

(** Every byte value prints as two hexadecimal digits. *)
Lemma hex2_ok (v : Z) :
  (0 <= v <= 255)%Z ->
  String.length (hex2 v) = 2%nat /\ hex_digits (hex2 v) = true.
Proof.
  intros Hv.
  assert (Hall : forallb
            (λ n, (String.length (hex2 (Z.of_nat n)) =? 2)%nat
                  && hex_digits (hex2 (Z.of_nat n)))
            (seq 0 256) = true) by (vm_compute; reflexivity).
  rewrite forallb_forall in Hall.
  specialize (Hall (Z.to_nat v)).
  rewrite Z2Nat.id in Hall by lia.
  apply andb_true_iff in Hall.
  - destruct Hall as [Hlen Hdig]. apply Nat.eqb_eq in Hlen. split; assumption.
  - apply in_seq. lia.
Qed.

Lemma round_byte (c : R) :
  0 <= c <= 1 -> (0 <= Int_part (255 * c + 0.5) <= 255)%Z.
Proof.
  intros Hc. destruct (base_Int_part (255 * c + 0.5)) as [Hle Hgt].
  split.
  - assert (IZR (-1) < IZR (Int_part (255 * c + 0.5))) by (simpl; lra).
    apply lt_IZR in H. lia.
  - assert (IZR (Int_part (255 * c + 0.5)) < IZR 256) by (simpl; lra).
    apply lt_IZR in H. lia.
Qed.

(** One colour channel: a byte, whatever the hue. *)
Lemma channel_format (h l a n : R) :
  0 <= a <= l -> a <= 1 - l ->
  exists v : Z, (0 <= v <= 255)%Z /\ channel (Fin h) (Fin l) (Fin a) n = hex2 v.
Proof.
  intros Ha Hal. unfold channel.
  rewrite ndiv_Fin by lra. rewrite nadd_Fin.
  unfold nrem. destruct (Req_dec_T 12 0) as [E | _]; [lra |].
  set (k := n + h / 30 - 12 * IZR (Rtrunc ((n + h / 30) / 12))).
  rewrite !nsub_Fin, !nmin_Fin, nmax_Fin, nmul_Fin, nsub_Fin, nmul_Fin.
  set (m := Rmax (Rmin (Rmin (k - 3) (9 - k)) 1) (-1)).
  assert (Hm : -1 <= m <= 1).
  { unfold m. split; [apply Rmax_r |].
    apply Rmax_lub; [apply Rmin_r | lra]. }
  exists (Int_part (255 * (l - a * m) + 0.5)). split; [| reflexivity].
  apply round_byte. nra.
Qed.

Lemma hslToHex_bytes (h s l : R) :
  0 <= s <= 100 -> 0 <= l <= 100 ->
  exists r g b : Z,
    (0 <= r <= 255)%Z /\ (0 <= g <= 255)%Z /\ (0 <= b <= 255)%Z /\
    hslToHex (Fin h) (Fin s) (Fin l)
    = String "#" (hex2 r +:+ hex2 g +:+ hex2 b).
Proof.
  intros Hs Hl. unfold hslToHex.
  rewrite ndiv_Fin by lra. rewrite nsub_Fin, nmin_Fin, nmul_Fin.
  rewrite ndiv_Fin by lra.
  set (lr := l / 100). set (ar := s * Rmin lr (1 - lr) / 100).
  assert (Hlr : 0 <= lr <= 1) by (unfold lr; lra).
  assert (Har : 0 <= ar <= lr /\ ar <= 1 - lr).
  { unfold ar.
    pose proof (Rmin_l lr (1 - lr)). pose proof (Rmin_r lr (1 - lr)).
    assert (0 <= Rmin lr (1 - lr)) by (apply Rmin_glb; lra).
    nra. }
  destruct Har as [Har1 Har2].
  destruct (channel_format h lr ar 0 Har1 Har2) as (r & Hr & ->).
  destruct (channel_format h lr ar 8 Har1 Har2) as (g & Hg & ->).
  destruct (channel_format h lr ar 4 Har1 Har2) as (b & Hb & ->).
  exists r, g, b.
  split; [exact Hr | split; [exact Hg | split; [exact Hb | reflexivity]]].
Qed.

Lemma bytes_hex_colour (r g b : Z) :
  (0 <= r <= 255)%Z -> (0 <= g <= 255)%Z -> (0 <= b <= 255)%Z ->
  is_hex_colour (String "#" (hex2 r +:+ hex2 g +:+ hex2 b)) = true.
Proof.
  intros Hr Hg Hb.
  destruct (hex2_ok r Hr) as [Lr Dr], (hex2_ok g Hg) as [Lg Dg],
    (hex2_ok b Hb) as [Lb Db].
  unfold is_hex_colour.
  rewrite !string_length_app, !hex_digits_app, Lr, Lg, Lb, Dr, Dg, Db.
  reflexivity.
Qed.

(** X5: for a finite hue and a saturation and a lightness between 0 and
    100, [hslToHex] returns [#] followed by three bytes in two
    hexadecimal digits each: a string a colour picker accepts. *)
Theorem hslToHex_format (h s l : R) :
  0 <= s <= 100 -> 0 <= l <= 100 ->
  (exists r g b : Z,
     (0 <= r <= 255)%Z /\ (0 <= g <= 255)%Z /\ (0 <= b <= 255)%Z /\
     hslToHex (Fin h) (Fin s) (Fin l)
     = String "#" (hex2 r +:+ hex2 g +:+ hex2 b)) /\
  is_hex_colour (hslToHex (Fin h) (Fin s) (Fin l)) = true.
Proof.
  intros Hs Hl.
  pose proof (hslToHex_bytes h s l Hs Hl) as Hex.
  split; [exact Hex |].
  destruct Hex as (r & g & b & Hr & Hg & Hb & ->).
  apply bytes_hex_colour; assumption.
Qed.

(** X4: on every snapshot the program can hold, the two hues pushed to
    the colour pickers are finite and within [0, 360], and the values
    written to the pickers are colours the pickers accept; for a finite
    Bz the hues are 350 - 15 Bz and 220 + 15 Bz clamped to that range,
    and an infinite Bz pins them to the ends. *)
Theorem picker_hues_in_range (d : NoaaData) :
  reachable d ->
  (exists hl hr : R,
     leftHue d = Fin hl /\ rightHue d = Fin hr /\
     0 <= hl <= 360 /\ 0 <= hr <= 360) /\
  (is_hex_colour (fst (pickerValues d)) = true /\
   is_hex_colour (snd (pickerValues d)) = true) /\
  (forall b : R, bz d = Fin b ->
     leftHue d = Fin (Rmax 0 (Rmin 360 (350 - b * 15))) /\
     rightHue d = Fin (Rmax 0 (Rmin 360 (220 + b * 15)))) /\
  (bz d = PInf -> leftHue d = Fin 0 /\ rightHue d = Fin 360) /\
  (bz d = NInf -> leftHue d = Fin 360 /\ rightHue d = Fin 0).
Proof.
  intros Hd. pose proof (reachable_bz d Hd) as Hbz.
  assert (Hfin : forall b : R, bz d = Fin b ->
            leftHue d = Fin (Rmax 0 (Rmin 360 (350 - b * 15))) /\
            rightHue d = Fin (Rmax 0 (Rmin 360 (220 + b * 15)))).
  { intros b Hb. unfold leftHue, rightHue, bzShift. rewrite Hb.
    rewrite nmul_Fin, nsub_Fin, nadd_Fin, !nmin_Fin, !nmax_Fin.
    split; reflexivity. }
  assert (Hp : bz d = PInf -> leftHue d = Fin 0 /\ rightHue d = Fin 360).
  { intros Hb. unfold leftHue, rightHue, bzShift. rewrite Hb.
    cbn [nmul]. rewrite (Rsign_pos 15) by lra. cbn.
    destruct (Rlt_dec 0 360); [| lra]. split; reflexivity. }
  assert (Hn : bz d = NInf -> leftHue d = Fin 360 /\ rightHue d = Fin 0).
  { intros Hb. unfold leftHue, rightHue, bzShift. rewrite Hb.
    cbn [nmul]. rewrite (Rsign_pos 15) by lra. cbn.
    destruct (Rlt_dec 0 360); [| lra]. split; reflexivity. }
  assert (Hex : exists hl hr : R,
            leftHue d = Fin hl /\ rightHue d = Fin hr /\
            0 <= hl <= 360 /\ 0 <= hr <= 360).
  { destruct (bz d) as [| b | |] eqn:Hb.
    - contradiction.
    - destruct (Hfin b eq_refl) as [-> ->].
      eexists _, _. split_all; try reflexivity; apply hue_clamp_range.
    - destruct (Hp eq_refl) as [-> ->].
      exists 0, 360. split_all; try reflexivity; lra.
    - destruct (Hn eq_refl) as [-> ->].
      exists 360, 0. split_all; try reflexivity; lra. }
  split; [exact Hex |]. split; [| split_all; assumption].
  destruct Hex as (hl & hr & El & Er & _ & _).
  unfold pickerValues. cbn [fst snd]. rewrite El, Er.
  assert (H100 : 0 <= 100 <= 100) by lra.
  assert (H50 : 0 <= 50 <= 100) by lra.
  destruct (hslToHex_bytes hl 100 50 H100 H50)
    as (r1 & g1 & b1 & ? & ? & ? & ->).
  destruct (hslToHex_bytes hr 100 50 H100 H50)
    as (r2 & g2 & b2 & ? & ? & ? & ->).
  split; apply bytes_hex_colour; assumption.
Qed.

(** X4 on the initial snapshot, where Bz is 0: the hues are 350 and
    220. *)
Lemma picker_hues_in_range_witness :
  leftHue noaaData0 = Fin 350 /\ rightHue noaaData0 = Fin 220 /\
  is_hex_colour (fst (pickerValues noaaData0)) = true.
Proof.
  destruct (picker_hues_in_range noaaData0 reachable_init)
    as (_ & [Hcol _] & Hfin & _).
  destruct (Hfin 0 eq_refl) as [-> ->].
  split; [| split; [| exact Hcol]]; f_equal.
  - replace (350 - 0 * 15) with 350 by lra.
    rewrite Rmin_right by lra. apply Rmax_right. lra.
  - replace (220 + 0 * 15) with 220 by lra.
    rewrite Rmin_right by lra. apply Rmax_right. lra.
Defined.

(** X5 on the values written to the pickers. *)
Lemma hslToHex_format_witness :
  is_hex_colour (hslToHex 350 100 50) = true /\
  is_hex_colour (hslToHex 220 100 50) = true.
Proof.
  split.
  - apply (hslToHex_format 350 100 50); lra.
  - apply (hslToHex_format 220 100 50); lra.
Defined.

Lemma Int_part_eval (x : R) (z : Z) :
  IZR z <= x < IZR z + 1 -> Int_part x = z.
Proof.
  intros H. symmetry. apply Int_part_spec. lra.
Qed.

Lemma Rtrunc_eval (x : R) (z : Z) :
  0 <= x -> IZR z <= x < IZR z + 1 -> Rtrunc x = z.
Proof.
  intros H0 H. unfold Rtrunc. destruct (Rlt_dec x 0); [lra |].
  apply Int_part_eval, H.
Qed.

(** Evaluates one channel at concrete arguments, given the quotient [q]
    of the remainder and the byte [v] it rounds to. *)
Ltac eval_channel q v :=
  unfold channel;
  rewrite ndiv_Fin by lra; rewrite nadd_Fin;
  unfold nrem; destruct (Req_dec_T 12 0) as [? | _]; [lra |];
  rewrite (Rtrunc_eval _ q) by (simpl; lra);
  rewrite !nsub_Fin, !nmin_Fin, nmax_Fin, nmul_Fin, nsub_Fin, nmul_Fin;
  unfold round;
  rewrite (Int_part_eval _ v);
  [ reflexivity
  | simpl IZR;
    repeat match goal with
    | |- context [Rmin ?a ?b] =>
        first [ rewrite (Rmin_left a b) by lra
              | rewrite (Rmin_right a b) by lra ]
    | |- context [Rmax ?a ?b] =>
        first [ rewrite (Rmax_left a b) by lra
              | rewrite (Rmax_right a b) by lra ]
    end; lra ].

(** Pure red, and the blue the right picker starts from. *)
Example hslToHex_red : hslToHex 0 100 50 = "#ff0000"%string.
Proof.
  unfold hslToHex.
  rewrite ndiv_Fin by lra. rewrite nsub_Fin, nmin_Fin, nmul_Fin.
  rewrite ndiv_Fin by lra.
  replace (100 * Rmin (50 / 100) (1 - 50 / 100) / 100) with 0.5
    by (rewrite Rmin_left by lra; lra).
  replace (channel 0 (Fin (50 / 100)) 0.5 0) with "ff"%string
    by (symmetry; eval_channel 0%Z 255%Z).
  replace (channel 0 (Fin (50 / 100)) 0.5 8) with "00"%string
    by (symmetry; eval_channel 0%Z 0%Z).
  replace (channel 0 (Fin (50 / 100)) 0.5 4) with "00"%string
    by (symmetry; eval_channel 0%Z 0%Z).
  reflexivity.
Qed.

Example hslToHex_blue : hslToHex 220 100 50 = "#0055ff"%string.
Proof.
  unfold hslToHex.
  rewrite ndiv_Fin by lra. rewrite nsub_Fin, nmin_Fin, nmul_Fin.
  rewrite ndiv_Fin by lra.
  replace (100 * Rmin (50 / 100) (1 - 50 / 100) / 100) with 0.5
    by (rewrite Rmin_left by lra; lra).
  replace (channel 220 (Fin (50 / 100)) 0.5 0) with "00"%string
    by (symmetry; eval_channel 0%Z 0%Z).
  replace (channel 220 (Fin (50 / 100)) 0.5 8) with "55"%string
    by (symmetry; eval_channel 1%Z 85%Z).
  replace (channel 220 (Fin (50 / 100)) 0.5 4) with "ff"%string
    by (symmetry; eval_channel 0%Z 255%Z).
  reflexivity.
Qed.

(** ** Content sequencer, continued *)

Lemma content_in_range_cases (i : Z) :
  (1 <= i <= 13)%Z ->
  (i = 1 \/ i = 2 \/ i = 3 \/ i = 4 \/ i = 5 \/ i = 6 \/ i = 7 \/ i = 8 \/
   i = 9 \/ i = 10 \/ i = 11 \/ i = 12 \/ i = 13)%Z.
Proof. lia. Qed.

(** Settles a goal about a content state with a concrete index by
    running it through every index of the play list and both kinds. *)
Ltac by_content_cases c H :=
  let i := fresh "i" in
  let t := fresh "t" in
  destruct c as [i t]; cbn [currentIndex currentType] in H;
  apply content_in_range_cases in H;
  repeat (destruct H as [H | H]; [subst i; destruct t; vm_compute; auto |]);
  subst i; destruct t; vm_compute; auto.

(** X6: on the play list, forward and backward advance undo each
    other, in either order, kind included. *)
Theorem next_prev_inverse (c : Content) :
  (1 <= currentIndex c <= 13)%Z ->
  prevContent (nextContent c) = c /\ nextContent (prevContent c) = c.
Proof. intros H. by_content_cases c H. Qed.

(** X6 at the two ends of the play list. *)
Lemma next_prev_inverse_witness :
  prevContent (nextContent {| currentIndex := 13; currentType := gif |})
  = {| currentIndex := 13; currentType := gif |} /\
  nextContent (prevContent {| currentIndex := 1; currentType := jpg |})
  = {| currentIndex := 1; currentType := jpg |}.
Proof.
  split.
  - apply (next_prev_inverse {| currentIndex := 13; currentType := gif |}).
    simpl. lia.
  - apply (next_prev_inverse {| currentIndex := 1; currentType := jpg |}).
    simpl. lia.
Defined.

(** X7: from any place on the play list, 13 advances in one direction
    come back to the same index with the other kind, and 26 come back
    to the very same state: the sequencer walks a single cycle of 26
    files. *)
Theorem content_cycle_26 (c : Content) :
  (1 <= currentIndex c <= 13)%Z ->
  Nat.iter 13 nextContent c
  = {| currentIndex := currentIndex c; currentType := flip (currentType c) |} /\
  Nat.iter 13 prevContent c
  = {| currentIndex := currentIndex c; currentType := flip (currentType c) |} /\
  Nat.iter 26 nextContent c = c /\
  Nat.iter 26 prevContent c = c.
Proof. intros H. by_content_cases c H. Qed.

(** X7 from the middle of the play list. *)
Lemma content_cycle_26_witness :
  Nat.iter 13 nextContent {| currentIndex := 7; currentType := jpg |}
  = {| currentIndex := 7; currentType := gif |} /\
  Nat.iter 26 nextContent {| currentIndex := 7; currentType := jpg |}
  = {| currentIndex := 7; currentType := jpg |}.
Proof.
  destruct (content_cycle_26 {| currentIndex := 7; currentType := jpg |})
    as (H13 & _ & H26 & _).
  - simpl. lia.
  - split; assumption.
Defined.

Lemma random_index_range (u : R) :
  0 <= u < 1 -> (1 <= Int_part (u * 13) + 1 <= 13)%Z.
Proof.
  intros Hu. destruct (base_Int_part (u * 13)) as [Hle Hgt].
  assert (H1 : IZR (-1) < IZR (Int_part (u * 13))) by (simpl; lra).
  assert (H2 : IZR (Int_part (u * 13)) < IZR 13) by (simpl; lra).
  apply lt_IZR in H1, H2. lia.
Qed.

(** X8: with the two draws in [0, 1), a random pick lands on the play
    list, the kind is jpg exactly when the second draw is above 0.5, and
    every index of the play list can be drawn. *)
Theorem randomContent_on_play_list (u1 u2 : R) :
  0 <= u1 < 1 -> 0 <= u2 < 1 ->
  (1 <= currentIndex (randomContent u1 u2) <= 13)%Z /\
  (currentType (randomContent u1 u2) = jpg <-> 0.5 < u2) /\
  (forall i : Z, (1 <= i <= 13)%Z ->
     0 <= (IZR i - 0.5) / 13 < 1 /\
     currentIndex (randomContent ((IZR i - 0.5) / 13) u2) = i).
Proof.
  intros Hu1 Hu2. split; [| split].
  - apply random_index_range, Hu1.
  - unfold randomContent. cbn [currentType].
    destruct (Rlt_dec 0.5 u2); split; try discriminate; intros; auto; lra.
  - intros i Hi.
    assert (1 <= IZR i <= 13).
    { split; [apply (IZR_le 1) | apply (IZR_le i 13)]; lia. }
    split; [lra |].
    unfold randomContent. cbn [currentIndex].
    rewrite (Int_part_eval _ (i - 1)); [lia |].
    rewrite minus_IZR. simpl IZR. lra.
Qed.

(** X8 at two draws: 0 gives index 1, and a draw just below 1 gives
    index 13. *)
Lemma randomContent_on_play_list_witness :
  (1 <= currentIndex (randomContent 0 0.75) <= 13)%Z /\
  currentType (randomContent 0 0.75) = jpg /\
  currentIndex (randomContent ((IZR 13 - 0.5) / 13) 0.75) = 13%Z.
Proof.
  assert (H0 : 0 <= 0 < 1) by lra.
  assert (H1 : 0 <= 0.75 < 1) by lra.
  destruct (randomContent_on_play_list 0 0.75 H0 H1) as (Hr & Ht & Hall).
  split; [| split].
  - exact Hr.
  - apply Ht. lra.
  - apply (Hall 13%Z). lia.
Defined.

(** ** The requested file *)

Lemma string_app_inv (s1 s2 t1 t2 : string) :
  String.length s1 = String.length s2 ->
  s1 +:+ t1 = s2 +:+ t2 -> s1 = s2 /\ t1 = t2.
Proof.
  revert s2. induction s1 as [| c s1 IH]; intros [| c' s2] Hlen Heq;
    simpl in *; try discriminate.
  - split; [reflexivity | assumption].
  - injection Heq as -> Heq. injection Hlen as Hlen.
    destruct (IH s2 Hlen Heq) as [-> ->]. split; reflexivity.
Qed.

Lemma extension_length (t : MediaType) : String.length (extension t) = 3%nat.
Proof. destruct t; reflexivity. Qed.

Lemma extension_inj (t1 t2 : MediaType) :
  extension t1 = extension t2 -> t1 = t2.
Proof. destruct t1, t2; simpl; intros H; try reflexivity; discriminate. Qed.

(** X9: two content states whose index is on the play list ask
    [loadContent] for the same file only if they are the same state, so
    the sequencer's cycle visits 26 different file names. *)
Theorem filename_injective (c1 c2 : Content) :
  (1 <= currentIndex c1 <= 13)%Z -> (1 <= currentIndex c2 <= 13)%Z ->
  filename c1 = filename c2 -> c1 = c2.
Proof.
  unfold filename. intros _ _ H.
  assert (Hlen : String.length (pretty (currentIndex c1))
                 = String.length (pretty (currentIndex c2))).
  { apply (f_equal String.length) in H.
    rewrite !string_length_app, !extension_length in H. simpl in H. lia. }
  destruct (string_app_inv _ _ _ _ Hlen H) as [Hi He].
  apply (inj pretty) in Hi.
  simpl in He. injection He as He. apply extension_inj in He.
  destruct c1, c2. simpl in *. subst. reflexivity.
Qed.

(** X9 on the file asked for after advancing from index 12. *)
Lemma filename_injective_witness :
  filename (nextContent {| currentIndex := 12; currentType := gif |})
  = "13.gif"%string /\
  nextContent {| currentIndex := 12; currentType := gif |}
  = {| currentIndex := 13; currentType := gif |}.
Proof.
  split; [reflexivity |].
  apply filename_injective; [simpl; lia | simpl; lia | reflexivity].
Defined.

(** ** Move flags and manual navigation *)

Lemma flag_moveCamera_other (dir k : string) (s : AppState) :
  k <> dir -> flag (moveCamera dir s) k = flag s k.
Proof.
  intros H. unfold flag, moveCamera. simpl.
  rewrite lookup_insert_ne by congruence. reflexivity.
Qed.

Lemma flag_stopCamera (s : AppState) (k : string) :
  flag (stopCamera s) k = false.
Proof.
  unfold flag, stopCamera. simpl. rewrite lookup_fmap.
  destruct (moveState (nav s) !! k); reflexivity.
Qed.

Lemma manual_step_idle (s : AppState) :
  Forall (λ k, flag s k = false) directions -> manual_step s = s.
Proof.
  intros H. unfold directions in H.
  repeat match goal with
         | H : Forall _ (_ :: _) |- _ => apply Forall_cons in H as [? H]
         end.
  unfold manual_step.
  repeat match goal with E : flag s _ = false |- _ => rewrite E; clear E end.
  reflexivity.
Qed.

(** X10: [moveCamera] raises the flag it names and no other; and once
    [stopCamera] has run, the navigation step of a frame in Manual mode
    changes nothing at all, however the flags stood before. *)
Theorem stopCamera_halts_manual_motion (e : FrameInput) (s : AppState) :
  isAutopilot (nav s) = false ->
  (forall dir k : string,
     flag (moveCamera dir s) dir = true /\
     (k <> dir -> flag (moveCamera dir s) k = flag s k)) /\
  nav_step e (stopCamera s) = stopCamera s /\
  camera (nav (nav_step e (stopCamera s))) = camera (nav s) /\
  target (nav (nav_step e (stopCamera s))) = target (nav s).
Proof.
  intros Hm.
  assert (Hstep : nav_step e (stopCamera s) = stopCamera s).
  { unfold nav_step.
    change (isAutopilot (nav (stopCamera s))) with (isAutopilot (nav s)).
    rewrite Hm. apply manual_step_idle.
    apply Forall_forall. intros k _. apply flag_stopCamera. }
  split_all.
  - intros dir k. split; [apply flag_moveCamera | apply flag_moveCamera_other].
  - exact Hstep.
  - rewrite Hstep. reflexivity.
  - rewrite Hstep. reflexivity.
Qed.

(** X10 from the initial state with two buttons held. *)
Lemma stopCamera_halts_manual_motion_witness :
  let s := moveCamera "up" (moveCamera "forward" state0) in
  flag s "forward" = true /\ flag s "up" = true /\
  nav_step (quiet_frame 0) (stopCamera s) = stopCamera s.
Proof.
  intros s.
  destruct (stopCamera_halts_manual_motion (quiet_frame 0) s eq_refl)
    as (_ & Hstep & _).
  destruct (stopCamera_halts_manual_motion (quiet_frame 0)
              (moveCamera "forward" state0) eq_refl) as (Hflag & _).
  destruct (stopCamera_halts_manual_motion (quiet_frame 0) state0 eq_refl)
    as (Hflag0 & _).
  split_all.
  - unfold s. rewrite (proj2 (Hflag "up" "forward")%string) by discriminate.
    apply (proj1 (Hflag0 "forward" "forward")%string).
  - apply (proj1 (Hflag "up" "up")%string).
  - exact Hstep.
Defined.

Lemma moveVector_components (s : AppState) :
  Vector3.x (moveVector s)
  = Vector3.x (heading s) * (push s "forward" - push s "backward")
    + Vector3.x (sideways s) * (push s "left" - push s "right") /\
  Vector3.y (moveVector s)
  = Vector3.y (heading s) * (push s "forward" - push s "backward")
    + Vector3.y (sideways s) * (push s "left" - push s "right")
    + (push s "up" - push s "down") /\
  Vector3.z (moveVector s)
  = Vector3.z (heading s) * (push s "forward" - push s "backward")
    + Vector3.z (sideways s) * (push s "left" - push s "right").
Proof.
  unfold moveVector, push. fold (heading s). fold (sideways s).
  destruct (flag s "forward"), (flag s "backward"), (flag s "left"),
    (flag s "right"), (flag s "up"), (flag s "down");
    cbn [Vector3.x Vector3.y Vector3.z Vector3.addScaledVector Vector3.add
         Vector3.multiplyScalar Vector3.zero];
    unfold moveSpeed; split_all; lra.
Qed.

Lemma heading_level (s : AppState) : Vector3.y (heading s) = 0.
Proof. unfold heading, Vector3.normalize. simpl. lra. Qed.

Lemma sideways_level (s : AppState) : Vector3.y (sideways s) = 0.
Proof.
  unfold sideways, Vector3.normalize, Vector3.crossVectors, camera_up.
  simpl. lra.
Qed.

Lemma manual_step_moves (s : AppState) :
  position (camera (nav (manual_step s)))
  = (if flag s "forward" || flag s "backward" || flag s "left"
        || flag s "right" || flag s "up" || flag s "down"
     then Vector3.add (position (camera (nav s))) (moveVector s)
     else position (camera (nav s))) /\
  target (nav (manual_step s))
  = (if flag s "forward" || flag s "backward" || flag s "left"
        || flag s "right" || flag s "up" || flag s "down"
     then Vector3.add (target (nav s)) (moveVector s)
     else target (nav s)).
Proof.
  unfold manual_step.
  destruct (flag s "forward" || flag s "backward" || flag s "left"
            || flag s "right" || flag s "up" || flag s "down");
    split; reflexivity.
Qed.

Lemma moveVector_at_rest (s : AppState) :
  flag s "forward" || flag s "backward" || flag s "left"
  || flag s "right" || flag s "up" || flag s "down" = false ->
  push s "forward" = 0 /\ push s "backward" = 0 /\ push s "left" = 0 /\
  push s "right" = 0 /\ push s "up" = 0 /\ push s "down" = 0.
Proof.
  unfold push.
  destruct (flag s "forward"), (flag s "backward"), (flag s "left"),
    (flag s "right"), (flag s "up"), (flag s "down");
    simpl; intros H; try discriminate; split_all; reflexivity.
Qed.

(** X11: in Manual mode the navigation step of a frame moves the camera
    and the orbit target by one and the same vector, so the offset from
    camera to target is kept; the height changes by the speed 0.25 for
    the up flag, minus 0.25 for the down flag, and by nothing else; the
    mode, the clocks, the flags, the content, the snapshot and the scene
    are left alone. *)
Theorem manual_step_translates (e : FrameInput) (s : AppState) :
  isAutopilot (nav s) = false ->
  let s' := nav_step e s in
  Vector3.sub (target (nav s')) (position (camera (nav s')))
  = Vector3.sub (target (nav s)) (position (camera (nav s))) /\
  Vector3.y (position (camera (nav s')))
  = Vector3.y (position (camera (nav s))) + (push s "up" - push s "down") /\
  worldDirection (camera (nav s')) = worldDirection (camera (nav s)) /\
  autopilotTime (nav s') = autopilotTime (nav s) /\
  autopilotContentTimer (nav s') = autopilotContentTimer (nav s) /\
  moveState (nav s') = moveState (nav s) /\
  content s' = content s /\ noaaData s' = noaaData s /\ scene s' = scene s.
Proof.
  intros Hm s'. unfold s', nav_step. rewrite Hm.
  destruct (manual_step_moves s) as [Hp Ht].
  destruct (moveVector_components s) as (_ & Hy & _).
  rewrite heading_level, sideways_level in Hy.
  split_all.
  - rewrite Hp, Ht.
    destruct (flag s "forward" || flag s "backward" || flag s "left"
              || flag s "right" || flag s "up" || flag s "down");
      [| reflexivity].
    unfold Vector3.sub, Vector3.add. simpl. f_equal; lra.
  - rewrite Hp.
    destruct (flag s "forward" || flag s "backward" || flag s "left"
              || flag s "right" || flag s "up" || flag s "down") eqn:E.
    + simpl. rewrite Hy. lra.
    + destruct (moveVector_at_rest s E) as (_ & _ & _ & _ & -> & ->). lra.
  - unfold manual_step. destruct (_ || _); reflexivity.
  - unfold manual_step. destruct (_ || _); reflexivity.
  - unfold manual_step. destruct (_ || _); reflexivity.
  - unfold manual_step. destruct (_ || _); reflexivity.
  - unfold manual_step. destruct (_ || _); reflexivity.
  - unfold manual_step. destruct (_ || _); reflexivity.
  - unfold manual_step. destruct (_ || _); reflexivity.
Qed.

(** X11 from the initial state with the up button held: the camera
    rises from 1.6 to 1.85 and the target rises with it. *)
Lemma manual_step_translates_witness :
  let s := moveCamera "up" state0 in
  Vector3.y (position (camera (nav (nav_step (quiet_frame 0) s))))
  = 1.6 + (0.25 - 0) /\
  Vector3.sub (target (nav (nav_step (quiet_frame 0) s)))
              (position (camera (nav (nav_step (quiet_frame 0) s))))
  = Vector3.sub (target (nav s)) (position (camera (nav s))).
Proof.
  intros s.
  destruct (manual_step_translates (quiet_frame 0) s eq_refl)
    as (Hoff & Hy & _).
  split; [| exact Hoff].
  rewrite Hy. reflexivity.
Defined.

Lemma unit_after_scaling (a c l i : R) :
  a * a + c * c = l * l -> l * i = 1 ->
  a * i * (a * i) + c * i * (c * i) = 1.
Proof.
  intros Hl Hi.
  transitivity ((a * a + c * c) * (i * i)); [ring |].
  rewrite Hl.
  transitivity ((l * i) * (l * i)); [ring |].
  rewrite Hi. ring.
Qed.

Lemma heading_unit (s : AppState) :
  ground_sq (worldDirection (camera (nav s))) <> 0 ->
  ground_sq (heading s) = 1.
Proof.
  unfold ground_sq, heading, Vector3.normalize, Vector3.length.
  set (d := worldDirection (camera (nav s))).
  cbn [Vector3.x Vector3.y Vector3.z Vector3.multiplyScalar].
  intros Hd.
  set (q := Vector3.x d * Vector3.x d + 0 * 0 + Vector3.z d * Vector3.z d).
  assert (Hq : 0 < q).
  { unfold q. pose proof (Rle_0_sqr (Vector3.x d)).
    pose proof (Rle_0_sqr (Vector3.z d)). unfold Rsqr in *. lra. }
  pose proof (sqrt_lt_R0 q Hq) as Hl.
  pose proof (sqrt_sqrt q (Rlt_le _ _ Hq)) as Hll.
  destruct (Req_dec_T (sqrt q) 0) as [E | _]; [lra |].
  assert (Hinv : sqrt q * (1 / sqrt q) = 1) by (field; lra).
  apply (unit_after_scaling _ _ (sqrt q)); [| exact Hinv].
  rewrite Hll. unfold q. ring.
Qed.

Lemma heading_vertical (s : AppState) :
  ground_sq (worldDirection (camera (nav s))) = 0 ->
  Vector3.x (heading s) = 0 /\ Vector3.z (heading s) = 0.
Proof.
  unfold ground_sq, heading, Vector3.normalize.
  set (d := worldDirection (camera (nav s))).
  cbn [Vector3.x Vector3.y Vector3.z Vector3.multiplyScalar].
  intros Hd.
  pose proof (Rle_0_sqr (Vector3.x d)) as Hx.
  pose proof (Rle_0_sqr (Vector3.z d)) as Hz. unfold Rsqr in *.
  assert (Hx0 : Vector3.x d = 0) by nra.
  assert (Hz0 : Vector3.z d = 0) by nra.
  rewrite Hx0, Hz0. split; ring.
Qed.

Lemma sideways_of_unit (s : AppState) :
  ground_sq (heading s) = 1 ->
  Vector3.x (sideways s) = Vector3.z (heading s) /\
  Vector3.z (sideways s) = - Vector3.x (heading s).
Proof.
  intros Hu. pose proof (heading_level s) as Hy.
  unfold ground_sq in Hu.
  unfold sideways, Vector3.normalize, Vector3.length, Vector3.crossVectors,
    camera_up.
  cbn [Vector3.x Vector3.y Vector3.z Vector3.multiplyScalar].
  rewrite Hy.
  match goal with
  | |- context [sqrt ?a] =>
      replace a
        with (Vector3.x (heading s) * Vector3.x (heading s)
              + Vector3.z (heading s) * Vector3.z (heading s)) by ring
  end.
  rewrite Hu.
  rewrite sqrt_1. destruct (Req_dec_T 1 0); [lra |]. split; field.
Qed.

Lemma sideways_vertical (s : AppState) :
  Vector3.x (heading s) = 0 -> Vector3.z (heading s) = 0 ->
  Vector3.x (sideways s) = 0 /\ Vector3.z (sideways s) = 0.
Proof.
  intros Hx Hz. pose proof (heading_level s) as Hy.
  unfold sideways, Vector3.normalize, Vector3.crossVectors, camera_up.
  cbn [Vector3.x Vector3.y Vector3.z Vector3.multiplyScalar].
  rewrite Hx, Hy, Hz. split; ring.
Qed.

Lemma displacement_components (e : FrameInput) (s : AppState) :
  isAutopilot (nav s) = false ->
  Vector3.x (displacement e s)
  = Vector3.x (heading s) * (push s "forward" - push s "backward")
    + Vector3.x (sideways s) * (push s "left" - push s "right") /\
  Vector3.z (displacement e s)
  = Vector3.z (heading s) * (push s "forward" - push s "backward")
    + Vector3.z (sideways s) * (push s "left" - push s "right").
Proof.
  intros Hm. unfold displacement, nav_step. rewrite Hm.
  destruct (manual_step_moves s) as [-> _].
  destruct (moveVector_components s) as (Hx & _ & Hz).
  destruct (flag s "forward" || flag s "backward" || flag s "left"
            || flag s "right" || flag s "up" || flag s "down") eqn:E.
  - unfold Vector3.sub, Vector3.add.
    cbn [Vector3.x Vector3.y Vector3.z]. rewrite Hx, Hz. split; ring.
  - destruct (moveVector_at_rest s E) as (-> & -> & -> & -> & _).
    unfold Vector3.sub. cbn [Vector3.x Vector3.y Vector3.z]. split; ring.
Qed.

Lemma held_flags (s : AppState) (ks : list string) :
  held s = ks ->
  Forall (λ k, flag s k = bool_decide (k ∈ ks)) directions.
Proof.
  intros <-. apply Forall_forall. intros k Hk.
  destruct (flag s k) eqn:E; symmetry.
  - apply bool_decide_eq_true. unfold held. apply list_elem_of_filter.
    split; assumption.
  - apply bool_decide_eq_false. unfold held. rewrite list_elem_of_filter.
    intros [H _]. congruence.
Qed.

(** Reads the six flags off an equation [held s = ks] with [ks]
    concrete. *)
Ltac read_held H :=
  let HF := fresh "HF" in
  pose proof (held_flags _ _ H) as HF; unfold directions in HF;
  repeat match goal with
         | HF : Forall _ (_ :: _) |- _ =>
             let E := fresh "Hflag" in apply Forall_cons in HF as [E HF]
         end;
  repeat match goal with
         | E : flag _ _ = bool_decide ?P |- _ =>
             let b := eval vm_compute in (bool_decide P) in
             change (bool_decide P) with b in E
         end;
  unfold push;
  repeat match goal with E : flag _ _ = _ |- _ => rewrite E; clear E end.

(** X12: in Manual mode, unless the camera looks straight up or down,
    the navigation step of a frame moves the camera over the ground by
    the vector sum of (forward - backward) along the heading and
    (left - right) across it, each flag counting for 0.25: forward alone
    covers 0.25, forward with left covers 0.25 times the square root of
    2, and forward with backward cancel.  When the camera looks straight
    up or down there is no heading and the four flags move nothing. *)
Theorem manual_ground_speed (e : FrameInput) (s : AppState) :
  isAutopilot (nav s) = false ->
  (ground_sq (worldDirection (camera (nav s))) <> 0 ->
   ground_sq (displacement e s)
   = (push s "forward" - push s "backward")
     * (push s "forward" - push s "backward")
     + (push s "left" - push s "right") * (push s "left" - push s "right")) /\
  (ground_sq (worldDirection (camera (nav s))) = 0 ->
   ground_sq (displacement e s) = 0) /\
  (ground_sq (worldDirection (camera (nav s))) <> 0 ->
   held s = ["forward"]%string ->
   ground_sq (displacement e s) = moveSpeed * moveSpeed) /\
  (ground_sq (worldDirection (camera (nav s))) <> 0 ->
   held s = ["forward"; "left"]%string ->
   ground_sq (displacement e s) = 2 * (moveSpeed * moveSpeed)) /\
  (held s = ["forward"; "backward"]%string ->
   Vector3.x (displacement e s) = 0 /\ Vector3.z (displacement e s) = 0).
Proof.
  intros Hm.
  destruct (displacement_components e s Hm) as [Hx Hz].
  assert (Hgen : ground_sq (worldDirection (camera (nav s))) <> 0 ->
    ground_sq (displacement e s)
    = (push s "forward" - push s "backward")
      * (push s "forward" - push s "backward")
      + (push s "left" - push s "right") * (push s "left" - push s "right")).
  { intros Hd. pose proof (heading_unit s Hd) as Hu.
    destruct (sideways_of_unit s Hu) as [Sx Sz].
    unfold ground_sq in *. rewrite Hx, Hz, Sx, Sz.
    set (F := push s "forward" - push s "backward").
    set (L := push s "left" - push s "right").
    transitivity
      ((Vector3.x (heading s) * Vector3.x (heading s)
        + Vector3.z (heading s) * Vector3.z (heading s)) * (F * F + L * L));
      [ring |].
    rewrite Hu. ring. }
  split_all.
  - exact Hgen.
  - intros Hd. destruct (heading_vertical s Hd) as [Vx Vz].
    destruct (sideways_vertical s Vx Vz) as [Sx Sz].
    unfold ground_sq. rewrite Hx, Hz, Vx, Vz, Sx, Sz. ring.
  - intros Hd Hheld. rewrite (Hgen Hd). read_held Hheld.
    unfold moveSpeed. lra.
  - intros Hd Hheld. rewrite (Hgen Hd). read_held Hheld.
    unfold moveSpeed. lra.
  - intros Hheld. rewrite Hx, Hz. read_held Hheld. split; ring.
Qed.

(** X12 with the camera level and facing the wall: forward alone covers
    0.25, forward with left 0.25 times the square root of 2; and with
    the camera looking straight down, forward covers nothing. *)
Lemma manual_ground_speed_witness :
  ground_sq (displacement (quiet_frame 0) (moveCamera "forward" facing_wall))
  = 0.0625 /\
  ground_sq (displacement (quiet_frame 0)
               (moveCamera "left" (moveCamera "forward" facing_wall)))
  = 0.125 /\
  ground_sq (displacement (quiet_frame 0) (moveCamera "forward" looking_down))
  = 0.
Proof.
  assert (Hwall : forall s : AppState,
            worldDirection (camera (nav s)) = Vector3.Build_Vec3 0 0 (-1) ->
            ground_sq (worldDirection (camera (nav s))) <> 0).
  { intros s ->. unfold ground_sq. simpl. lra. }
  split_all.
  - destruct (manual_ground_speed (quiet_frame 0)
                (moveCamera "forward" facing_wall) eq_refl)
      as (_ & _ & H & _).
    rewrite H; [unfold moveSpeed; lra | apply Hwall; reflexivity | reflexivity].
  - destruct (manual_ground_speed (quiet_frame 0)
                (moveCamera "left" (moveCamera "forward" facing_wall)) eq_refl)
      as (_ & _ & _ & H & _).
    rewrite H; [unfold moveSpeed; lra | apply Hwall; reflexivity | reflexivity].
  - destruct (manual_ground_speed (quiet_frame 0)
                (moveCamera "forward" looking_down) eq_refl)
      as (_ & H & _).
    apply H. unfold ground_sq. simpl. lra.
Defined.

(** ** Autopilot flight *)

Lemma nav_step_autopilot (e : FrameInput) (s : AppState) :
  isAutopilot (nav s) = true -> nav_step e s = autopilot_step e s.
Proof. intros H. unfold nav_step. rewrite H. reflexivity. Qed.

Lemma orbit_radius_sq (a r : R) :
  (cos a * r) * (cos a * r) + (sin a * r) * (sin a * r) = r * r.
Proof.
  pose proof (sin2_cos2 a) as H. unfold Rsqr in H.
  transitivity ((sin a * sin a + cos a * cos a) * (r * r)); [ring |].
  rewrite H. ring.
Qed.

(** X13: in Autopilot mode the navigation step of a frame advances the
    clock by 0.01 and puts the camera and the target where the clock
    alone says: the camera on a circle around the vertical axis through
    (0, 2), at a radius between 5 and 11 and a height between -0.4 and
    3.6, the target in a small box around (0, 2.1, -2).  Where the
    camera and the target were before, and which flags are raised, makes
    no difference. *)
Theorem autopilot_step_pose (e : FrameInput) (s : AppState) :
  isAutopilot (nav s) = true ->
  let s' := nav_step e s in
  let p := position (camera (nav s')) in
  let g := target (nav s') in
  autopilotTime (nav s') = autopilotTime (nav s) + 0.01 /\
  25 <= Vector3.x p * Vector3.x p + (Vector3.z p - 2) * (Vector3.z p - 2)
     <= 121 /\
  -0.4 <= Vector3.y p <= 3.6 /\
  (-0.5 <= Vector3.x g <= 0.5 /\ 1.8 <= Vector3.y g <= 2.4 /\
   -2.2 <= Vector3.z g <= -1.8) /\
  (forall (e2 : FrameInput) (s2 : AppState),
     isAutopilot (nav s2) = true ->
     autopilotTime (nav s2) = autopilotTime (nav s) ->
     position (camera (nav (nav_step e2 s2))) = p /\
     target (nav (nav_step e2 s2)) = g).
Proof.
  intros Hm s' p g. unfold p, g, s'.
  rewrite (nav_step_autopilot e s Hm).
  unfold autopilot_step.
  cbn [nav set_nav autopilotTime camera position target
       Vector3.x Vector3.y Vector3.z].
  set (t := autopilotTime (nav s) + 0.01).
  pose proof (SIN_bound (t * 0.3)) as B1.
  pose proof (SIN_bound (t * 0.5)) as B2.
  pose proof (SIN_bound (t * 0.2)) as B3.
  pose proof (COS_bound (t * 0.3)) as B4.
  pose proof (SIN_bound (t * 0.25)) as B5.
  split; [reflexivity |].
  split.
  { replace (sin (t * 0.15) * (8 + sin (t * 0.3) * 3) + 2 - 2)
      with (sin (t * 0.15) * (8 + sin (t * 0.3) * 3)) by ring.
    rewrite orbit_radius_sq. nra. }
  split; [unfold PLAYER_HEIGHT; lra |].
  split; [unfold PLAYER_HEIGHT; lra |].
  intros e2 s2 Hm2 Ht.
  rewrite (nav_step_autopilot e2 s2 Hm2).
  unfold autopilot_step.
  cbn [nav set_nav autopilotTime camera position target].
  rewrite Ht. split; reflexivity.
Qed.

(** X13 on the first frame after switching the autopilot on from the
    initial state, with or without a reset of the camera in between. *)
Lemma autopilot_step_pose_witness :
  let s := toggleAutopilot state0 in
  autopilotTime (nav (nav_step (quiet_frame 0) s)) = 0 + 0.01 /\
  position (camera (nav (nav_step (quiet_frame 16) (resetPosition s))))
  = position (camera (nav (nav_step (quiet_frame 0) s))).
Proof.
  intros s.
  destruct (autopilot_step_pose (quiet_frame 0) s eq_refl)
    as (Ht & _ & _ & _ & Hsame).
  split; [exact Ht |].
  apply (Hsame (quiet_frame 16) (resetPosition s)); reflexivity.
Defined.

(** ** Invariants of the whole program *)

Lemma controls_update_timer (e : FrameInput) (s : AppState) :
  autopilotContentTimer (nav (controls_update e s))
  = autopilotContentTimer (nav s).
Proof.
  unfold controls_update.
  destruct (orbit e (camera (nav s)) (target (nav s))). reflexivity.
Qed.

Lemma nav_step_clocks (e : FrameInput) (s : AppState) :
  let fire := Rle_dec 8 (autopilotContentTimer (nav s) + 0.016) in
  autopilotTime (nav (nav_step e s))
  = (if isAutopilot (nav s) then autopilotTime (nav s) + 0.01
     else autopilotTime (nav s)) /\
  autopilotContentTimer (nav (nav_step e s))
  = (if isAutopilot (nav s)
     then if fire then 0 else autopilotContentTimer (nav s) + 0.016
     else autopilotContentTimer (nav s)) /\
  content (nav_step e s)
  = (if isAutopilot (nav s)
     then if fire then randomContent (random1 e) (random2 e) else content s
     else content s).
Proof.
  unfold nav_step, autopilot_step, manual_step.
  destruct (isAutopilot (nav s)).
  - cbv zeta.
    destruct (Rle_dec 8 (autopilotContentTimer (nav s) + 0.016));
      split_all; reflexivity.
  - destruct (flag s "forward" || flag s "backward" || flag s "left"
              || flag s "right" || flag s "up" || flag s "down");
      split_all; reflexivity.
Qed.

Lemma animate_clocks (e : FrameInput) (s : AppState) :
  let fire := Rle_dec 8 (autopilotContentTimer (nav s) + 0.016) in
  autopilotTime (nav (animate e s))
  = (if isAutopilot (nav s) then autopilotTime (nav s) + 0.01
     else autopilotTime (nav s)) /\
  autopilotContentTimer (nav (animate e s))
  = (if isAutopilot (nav s)
     then if fire then 0 else autopilotContentTimer (nav s) + 0.016
     else autopilotContentTimer (nav s)) /\
  content (animate e s)
  = (if isAutopilot (nav s)
     then if fire then randomContent (random1 e) (random2 e) else content s
     else content s).
Proof.
  cbv zeta. rewrite animate_unfold.
  set (s2 := set_scene _ (nav_step e s)).
  destruct (controls_update_frame e s2) as (_ & _ & _ & -> & _ & -> & _).
  rewrite controls_update_timer. unfold s2.
  cbn [nav content set_scene]. apply nav_step_clocks.
Qed.

Lemma breathe_all_lookup (time : R) (d : NoaaData) (ls : gmap string Light)
    (k : string) :
  is_Some (breathe_all time d ls !! k) <-> is_Some (ls !! k).
Proof.
  unfold breathe_all. cbn [foldl].
  rewrite !lookup_alter_is_Some. reflexivity.
Qed.

Lemma animate_handles (e : FrameInput) (s : AppState) :
  (forall k : string,
     is_Some (lights (scene (animate e s)) !! k)
     <-> is_Some (lights (scene s) !! k)) /\
  (is_Some (reactiveFrame (scene (animate e s)))
   <-> is_Some (reactiveFrame (scene s))) /\
  (is_Some (dustParticles (scene (animate e s)))
   <-> is_Some (dustParticles (scene s))).
Proof.
  rewrite animate_scene. destruct (isDynamic s).
  - cbn [dynamics lights reactiveFrame dustParticles]. split; [| split].
    + intros k. apply breathe_all_lookup.
    + rewrite fmap_is_Some. reflexivity.
    + rewrite fmap_is_Some. reflexivity.
  - split; [| split]; reflexivity.
Qed.

Lemma updateLights_handles (s : AppState) (k : string) :
  is_Some (lights (scene (updateLightsFromNOAA s)) !! k)
  <-> is_Some (lights (scene s) !! k).
Proof.
  pose proof (updateLights_lookup s k) as H. cbv zeta in H. rewrite H.
  repeat case_decide; rewrite ?fmap_is_Some; reflexivity.
Qed.

Lemma app_ok_init : app_ok state0.
Proof.
  unfold app_ok. simpl.
  split; [lia |]. split; [constructor |].
  split; [lra |]. split; [lra |].
  split; [| split; eexists; reflexivity].
  repeat constructor; eexists; reflexivity.
Qed.

Lemma app_ok_step (s : AppState) (ev : Event) :
  app_ok s -> well_formed ev -> app_ok (step s ev).
Proof.
  intros (Hc & Hd & Ht & Hk & Hl & Hf & Hp) Hev.
  destruct ev as [r | e | | | dir | | | | | u1 u2]; cbn [step].
  - (* a refresh *)
    unfold app_ok, updateSpaceWeather.
    split; [exact Hc |]. split; [constructor; exact Hd |].
    split; [exact Ht |]. split; [exact Hk |].
    split; [| split; assumption].
    eapply Forall_impl; [exact Hl |].
    intros k Hk'. apply updateLights_handles. exact Hk'.
  - (* a frame *)
    destruct Hev as [Hu1 Hu2].
    destruct (animate_clocks e s) as (Et & Ek & Ec).
    destruct (animate_handles e s) as (Al & Af & Ap).
    unfold app_ok. rewrite Et, Ek, Ec, animate_noaaData.
    split.
    { destruct (isAutopilot (nav s)); [| exact Hc].
      destruct (Rle_dec 8 (autopilotContentTimer (nav s) + 0.016));
        [| exact Hc].
      apply random_index_range, Hu1. }
    split; [exact Hd |].
    split; [destruct (isAutopilot (nav s)); lra |].
    split.
    { destruct (isAutopilot (nav s)); [| exact Hk].
      destruct (Rle_dec 8 (autopilotContentTimer (nav s) + 0.016)); lra. }
    split; [| split; [apply Af, Hf | apply Ap, Hp]].
    eapply Forall_impl; [exact Hl |]. intros k Hk'. apply Al, Hk'.
  - (* toggleAutopilot *)
    unfold app_ok, toggleAutopilot.
    cbn [content noaaData nav scene set_nav autopilotTime
         autopilotContentTimer].
    split; [exact Hc |]. split; [exact Hd |].
    destruct (negb (isAutopilot (nav s)));
      (split; [lra |]); (split; [lra |]);
      (split; [exact Hl | split; assumption]).
  - (* toggleFX *)
    unfold app_ok. split_all; assumption || apply Hc || apply Hk.
  - (* moveCamera *)
    unfold app_ok. split_all; assumption || apply Hc || apply Hk.
  - (* stopCamera *)
    unfold app_ok. split_all; assumption || apply Hc || apply Hk.
  - (* resetPosition *)
    unfold app_ok. split_all; assumption || apply Hc || apply Hk.
  - (* nextContent *)
    unfold app_ok. cbn [content set_content noaaData nav scene].
    split; [apply nextContent_range, Hc |].
    split_all; assumption || apply Hk.
  - (* prevContent *)
    unfold app_ok. cbn [content set_content noaaData nav scene].
    split.
    { unfold prevContent.
      destruct (Z.ltb_spec (currentIndex (content s) - 1) 1); simpl; lia. }
    split_all; assumption || apply Hk.
  - (* randomContent *)
    destruct Hev as [Hu1 Hu2].
    unfold app_ok. cbn [content set_content noaaData nav scene].
    split; [apply random_index_range, Hu1 |].
    split_all; assumption || apply Hk.
Qed.

(** X14: whatever the page and the network do after [init] (refreshes
    with any replies, frames, toggles, button presses, content changes,
    the random draws lying in [0, 1)), the content index stays on the
    play list, the snapshot stays one a chain of refreshes produces, the
    autopilot clock is not negative, the content timer stays in [0, 8),
    and the three lights, the frame and the dust stay in place. *)
Theorem app_invariant (evs : list Event) :
  Forall well_formed evs -> app_ok (steps evs state0).
Proof.
  unfold steps.
  assert (H : forall s, app_ok s -> Forall well_formed evs ->
                        app_ok (foldl step s evs)).
  { induction evs as [| ev evs IH]; intros s Hs Hall; [exact Hs |].
    apply Forall_cons in Hall as [Hev Hall].
    cbn [foldl]. apply IH; [apply app_ok_step; assumption | exact Hall]. }
  apply H, app_ok_init.
Qed.

(** X14 on a short session: autopilot on, one frame, a refresh
    reporting 0 everywhere, one advance and one random pick. *)
Lemma app_invariant_witness :
  app_ok (steps [ToggleAutopilot; Draw (quiet_frame 0); Refresh all_zero;
                 NextContent; RandomContent 0.5 0.5] state0).
Proof.
  apply app_invariant.
  repeat constructor; unfold unit_random; simpl; lra.
Defined.

(** ** Joystick *)

Lemma flag_insert (m : gmap string bool) (k : string) (b : bool) (n : Nav)
    (s : AppState) (j : string) :
  flag (set_nav (set_moveState (<[k := b]> m) n) s) j
  = if decide (k = j) then b
    else flag (set_nav (set_moveState m n) s) j.
Proof.
  unfold flag. cbn [nav set_nav moveState set_moveState].
  rewrite lookup_insert. case_decide; reflexivity.
Qed.

Lemma mousemove_flags (cx cy : R) (j : Stick) (s : AppState) :
  active j = true ->
  flag (mousemove cx cy j s) "forward" = (cy - startY j < Fin (-5))%J /\
  flag (mousemove cx cy j s) "backward" = (cy - startY j > 5)%J /\
  flag (mousemove cx cy j s) "left" = (cx - startX j < Fin (-5))%J /\
  flag (mousemove cx cy j s) "right" = (cx - startX j > 5)%J /\
  flag (mousemove cx cy j s) "up" = flag s "up" /\
  flag (mousemove cx cy j s) "down" = flag s "down".
Proof.
  intros Ha. unfold mousemove. rewrite Ha. cbv zeta.
  split_all; rewrite !flag_insert;
    repeat case_decide; try congruence; reflexivity.
Qed.

Lemma nlt_ngt_exclusive (a : number) :
  (a < Fin (-5))%J && (a > 5)%J = false.
Proof.
  destruct a as [| x | |]; try reflexivity.
  unfold ngt, nlt.
  destruct (Rlt_dec x (-5)), (Rlt_dec 5 x); try reflexivity. lra.
Qed.

(** X15: while the thumb is held, a pointer move sets the four
    horizontal flags from the offset to the point where the thumb was
    pressed, beyond a dead zone of 5 pixels each way; it never raises
    two opposite flags, raises none inside the dead zone, and leaves the
    up and down flags alone.  A pointer move while the thumb is not held
    changes nothing, and releasing the pointer clears every flag, up and
    down included. *)
Theorem joystick_flags (cx cy : R) (j : Stick) (s : AppState) :
  (active j = false -> mousemove cx cy j s = s) /\
  (active j = true ->
   flag (mousemove cx cy j s) "forward"
   && flag (mousemove cx cy j s) "backward" = false /\
   flag (mousemove cx cy j s) "left"
   && flag (mousemove cx cy j s) "right" = false /\
   flag (mousemove cx cy j s) "up" = flag s "up" /\
   flag (mousemove cx cy j s) "down" = flag s "down") /\
  (forall px py : R,
     let dragged := mousemove cx cy (mousedown px py j) s in
     (flag dragged "forward" = true <-> cy - py < -5) /\
     (flag dragged "backward" = true <-> 5 < cy - py) /\
     (flag dragged "left" = true <-> cx - px < -5) /\
     (flag dragged "right" = true <-> 5 < cx - px)) /\
  active (fst (mouseup j s)) = false /\
  (forall k : string, flag (snd (mouseup j s)) k = false).
Proof.
  split; [| split; [| split; [| split]]].
  - intros Ha. unfold mousemove. rewrite Ha. reflexivity.
  - intros Ha.
    destruct (mousemove_flags cx cy j s Ha) as (-> & -> & -> & -> & -> & ->).
    split; [apply nlt_ngt_exclusive |].
    split; [apply nlt_ngt_exclusive |]. split; reflexivity.
  - intros px py dragged.
    destruct (mousemove_flags cx cy (mousedown px py j) s eq_refl)
      as (Hf & Hb & Hl & Hr & _).
    fold dragged in Hf, Hb, Hl, Hr. rewrite Hf, Hb, Hl, Hr.
    cbn [mousedown startX startY]. rewrite !nsub_Fin. unfold ngt, nlt.
    destruct (Rlt_dec (cy - py) (-5)), (Rlt_dec 5 (cy - py)),
      (Rlt_dec (cx - px) (-5)), (Rlt_dec 5 (cx - px));
      repeat split; intros; try discriminate; try reflexivity;
      try assumption; try lra.
  - reflexivity.
  - intros k. apply flag_stopCamera.
Qed.

(** X15 on a thumb pressed at (100, 100) and dragged to (103, 80): the
    forward flag is raised, the others are not. *)
Lemma joystick_flags_witness :
  let s := mousemove 103 80 (mousedown 100 100 stick0) state0 in
  flag s "forward" = true /\ flag s "forward" && flag s "backward" = false /\
  flag s "left" && flag s "right" = false.
Proof.
  intros s.
  destruct (joystick_flags 103 80 (mousedown 100 100 stick0) state0)
    as (_ & Hexcl & _).
  destruct (joystick_flags 103 80 stick0 state0) as (_ & _ & Hpos & _).
  destruct (Hexcl eq_refl) as (Hfb & Hlr & _).
  destruct (Hpos 100 100) as (Hf & _).
  split; [apply Hf; lra | split; assumption].
Defined.

(** ** The reactive animation, channel by channel *)

Lemma level_above_threshold (a : number) :
  (1 < a)%J = false -> (a > 0.3)%J = true ->
  exists r : R, a = Fin r /\ 0.3 < r <= 1.
Proof.
  destruct a as [| r | |]; unfold ngt; try discriminate.
  intros H1 H2. exists r. split; [reflexivity |].
  apply nlt_Fin_inv_false' in H1. unfold nlt in H2.
  destruct (Rlt_dec 0.3 r); [lra | discriminate].
Qed.

Lemma frame_glow_range (time : R) (d : NoaaData) :
  In (fst (frame_glow time d))
     [0xff3300; 0x0066ff; 0x9933ff; 0xffaa00; 0x003344]%Z /\
  exists g : R, snd (frame_glow time d) = Fin g /\ 0 <= g <= 0.7.
Proof.
  unfold frame_glow.
  pose proof (SIN_bound (time * 2)). pose proof (SIN_bound (time * 1)).
  pose proof (SIN_bound (time * 3)). pose proof (SIN_bound (time * 1.5)).
  pose proof (SIN_bound (time * 0.5)).
  destruct (bz d < Fin (-5))%J; [| destruct (bz d > 5)%J;
    [| destruct (kp d > 5)%J; [| destruct (ssn d > 100)%J]]];
    cbn [fst snd]; (split; [simpl; tauto |]);
    eexists; (split; [reflexivity |]); lra.
Qed.

(** X16: on a frame taken with the switch on, the frame's emissive
    colour is one of the five of the palette and its emissive intensity
    lies in [0, 0.7], for any snapshot and any clock; its base height is
    kept; and on a snapshot the program can hold, its roll is at most
    0.02 radian either way and exactly 0 unless the radiation level
    exceeds 0.3, while the opacity of the star field lies in
    [0.2, 0.6] and is exactly 0.4 unless the radiation level exceeds
    0.3. *)
Theorem dynamic_frame_bounds (e : FrameInput) (s : AppState) (f : Frame) :
  isDynamic s = true -> reactiveFrame (scene s) = Some f ->
  exists f' : Frame,
    reactiveFrame (scene (animate e s)) = Some f' /\
    In (emissive f') [0xff3300; 0x0066ff; 0x9933ff; 0xffaa00; 0x003344]%Z /\
    (exists g : R, emissiveIntensity f' = Fin g /\ 0 <= g <= 0.7) /\
    baseY f' = baseY f /\
    (reachable (noaaData s) ->
     (exists q : R, rotationZ f' = Fin q /\ -0.02 <= q <= 0.02) /\
     ((radiationLevel (noaaData s) > 0.3)%J = false ->
      rotationZ f' = Fin 0) /\
     (exists o : R,
        starOpacity (starField (scene (animate e s))) = Fin o /\
        0.2 <= o <= 0.6) /\
     ((radiationLevel (noaaData s) > 0.3)%J = false ->
      starOpacity (starField (scene (animate e s))) = Fin 0.4)).
Proof.
  intros Hon Hf.
  exists (animate_frame (now e * 0.001) (noaaData s) f).
  split; [apply dynamic_reactiveFrame; assumption |].
  destruct (frame_glow_range (now e * 0.001) (noaaData s)) as [Hc Hg].
  split; [exact Hc |]. split; [exact Hg |]. split; [reflexivity |].
  intros Hd. apply reachable_snapshot_ok' in Hd.
  destruct Hd as (_ & _ & _ & _ & _ & _ & _ & _ & Hrad).
  rewrite animate_scene, Hon.
  cbn [animate_frame rotationZ dynamics starField animate_stars starOpacity].
  pose proof (SIN_bound (now e * 0.001 * 20)) as B1.
  pose proof (SIN_bound (now e * 0.001 * 10)) as B2.
  destruct (radiationLevel (noaaData s) > 0.3)%J eqn:E.
  - destruct (level_above_threshold _ Hrad E) as (r & -> & Hr).
    split; [eexists; split; [reflexivity | nra] |].
    split; [discriminate |].
    split; [eexists; split; [reflexivity | nra] | discriminate].
  - split; [exists 0; split; [reflexivity | lra] |].
    split; [reflexivity |].
    split; [exists 0.4; split; [reflexivity | lra] | reflexivity].
Qed.

(** X16 on the first frame after the readings of the specification's
    example have arrived. *)
Lemma dynamic_frame_bounds_witness :
  exists f' : Frame,
    reactiveFrame (scene (animate (quiet_frame 2000) stormy)) = Some f' /\
    (exists g : R, emissiveIntensity f' = Fin g /\ 0 <= g <= 0.7) /\
    (exists q : R, rotationZ f' = Fin q /\ -0.02 <= q <= 0.02).
Proof.
  destruct (dynamic_frame_bounds (quiet_frame 2000) stormy
              {| emissive := 0x000000; emissiveIntensity := 0; rotationZ := 0;
                 positionY := PLAYER_HEIGHT + 0.5 + 0.5;
                 baseY := PLAYER_HEIGHT + 0.5 + 0.5 |}
              eq_refl eq_refl)
    as (f' & Hf' & _ & Hg & _ & Hreach).
  exists f'. split; [exact Hf' |]. split; [exact Hg |].
  apply Hreach. unfold stormy, updateSpaceWeather. simpl noaaData.
  apply reachable_refresh, reachable_init.
Defined.

Lemma breathe_baseIntensity (time : R) (d : NoaaData) (i : nat) (l : Light) :
  baseIntensity (breathe time d i l) = baseIntensity l.
Proof. reflexivity. Qed.

Lemma product_bounds (b p q : R) :
  0 <= b -> 0.25 <= p <= 1.25 -> 0.9 <= q <= 2 ->
  0.225 * b <= b * p * q <= 2.5 * b.
Proof.
  intros Hb Hp Hq.
  assert (0.25 * b <= b * p <= 1.25 * b) by nra.
  split; nra.
Qed.

Lemma breathe_intensity_bounds (time : R) (d : NoaaData) (i : nat)
    (l : Light) (k b : R) :
  in_unit_interval (stormLevel d) -> kp d = Fin k ->
  baseIntensity l = Fin b -> 0 <= b ->
  exists v : R,
    intensity (breathe time d i l) = Fin v /\ 0.225 * b <= v <= 2.5 * b.
Proof.
  intros Hs Hk Hb Hb0. unfold breathe. rewrite Hk, Hb.
  destruct (stormLevel d) as [| w | |]; try contradiction. simpl in Hs.
  repeat (progress cbn [nadd nmul nsub nneg nsin intensity]
          || rewrite ndiv_Fin by lra).
  set (D := 0.2 + w * 0.3).
  set (S1 := sin (time * (1.5 + k / 3) + INR i * 2)).
  pose proof (SIN_bound (time * (1.5 + k / 3) + INR i * 2)) as B1.
  fold S1 in B1.
  pose proof (SIN_bound (time * 8)) as B2.
  pose proof (SIN_bound (time * 5)) as B3.
  assert (HD : 0.2 <= D <= 0.5) by (unfold D; lra).
  assert (HP : 0.25 <= S1 * D + (1 + - (D / 2)) <= 1.25) by nra.
  destruct (startsWith (recentFlare d) "X");
    [| destruct (startsWith (recentFlare d) "M")];
    eexists; (split; [reflexivity |]).
  - apply product_bounds; [assumption | assumption | lra].
  - apply product_bounds; [assumption | assumption | lra].
  - pose proof (product_bounds b (S1 * D + (1 + - (D / 2))) 1 Hb0 HP).
    lra.
Qed.

Lemma breathe_all_named (time : R) (d : NoaaData) (ls : gmap string Light) :
  breathe_all time d ls !! "left" = breathe time d 0 <$> ls !! "left" /\
  breathe_all time d ls !! "center" = breathe time d 1 <$> ls !! "center" /\
  breathe_all time d ls !! "right" = breathe time d 2 <$> ls !! "right" /\
  (forall k : string, k ∉ ["left"; "center"; "right"]%string ->
     breathe_all time d ls !! k = ls !! k).
Proof.
  unfold breathe_all. cbn [foldl]. split_all.
  - rewrite lookup_alter_ne, lookup_alter_ne, lookup_alter_eq by discriminate.
    reflexivity.
  - rewrite lookup_alter_ne, lookup_alter_eq, lookup_alter_ne by discriminate.
    reflexivity.
  - rewrite lookup_alter_eq, !lookup_alter_ne by discriminate. reflexivity.
  - intros k Hk. rewrite !elem_of_cons, elem_of_nil in Hk.
    rewrite !lookup_alter_ne; [reflexivity | | |]; intros <-; tauto.
Qed.

(** X17: on a frame taken with the switch on, with the storm level in
    [0, 1] and a finite kp index, every light that exists and has a
    finite base intensity that is not negative keeps that base
    intensity and shines between 0.225 and 2.5 times it, so never
    negatively; the dust opacity lies in [0.2, 0.5] and the ambient
    intensity in [0.03, 0.08]; a key of [lights] other than the three
    names is not touched. *)
Theorem dynamic_light_bounds (e : FrameInput) (s : AppState) (k : R) :
  isDynamic s = true ->
  in_unit_interval (stormLevel (noaaData s)) -> kp (noaaData s) = Fin k ->
  (forall (name : string) (l : Light) (b : R),
     name ∈ ["left"; "center"; "right"]%string ->
     lights (scene s) !! name = Some l ->
     baseIntensity l = Fin b -> 0 <= b ->
     exists (l' : Light) (v : R),
       lights (scene (animate e s)) !! name = Some l' /\
       baseIntensity l' = Fin b /\
       intensity l' = Fin v /\ 0.225 * b <= v <= 2.5 * b) /\
  (forall name : string,
     name ∉ ["left"; "center"; "right"]%string ->
     lights (scene (animate e s)) !! name = lights (scene s) !! name) /\
  (forall p : Dust, dustParticles (scene s) = Some p ->
     exists (p' : Dust) (o : R),
       dustParticles (scene (animate e s)) = Some p' /\
       dustOpacity p' = Fin o /\ 0.2 <= o <= 0.5) /\
  (exists a : R,
     ambientIntensity (scene (animate e s)) = Fin a /\ 0.03 <= a <= 0.08).
Proof.
  intros Hon Hs Hk. rewrite animate_scene, Hon.
  cbn [dynamics lights dustParticles ambientIntensity].
  assert (Hw : exists w : R,
            stormLevel (noaaData s) = Fin w /\ 0 <= w <= 1).
  { destruct (stormLevel (noaaData s)) as [| w | |]; try contradiction.
    exists w. split; [reflexivity | exact Hs]. }
  destruct (breathe_all_named (now e * 0.001) (noaaData s) (lights (scene s)))
    as (Hl & Hc & Hr & Hother).
  split; [| split; [exact Hother | split]].
  - intros name l b Hname Hlook Hb Hb0.
    assert (Hcases : name = "left"%string \/ name = "center"%string
                     \/ name = "right"%string).
    { rewrite !elem_of_cons, elem_of_nil in Hname. tauto. }
    destruct Hcases as [-> | [-> | ->]].
    + destruct (breathe_intensity_bounds (now e * 0.001) _ 0 l k b Hs Hk Hb Hb0)
        as (v & Hv & Hbound).
      eexists _, v. rewrite Hl, Hlook. split; [reflexivity |].
      split; [exact Hb |]. split; assumption.
    + destruct (breathe_intensity_bounds (now e * 0.001) _ 1 l k b Hs Hk Hb Hb0)
        as (v & Hv & Hbound).
      eexists _, v. rewrite Hc, Hlook. split; [reflexivity |].
      split; [exact Hb |]. split; assumption.
    + destruct (breathe_intensity_bounds (now e * 0.001) _ 2 l k b Hs Hk Hb Hb0)
        as (v & Hv & Hbound).
      eexists _, v. rewrite Hr, Hlook. split; [reflexivity |].
      split; [exact Hb |]. split; assumption.
  - intros p Hp. rewrite Hp. destruct Hw as (w & Ew & Hw).
    exists (animate_dust (now e * 0.001) (noaaData s) p), (0.2 + w * 0.3).
    split; [reflexivity |].
    split; [cbn [animate_dust dustOpacity]; rewrite Ew; reflexivity | lra].
  - destruct Hw as (w & Ew & Hw). rewrite Ew.
    exists (0.03 + w * 0.05). split; [reflexivity | lra].
Qed.

(** X17 on the first frame of the program: the left light, of base
    intensity 800, shines between 180 and 2000. *)
Lemma dynamic_light_bounds_witness :
  exists (l' : Light) (v : R),
    lights (scene (animate (quiet_frame 0) state0)) !! "left" = Some l' /\
    baseIntensity l' = Fin 800 /\
    intensity l' = Fin v /\ 180 <= v <= 2000.
Proof.
  assert (Hs : in_unit_interval (stormLevel (noaaData state0)))
    by (simpl; lra).
  destruct (dynamic_light_bounds (quiet_frame 0) state0 2 eq_refl Hs eq_refl)
    as (Hlights & _).
  destruct (Hlights "left"%string light0 800) as (l' & v & Hl' & Hb & Hv & Hr).
  - rewrite !elem_of_cons. tauto.
  - reflexivity.
  - reflexivity.
  - lra.
  - exists l', v. split; [exact Hl' |]. split; [exact Hb |].
    split; [exact Hv | lra].
Defined.

(** X18: a frame never writes the switch, the mode, the move flags or
    the snapshot, whatever its inputs; in Manual mode it writes neither
    clock nor the content either; and in Autopilot mode the content
    changes only on the frame where the content timer, advanced by
    0.016, reaches 8, which is also the only frame that resets it. *)
Theorem animate_leaves_alone (e : FrameInput) (s : AppState) :
  isDynamic (animate e s) = isDynamic s /\
  isAutopilot (nav (animate e s)) = isAutopilot (nav s) /\
  moveState (nav (animate e s)) = moveState (nav s) /\
  noaaData (animate e s) = noaaData s /\
  (isAutopilot (nav s) = false ->
   autopilotTime (nav (animate e s)) = autopilotTime (nav s) /\
   autopilotContentTimer (nav (animate e s))
   = autopilotContentTimer (nav s) /\
   content (animate e s) = content s) /\
  (isAutopilot (nav s) = true ->
   autopilotContentTimer (nav s) + 0.016 < 8 ->
   content (animate e s) = content s /\
   autopilotContentTimer (nav (animate e s))
   = autopilotContentTimer (nav s) + 0.016) /\
  (isAutopilot (nav s) = true ->
   8 <= autopilotContentTimer (nav s) + 0.016 ->
   content (animate e s) = randomContent (random1 e) (random2 e) /\
   autopilotContentTimer (nav (animate e s)) = 0).
Proof.
  destruct (animate_clocks e s) as (Et & Ek & Ec).
  split; [apply animate_isDynamic |].
  split; [apply animate_isAutopilot |].
  split.
  { rewrite animate_unfold.
    set (s2 := set_scene _ (nav_step e s)).
    destruct (controls_update_frame e s2) as (_ & _ & _ & _ & _ & _ & ->).
    unfold s2. cbn [nav set_scene]. apply nav_step_frame. }
  split; [apply animate_noaaData |].
  rewrite Et, Ek, Ec. split_all.
  - intros ->. split_all; reflexivity.
  - intros -> Hlt.
    destruct (Rle_dec 8 (autopilotContentTimer (nav s) + 0.016)); [lra |].
    split; reflexivity.
  - intros -> Hge.
    destruct (Rle_dec 8 (autopilotContentTimer (nav s) + 0.016)); [| lra].
    split; reflexivity.
Qed.

(** X18 on the first frame after switching the autopilot on: the content
    is not changed yet and the timer stands at 0.016. *)
Lemma animate_leaves_alone_witness :
  let s := toggleAutopilot state0 in
  content (animate (quiet_frame 0) s) = content state0 /\
  autopilotContentTimer (nav (animate (quiet_frame 0) s)) = 0 + 0.016.
Proof.
  intros s.
  destruct (animate_leaves_alone (quiet_frame 0) s)
    as (_ & _ & _ & _ & _ & Hquiet & _).
  apply Hquiet; [reflexivity |]. simpl. lra.
Defined.
